(** * YoutubeDownloader: the browser front end [frontend/app.js]

    A shallow embedding of the page controller: the page's globals and the
    DOM nodes it touches are an explicit [State]; synchronous functions are
    state transformers that may throw and may start asynchronous work;
    [async] functions are trees of continuations, suspended at every
    [await]; the browser (sockets, timers, network, user) is a step relation
    on a [World].

    Conventions.
    - A JavaScript string is a [string] holding its UTF-8 bytes.
    - A JavaScript number is a binary64 value of the Standard Library's
      [SpecFloat]; division and multiplication are its IEEE operations,
      and [Math.floor], [Math.round], [%] and [toFixed] are computed
      exactly on mantissa and exponent, following ECMA-262.
    - What the engine provides and the program does not define (the
      shortest-digits printing of non-integers, [JSON.parse], locale
      formatting, the wording of engine errors) is a field of the class
      [Engine]: every statement holds for every engine.
    - An object is one made by [JSON.parse]: its own members are data,
      never functions, and it inherits [toString], [valueOf] and
      [toLocaleString] from [Object.prototype].  Converting such an
      object to a string or a number throws a TypeError when it has an
      own member [toString]. *)

From Stdlib Require Import ZArith List String Ascii Bool Lia.
From Stdlib Require Import SpecFloat DecimalString.
Import ListNotations.
Local Open Scope string_scope.
Set Warnings "-register-all".

(* ================================================================== *)
(** * Strings *)

Module Str.

(** The string whose UTF-8 bytes are [bs]. *)
Definition utf8 (bs : list nat) : string :=
  string_of_list_ascii (map ascii_of_nat bs).

Definition rev (s : string) : string :=
  string_of_list_ascii (List.rev (list_ascii_of_string s)).

(** [drop_prefix p s] is [Some r] when [s = p ++ r]. *)
Fixpoint drop_prefix (p s : string) : option string :=
  match p, s with
  | EmptyString, _ => Some s
  | String a p', String b s' =>
      if Ascii.eqb a b then drop_prefix p' s' else None
  | String _ _, EmptyString => None
  end.

(** ECMA-262 WhiteSpace and LineTerminator code points, in UTF-8:
    TAB, LF, VT, FF, CR, SP, U+00A0, U+1680, U+2000..U+200A, U+2028,
    U+2029, U+202F, U+205F, U+3000, U+FEFF. *)
Definition white_space : list string :=
  map utf8
    [ [9]; [10]; [11]; [12]; [13]; [32]; [194; 160]; [225; 154; 128];
      [226; 128; 128]; [226; 128; 129]; [226; 128; 130]; [226; 128; 131];
      [226; 128; 132]; [226; 128; 133]; [226; 128; 134]; [226; 128; 135];
      [226; 128; 136]; [226; 128; 137]; [226; 128; 138];
      [226; 128; 168]; [226; 128; 169]; [226; 128; 175];
      [226; 129; 159]; [227; 128; 128]; [239; 187; 191] ].

(** The rest of [s] after one leading occurrence of a string of [pats]. *)
Fixpoint drop_one (pats : list string) (s : string) : option string :=
  match pats with
  | [] => None
  | p :: pats' =>
      match drop_prefix p s with
      | Some r => Some r
      | None => drop_one pats' s
      end
  end.

Fixpoint drop_all (fuel : nat) (pats : list string) (s : string) : string :=
  match fuel with
  | O => s
  | S fuel' =>
      match drop_one pats s with
      | Some r => drop_all fuel' pats r
      | None => s
      end
  end.

(** [String.prototype.trimStart], [trimEnd] and [trim]. *)
Definition trimStart (s : string) : string :=
  drop_all (String.length s) white_space s.

Definition trimEnd (s : string) : string :=
  rev (drop_all (String.length s) (map rev white_space) (rev s)).

Definition trim (s : string) : string := trimEnd (trimStart s).

Definition is_empty (s : string) : bool :=
  match s with EmptyString => true | _ => false end.

(** The [length] of a JavaScript string counts UTF-16 code units: one for
    every code point, two for those outside the basic plane (whose UTF-8
    form starts with a byte of 240 or more). *)
Fixpoint length16 (s : string) : nat :=
  match s with
  | EmptyString => 0
  | String a s' =>
      let b := nat_of_ascii a in
      ((if (b <? 128)%nat then 1
        else if (b <? 192)%nat then 0
        else if (b <? 240)%nat then 1 else 2) + length16 s')%nat
  end.

Fixpoint repeat (s : string) (n : nat) : string :=
  match n with
  | O => ""
  | S n' => s ++ repeat s n'
  end.

(** [s.padStart(n, '0')]. *)
Definition padStart0 (n : nat) (s : string) : string :=
  repeat "0" (n - length16 s) ++ s.

Definition of_Z (z : Z) : string := NilZero.string_of_int (Z.to_int z).

(** A line feed, and [s] between double quotes. *)
Definition newline : string := String (ascii_of_nat 10) EmptyString.

Definition quoted (s : string) : string :=
  String (ascii_of_nat 34) s ++ String (ascii_of_nat 34) EmptyString.

End Str.

(* ================================================================== *)
(** * Numbers *)

Module Num.

(** A number is a binary64 value, in the Standard Library's executable
    specification of IEEE 754: NaN, a signed zero, a signed infinity, or
    [(-1)^s * m * 2^e]. *)
Definition number : Type := spec_float.

Definition prec : Z := 53.
Definition emax : Z := 1024.

Definition zero : number := S754_zero false.
Definition neg_zero : number := S754_zero true.
Definition nan : number := S754_nan.

(** The number nearest to an integer (the integer itself up to 2^53). *)
Definition of_Z (z : Z) : number := binary_normalize prec emax z 0 false.

Definition one : number := of_Z 1.

(** [x / y], [x * y] and [x < y] on numbers. *)
Definition div (x y : number) : number := SFdiv prec emax x y.
Definition mul (x y : number) : number := SFmul prec emax x y.
Definition ltb (x y : number) : bool := SFltb x y.

(** [ToBoolean] on numbers: false for +0, -0 and NaN. *)
Definition truthy (x : number) : bool :=
  match x with
  | S754_zero _ | S754_nan => false
  | _ => true
  end.

(** [Math.floor]. *)
Definition Math_floor (x : number) : number :=
  match x with
  | S754_finite s m e =>
      if (0 <=? e)%Z then x
      else
        let r := Z.shiftr (cond_Zopp s (Zpos m)) (- e) in
        if (r =? 0)%Z then zero else of_Z r
  | _ => x
  end.

(** [Math.round]: the nearest integer, a tie going towards +Infinity;
    the result keeps the sign of [x] when it is zero. *)
Definition Math_round (x : number) : number :=
  match x with
  | S754_finite s m e =>
      if (0 <=? e)%Z then x
      else
        let r := Z.shiftr (cond_Zopp s (Zpos m) + 2 ^ (- e - 1)) (- e) in
        if (r =? 0)%Z then (if s then neg_zero else zero) else of_Z r
  | _ => x
  end.

(** [x % y] (Number::remainder): truncating, with the sign of [x]. *)
Definition remainder (x y : number) : number :=
  match x with
  | S754_nan => nan
  | S754_infinity _ => nan
  | S754_zero _ =>
      match y with
      | S754_nan => nan
      | S754_zero _ => nan
      | _ => x
      end
  | S754_finite sx mx ex =>
      match y with
      | S754_nan => nan
      | S754_infinity _ => x
      | S754_zero _ => nan
      | S754_finite _ my ey =>
          let e := Z.min ex ey in
          let r := Z.rem (Zpos mx * 2 ^ (ex - e)) (Zpos my * 2 ^ (ey - e)) in
          if (r =? 0)%Z then (if sx then neg_zero else zero)
          else binary_normalize prec emax (cond_Zopp sx r) e false
      end
  end.

(** The integer a number is, when it is one. *)
Definition integer_value (x : number) : option Z :=
  match x with
  | S754_zero _ => Some 0%Z
  | S754_finite s m e =>
      if (0 <=? e)%Z then Some (cond_Zopp s (Zpos m * 2 ^ e))
      else if (Zpos m mod 2 ^ (- e) =? 0)%Z
           then Some (cond_Zopp s (Zpos m / 2 ^ (- e)))
           else None
  | _ => None
  end.

(** The 2^53 bound up to which an integer prints as its decimal digits. *)
Definition two53 : Z := Eval cbv in (2 ^ 53)%Z.

(** Number::toString (radix 10).  NaN, the infinities, the zeros and the
    integers of magnitude at most 2^53 are printed here; [general] is the
    engine's shortest-digits printing of every other number. *)
Definition toString (general : number -> string) (x : number) : string :=
  match x with
  | S754_nan => "NaN"
  | S754_zero _ => "0"
  | S754_infinity s => if s then "-Infinity" else "Infinity"
  | S754_finite _ _ _ =>
      match integer_value x with
      | Some z => if (Z.abs z <=? two53)%Z then Str.of_Z z else general x
      | None => general x
      end
  end.

(** [x.toFixed(f)] for [0 <= f <= 100] (Number.prototype.toFixed): [n] is
    the integer nearest to [|x| * 10^f], the larger one on a tie; from
    10^21 on the number prints as [toString] does. *)
Definition toFixed (general : number -> string) (x : number) (f : nat)
  : string :=
  match x with
  | S754_nan => "NaN"
  | S754_infinity s => if s then "-Infinity" else "Infinity"
  | S754_zero _ =>
      "0" ++ (if (f =? 0)%nat then "" else "." ++ Str.repeat "0" f)
  | S754_finite s m e =>
      let sign := if s then "-" else "" in
      let big :=
        if (0 <=? e)%Z then (10 ^ 21 <=? Zpos m * 2 ^ e)%Z
        else (10 ^ 21 * 2 ^ (- e) <=? Zpos m)%Z in
      if big then sign ++ toString general (SFabs x)
      else
        let p := (10 ^ Z.of_nat f)%Z in
        let n :=
          if (0 <=? e)%Z then (Zpos m * 2 ^ e * p)%Z
          else Z.shiftr (2 * Zpos m * p + 2 ^ (- e)) (1 - e) in
        let d := Str.of_Z n in
        let d := Str.repeat "0" (f + 1 - String.length d) ++ d in
        let k := String.length d in
        sign ++
        (if (f =? 0)%nat then d
         else substring 0 (k - f) d ++ "." ++ substring (k - f) f d)
  end.

End Num.

(* ================================================================== *)
(** * Values, exceptions and the engine *)

(** What [JSON.parse] produces, and [undefined]. *)
Inductive value : Type :=
| VUndefined
| VNull
| VBool (b : bool)
| VNum (n : Num.number)
| VStr (s : string)
| VArr (elems : list value)
| VObj (fields : list (string * value)).

(** An error object: its constructor's name and its [message]. *)
Record exn : Type := mkExn { exn_name : string; exn_message : string }.

(** How an evaluation ends. *)
Inductive completion (A : Type) : Type :=
| Normal (a : A)
| Throw (e : exn).

Arguments Normal {A} a.
Arguments Throw {A} e.

(** What the JavaScript engine and the browser provide.  The program only
    calls these; every statement below holds whatever they return. *)
Class Engine : Type := {
  (** Number::toString on a number that is not an integer of magnitude at
      most 2^53 *)
  number_general : Num.number -> string;
  (** StringToNumber, the numeric value of a string *)
  StringToNumber : string -> Num.number;
  (** [JSON.parse]: the parsed value, or the SyntaxError it throws *)
  JSON_parse : string -> completion value;
  (** the message of the TypeError for reading property [key] of
      [undefined] or [null] *)
  cannot_read_message : value -> string -> string;
  (** the message of the TypeError for calling something that is not a
      function *)
  not_a_function_message : string -> string;
  (** the message of the TypeError for an object that has no primitive
      value *)
  cannot_convert_message : string;
  (** [n.toLocaleString('ja-JP')] for a number [n] *)
  Number_toLocaleString_ja : Num.number -> string;
  (** the separator [Array.prototype.toLocaleString] puts between the
      elements *)
  list_separator : string;
  (** [new Date(v).toLocaleString('ja-JP')] for a [v] that is not an
      object *)
  Date_toLocaleString_ja : value -> string
}.

Fixpoint lookup (key : string) (fields : list (string * value)) : value :=
  match fields with
  | [] => VUndefined
  | (k, v) :: rest => if String.eqb k key then v else lookup key rest
  end.

(** Whether an object has the key. *)
Definition has_field (key : string) (fields : list (string * value))
  : bool :=
  existsb (fun kv => String.eqb (fst kv) key) fields.

Section Conversions.

Context {E : Engine}.

Definition TypeError (message : string) : exn := mkExn "TypeError" message.

(** [new Error(message)]. *)
Definition Error (message : string) : exn := mkExn "Error" message.

(** Reading property [key] of [v], for the keys this program reads (none
    of them is inherited from a prototype, [length] apart). *)
Definition Get (v : value) (key : string) : completion value :=
  match v with
  | VUndefined | VNull => Throw (TypeError (cannot_read_message v key))
  | VObj fields => Normal (lookup key fields)
  | VArr elems =>
      Normal (if String.eqb key "length"
              then VNum (Num.of_Z (Z.of_nat (List.length elems)))
              else VUndefined)
  | VStr s =>
      Normal (if String.eqb key "length"
              then VNum (Num.of_Z (Z.of_nat (Str.length16 s)))
              else VUndefined)
  | VBool _ | VNum _ => Normal VUndefined
  end.

(** [ToBoolean]. *)
Definition ToBoolean (v : value) : bool :=
  match v with
  | VUndefined | VNull => false
  | VBool b => b
  | VNum n => Num.truthy n
  | VStr s => negb (Str.is_empty s)
  | VArr _ | VObj _ => true
  end.

Definition Number_toString (n : Num.number) : string :=
  Num.toString number_general n.

(** Sequencing of evaluations that can throw. *)
Definition bindC {A B} (c : completion A) (k : A -> completion B)
  : completion B :=
  match c with
  | Normal a => k a
  | Throw e => Throw e
  end.

(** [Array.prototype.join]: the strings of the elements with [sep]
    between them; [each] is what an element contributes. *)
Definition join (each : value -> completion string) (sep : string)
  : list value -> completion string :=
  fix go (elems : list value) : completion string :=
    match elems with
    | [] => Normal ""
    | x :: rest =>
        bindC (each x) (fun sx =>
        match rest with
        | [] => Normal sx
        | _ :: _ => bindC (go rest) (fun sr => Normal (sx ++ sep ++ sr))
        end)
    end.

(** [ToString].  An object has no callable [toString] of its own when it
    has an own member of that name, and the inherited [valueOf] returns
    the object: the conversion throws.  An array prints as its elements
    joined by commas, where [undefined] and [null] print as nothing. *)
Fixpoint ToString (v : value) : completion string :=
  match v with
  | VUndefined => Normal "undefined"
  | VNull => Normal "null"
  | VBool b => Normal (if b then "true" else "false")
  | VNum n => Normal (Number_toString n)
  | VStr s => Normal s
  | VArr elems =>
      join (fun x => match x with
                     | VUndefined | VNull => Normal ""
                     | _ => ToString x
                     end) "," elems
  | VObj fields =>
      if has_field "toString" fields
      then Throw (TypeError cannot_convert_message)
      else Normal "[object Object]"
  end.

(** [ToNumber]; arrays and objects go through their string. *)
Definition ToNumber (v : value) : completion Num.number :=
  match v with
  | VUndefined => Normal Num.nan
  | VNull => Normal Num.zero
  | VBool b => Normal (if b then Num.one else Num.zero)
  | VNum n => Normal n
  | VStr s => Normal (StringToNumber s)
  | VArr _ | VObj _ =>
      bindC (ToString v) (fun s => Normal (StringToNumber s))
  end.

(** [a || b]. *)
Definition or_else (a b : value) : value := if ToBoolean a then a else b.

(** [a === 'literal']. *)
Definition strict_eq_string (a : value) (lit : string) : bool :=
  match a with
  | VStr s => String.eqb s lit
  | _ => false
  end.

(** Assigning [v] to [textContent], a nullable DOMString: [undefined]
    and [null] empty the node, anything else is converted by [ToString],
    which can throw; nothing is assigned then. *)
Definition to_textContent (v : value) : completion string :=
  match v with
  | VUndefined | VNull => Normal ""
  | _ => ToString v
  end.

(** [v.toLocaleString('ja-JP')], the call [callee].  A number and a
    string have their own method; a boolean and an object inherit the
    one of [Object.prototype], which calls [toString]; an array calls
    the method of each element that is not [undefined] or [null]. *)
Fixpoint toLocaleString (callee : string) (v : value) : completion string :=
  match v with
  | VUndefined | VNull =>
      Throw (TypeError (cannot_read_message v "toLocaleString"))
  | VBool b => Normal (if b then "true" else "false")
  | VNum n => Normal (Number_toLocaleString_ja n)
  | VStr s => Normal s
  | VArr elems =>
      join (fun x => match x with
                     | VUndefined | VNull => Normal ""
                     | _ => toLocaleString "toLocaleString" x
                     end) list_separator elems
  | VObj fields =>
      if has_field "toLocaleString" fields
      then Throw (TypeError (not_a_function_message callee))
      else if has_field "toString" fields
      then Throw (TypeError (not_a_function_message "toString"))
      else Normal "[object Object]"
  end.

(** [new Date(v).toLocaleString('ja-JP')]: an object or an array is
    first converted to a primitive, its string. *)
Definition Date_toLocaleString (v : value) : completion string :=
  match v with
  | VArr _ | VObj _ =>
      bindC (ToString v) (fun s => Normal (Date_toLocaleString_ja (VStr s)))
  | _ => Normal (Date_toLocaleString_ja v)
  end.

End Conversions.

(* ================================================================== *)
(** * The page *)

(** A button, as [setButtonLoading] sees it. *)
Record Button : Type := mkButton {
  disabled : bool;
  style_opacity : string;
  style_cursor : string
}.

(** A radio button of the group [formatType]. *)
Record Radio : Type := mkRadio {
  radio_checked : bool;
  radio_value : string
}.

(** The globals of the script. *)
Record Globals : Type := mkGlobals {
  currentVideoInfo : value;
  websocket : option nat;      (* [null], or the socket's handle *)
  currentDownloadId : value
}.

(** The form: URL field, buttons, format selectors.  A [_hidden] field
    says that the element's class list contains [hidden]. *)
Record Form : Type := mkForm {
  videoUrl_value : string;
  videoUrl_focused : bool;
  fetchInfoBtn : Button;
  downloadBtn : Button;
  formatTypeRadios : list Radio;
  videoQualitySelect_value : string;
  audioQualitySelect_value : string;
  videoQualitySelector_hidden : bool;
  audioQualitySelector_hidden : bool;
  listeners_bound : bool       (* [initEventListeners] has run *)
}.

(** The four sections, of which at most one is meant to show. *)
Record Sections : Type := mkSections {
  previewSection_hidden : bool;
  progressSection_hidden : bool;
  completeSection_hidden : bool;
  errorSection_hidden : bool
}.

Record Preview : Type := mkPreview {
  videoThumbnail_src : string;
  videoTitle : string;
  videoDuration : string;
  videoUploader : string;
  videoViews : string;
  videoDescription : string
}.

Record Progress : Type := mkProgress {
  progressBar_width : string;     (* [progressBar.style.width] *)
  progressPercent : string;
  progressSpeed : string;
  progressEta : string;
  progressMessage : string
}.

Record Complete : Type := mkComplete {
  completeFilename : string;
  downloadFileBtn_href : string;
  downloadFileBtn_download : string
}.

(** A child of [historyList]: the placeholder written by
    [displayEmptyHistory], or the [div] built by [createHistoryItem], given
    by the markup assigned to its [innerHTML] and the item its click
    listener closes over. *)
Inductive node : Type :=
| HistoryEmpty
| HistoryItem (innerHTML : string) (item : value).

Inductive readyState : Type := CONNECTING | OPEN | CLOSED.

(** A [WebSocket] object.  Every one is created by [initWebSocket], which
    binds the same four handlers to it. *)
Record Socket : Type := mkSocket {
  ws_url : string;
  ws_state : readyState
}.

(** The only function the program passes to [setTimeout]. *)
Inductive callback : Type := cb_initWebSocket.

(** A pending timer: the clock value (ms) from which it may fire. *)
Record Timer : Type := mkTimer {
  timer_due : Z;
  timer_callback : callback
}.

(** The browser around the page. *)
Record Env : Type := mkEnv {
  location_protocol : string;
  location_host : string;
  location_href : string;
  sockets : list Socket;        (* every socket created so far *)
  timers : list Timer;          (* the pending timers *)
  clock : Z
}.

Record State : Type := mkState {
  globals : Globals;
  form : Form;
  sections : Sections;
  preview : Preview;
  progress : Progress;
  complete : Complete;
  errorMessage : string;
  historyList : list node;
  env : Env
}.

(** ** Field updates *)

Definition with_globals (f : Globals -> Globals) (s : State) : State :=
  mkState (f (globals s)) (form s) (sections s) (preview s) (progress s)
          (complete s) (errorMessage s) (historyList s) (env s).

Definition with_form (f : Form -> Form) (s : State) : State :=
  mkState (globals s) (f (form s)) (sections s) (preview s) (progress s)
          (complete s) (errorMessage s) (historyList s) (env s).

Definition with_sections (f : Sections -> Sections) (s : State) : State :=
  mkState (globals s) (form s) (f (sections s)) (preview s) (progress s)
          (complete s) (errorMessage s) (historyList s) (env s).

Definition with_preview (f : Preview -> Preview) (s : State) : State :=
  mkState (globals s) (form s) (sections s) (f (preview s)) (progress s)
          (complete s) (errorMessage s) (historyList s) (env s).

Definition with_progress (f : Progress -> Progress) (s : State) : State :=
  mkState (globals s) (form s) (sections s) (preview s) (f (progress s))
          (complete s) (errorMessage s) (historyList s) (env s).

Definition with_complete (f : Complete -> Complete) (s : State) : State :=
  mkState (globals s) (form s) (sections s) (preview s) (progress s)
          (f (complete s)) (errorMessage s) (historyList s) (env s).

Definition with_errorMessage (m : string) (s : State) : State :=
  mkState (globals s) (form s) (sections s) (preview s) (progress s)
          (complete s) m (historyList s) (env s).

Definition with_historyList (f : list node -> list node) (s : State)
  : State :=
  mkState (globals s) (form s) (sections s) (preview s) (progress s)
          (complete s) (errorMessage s) (f (historyList s)) (env s).

Definition with_env (f : Env -> Env) (s : State) : State :=
  mkState (globals s) (form s) (sections s) (preview s) (progress s)
          (complete s) (errorMessage s) (historyList s) (f (env s)).

Definition set_fetchInfoBtn (b : Button) (f : Form) : Form :=
  mkForm (videoUrl_value f) (videoUrl_focused f) b (downloadBtn f)
         (formatTypeRadios f) (videoQualitySelect_value f)
         (audioQualitySelect_value f) (videoQualitySelector_hidden f)
         (audioQualitySelector_hidden f) (listeners_bound f).

Definition set_downloadBtn (b : Button) (f : Form) : Form :=
  mkForm (videoUrl_value f) (videoUrl_focused f) (fetchInfoBtn f) b
         (formatTypeRadios f) (videoQualitySelect_value f)
         (audioQualitySelect_value f) (videoQualitySelector_hidden f)
         (audioQualitySelector_hidden f) (listeners_bound f).

Definition set_videoUrl (v : string) (focused : bool) (f : Form) : Form :=
  mkForm v focused (fetchInfoBtn f) (downloadBtn f)
         (formatTypeRadios f) (videoQualitySelect_value f)
         (audioQualitySelect_value f) (videoQualitySelector_hidden f)
         (audioQualitySelector_hidden f) (listeners_bound f).

Definition set_selectors_hidden (video audio : bool) (f : Form) : Form :=
  mkForm (videoUrl_value f) (videoUrl_focused f) (fetchInfoBtn f)
         (downloadBtn f) (formatTypeRadios f) (videoQualitySelect_value f)
         (audioQualitySelect_value f) video audio (listeners_bound f).

Definition set_choices (radios : list Radio) (video audio : string)
  (f : Form) : Form :=
  mkForm (videoUrl_value f) (videoUrl_focused f) (fetchInfoBtn f)
         (downloadBtn f) radios video audio (videoQualitySelector_hidden f)
         (audioQualitySelector_hidden f) (listeners_bound f).

Definition set_listeners_bound (b : bool) (f : Form) : Form :=
  mkForm (videoUrl_value f) (videoUrl_focused f) (fetchInfoBtn f)
         (downloadBtn f) (formatTypeRadios f) (videoQualitySelect_value f)
         (audioQualitySelect_value f) (videoQualitySelector_hidden f)
         (audioQualitySelector_hidden f) b.

Definition set_timers (t : list Timer) (e : Env) : Env :=
  mkEnv (location_protocol e) (location_host e) (location_href e)
        (sockets e) t (clock e).

Definition set_sockets (l : list Socket) (e : Env) : Env :=
  mkEnv (location_protocol e) (location_host e) (location_href e)
        l (timers e) (clock e).

Definition set_clock (c : Z) (e : Env) : Env :=
  mkEnv (location_protocol e) (location_host e) (location_href e)
        (sockets e) (timers e) c.

Definition set_location_href (h : string) (e : Env) : Env :=
  mkEnv (location_protocol e) (location_host e) h
        (sockets e) (timers e) (clock e).

(* ================================================================== *)
(** * Effects *)

(** A call of [fetch].  [req_body] is the value whose [JSON.stringify]
    text is sent. *)
Record request : Type := mkRequest {
  req_url : string;
  req_method : string;
  req_headers : list (string * string);
  req_body : option value
}.

(** A [Response]: its [ok] flag, and what awaiting [response.json()]
    gives (the parsed body, or the rejection when it is not JSON). *)
Record response : Type := mkResponse {
  ok : bool;
  json : completion value
}.

(** How the promise of [fetch] settles. *)
Inductive fetch_result : Type :=
| Fulfilled (r : response)
| Rejected (e : exn).

Inductive console_arg : Type :=
| CText (s : string)
| CValue (v : value)
| CExn (e : exn)
| CEvent.

Inductive console_entry : Type :=
| console_log (args : list console_arg)
| console_error (args : list console_arg).

(** An [async] function that has started: finished, or suspended at an
    [await] with the rest of its body.  The rest runs on the state of the
    page at the time it resumes. *)
Inductive task : Type :=
| Done
| AwaitFetch (rq : request)
    (k : fetch_result -> State -> State * list console_entry * task)
| AwaitJson (r : response)
    (k : completion value -> State -> State * list console_entry * task).

(** One run of an [async] body, up to its next [await]. *)
Definition async_step : Type := (State * list console_entry * task)%type.

(** ** Synchronous code that can throw: state and exceptions.
    What was written before a throw stays written. *)
Definition P (A : Type) : Type := State -> State * completion A.

Definition retP {A} (a : A) : P A := fun s => (s, Normal a).

Definition bindP {A B} (m : P A) (k : A -> P B) : P B :=
  fun s =>
    match m s with
    | (s', Normal a) => k a s'
    | (s', Throw e) => (s', Throw e)
    end.

Definition modify (f : State -> State) : P unit :=
  fun s => (f s, Normal tt).

Definition liftC {A} (c : completion A) : P A := fun s => (s, c).

(** ** Handlers: synchronous code that also writes to the console and
    calls [async] functions without awaiting them. *)
Record result (A : Type) : Type := mkResult {
  final : State;
  console : list console_entry;
  spawned : list task;
  outcome : completion A
}.

Arguments mkResult {A} final console spawned outcome.
Arguments final {A} r.
Arguments console {A} r.
Arguments spawned {A} r.
Arguments outcome {A} r.

Definition M (A : Type) : Type := State -> result A.

Definition retM {A} (a : A) : M A := fun s => mkResult s [] [] (Normal a).

Definition bindM {A B} (m : M A) (k : A -> M B) : M B :=
  fun s =>
    let r := m s in
    match outcome r with
    | Normal a =>
        let r' := k a (final r) in
        mkResult (final r') (console r ++ console r')
                 (spawned r ++ spawned r') (outcome r')
    | Throw e => mkResult (final r) (console r) (spawned r) (Throw e)
    end.

Definition liftP {A} (m : P A) : M A :=
  fun s => let (s', c) := m s in mkResult s' [] [] c.

Definition log (entry : console_entry) : M unit :=
  fun s => mkResult s [entry] [] (Normal tt).

(** Calling an [async] function without [await]: its body runs up to the
    first [await]; what remains is left pending (nothing when the body has
    already finished). *)
Definition call_async (f : State -> async_step) : M unit :=
  fun s =>
    match f s with
    | (s', out, Done) => mkResult s' out [] (Normal tt)
    | (s', out, t) => mkResult s' out [t] (Normal tt)
    end.

Declare Scope js_scope.
Delimit Scope js_scope with js.

Notation "x <- m ;; k" := (bindP m (fun x => k))
  (at level 61, m at next level, right associativity) : js_scope.
Notation "m ;; k" := (bindP m (fun _ => k))
  (at level 61, right associativity) : js_scope.
Notation "x <~ m ;; k" := (bindM m (fun x => k))
  (at level 61, m at next level, right associativity) : js_scope.
Notation "m ;;; k" := (bindM m (fun _ => k))
  (at level 61, right associativity) : js_scope.

(* ================================================================== *)
(** * Style values *)

Module Css.

Definition is_digit (a : ascii) : bool :=
  let n := nat_of_ascii a in ((48 <=? n) && (n <=? 57))%nat.

(** Reads a run of digits: how many, whether one is not [0], the rest. *)
Fixpoint digits (s : string) : nat * bool * string :=
  match s with
  | String a s' =>
      if is_digit a then
        let '(n, nz, r) := digits s' in
        (S n, negb (Ascii.eqb a "0"%char) || nz, r)
      else (0%nat, false, s)
  | EmptyString => (0%nat, false, s)
  end.

Definition skip_sign (s : string) : bool * string :=
  match s with
  | String a r =>
      if Ascii.eqb a "-"%char then (true, r)
      else if Ascii.eqb a "+"%char then (false, r)
      else (false, s)
  | EmptyString => (false, s)
  end.

(** Whether [s] is a percentage that [width] accepts: a CSS number
    ([+|-] digits, [.] digits, [e] exponent) that is not negative,
    followed by [%]. *)
Definition width_percentage (s : string) : bool :=
  let '(neg, s1) := skip_sign s in
  let '(n1, nz1, s2) := digits s1 in
  let '(mantissa, nz2, s3) :=
    match s2 with
    | String "."%char r =>
        let '(n2, nz2, r') := digits r in ((0 <? n2)%nat, nz2, r')
    | _ => ((0 <? n1)%nat, false, s2)
    end in
  let '(exponent, s4) :=
    match s3 with
    | String a r =>
        if Ascii.eqb a "e"%char || Ascii.eqb a "E"%char then
          let '(n3, _, r') := digits (snd (skip_sign r)) in
          ((0 <? n3)%nat, r')
        else (true, s3)
    | EmptyString => (true, s3)
    end in
  mantissa && exponent && String.eqb s4 "%" && negb (neg && (nz1 || nz2)).

(** [element.style.width = v], for a [v] of the form [`${number}%`]: a
    declaration that does not parse is dropped and the old value stays. *)
Definition set_width (v old : string) : string :=
  if width_percentage v then v else old.

End Css.

(* ================================================================== *)
(** * The program *)

Section Program.

Context {E : Engine}.

Local Open Scope js_scope.

(** ** Formatting helpers *)

(** [formatDuration(seconds)]: seconds to MM:SS. *)
Definition formatDuration (seconds : value) : completion string :=
  if negb (ToBoolean seconds) then Normal "00:00"
  else
    bindC (ToNumber seconds) (fun n =>
    let mins := Num.Math_floor (Num.div n (Num.of_Z 60)) in
    let secs := Num.Math_floor (Num.remainder n (Num.of_Z 60)) in
    Normal (Str.padStart0 2 (Number_toString mins) ++ ":"
              ++ Str.padStart0 2 (Number_toString secs))).

(** [formatNumber(num)]: digits grouped by three. *)
Definition formatNumber (num : value) : completion string :=
  if negb (ToBoolean num) then Normal "0"
  else toLocaleString "num.toLocaleString" num.

(** [formatSpeed(bytesPerSecond)]: bytes per second to MB/s. *)
Definition formatSpeed (bytesPerSecond : value) : completion string :=
  if negb (ToBoolean bytesPerSecond) then Normal "0 MB/s"
  else
    bindC (ToNumber bytesPerSecond) (fun n =>
    let mbps := Num.div n (Num.mul (Num.of_Z 1024) (Num.of_Z 1024)) in
    Normal (Num.toFixed number_general mbps 2 ++ " MB/s")).

(** [formatEta(seconds)]: seconds to minutes and seconds remaining. *)
Definition formatEta (seconds : value) : completion string :=
  if negb (ToBoolean seconds) then Normal "-- 残り"
  else
    bindC (ToNumber seconds) (fun n =>
    let mins := Num.Math_floor (Num.div n (Num.of_Z 60)) in
    let secs := Num.Math_floor (Num.remainder n (Num.of_Z 60)) in
    if Num.ltb Num.zero mins
    then Normal (Number_toString mins ++ "分" ++ Number_toString secs
                   ++ "秒 残り")
    else Normal (Number_toString secs ++ "秒 残り")).

(** ** Sections, errors, buttons *)

(** [hideAllSections()]. *)
Definition hideAllSections (s : State) : State :=
  with_sections (fun _ => mkSections true true true true) s.

Definition show_previewSection (x : Sections) : Sections :=
  mkSections false (progressSection_hidden x) (completeSection_hidden x)
             (errorSection_hidden x).

Definition show_progressSection (x : Sections) : Sections :=
  mkSections (previewSection_hidden x) false (completeSection_hidden x)
             (errorSection_hidden x).

Definition show_completeSection (x : Sections) : Sections :=
  mkSections (previewSection_hidden x) (progressSection_hidden x) false
             (errorSection_hidden x).

Definition show_errorSection (x : Sections) : Sections :=
  mkSections (previewSection_hidden x) (progressSection_hidden x)
             (completeSection_hidden x) false.

(** [showError(message)]: the sections are switched before the message
    is converted. *)
Definition showError (message : value) : P unit :=
  modify hideAllSections ;;
  modify (with_sections show_errorSection) ;;
  text <- liftC (to_textContent message) ;;
  modify (with_errorMessage text).

(** [setButtonLoading(button, isLoading)]. *)
Definition setButtonLoading (isLoading : bool) (button : Button) : Button :=
  if isLoading then mkButton true "0.6" "not-allowed"
  else mkButton false "1" "pointer".

(** [resetForm()]. *)
Definition resetForm (s : State) : State :=
  let s := with_form (set_videoUrl "" (videoUrl_focused (form s))) s in
  let s := with_globals
             (fun g => mkGlobals VNull (websocket g) (currentDownloadId g)) s in
  let s := with_globals
             (fun g => mkGlobals (currentVideoInfo g) (websocket g) VNull) s in
  let s := hideAllSections s in
  with_form (fun f => set_videoUrl (videoUrl_value f) true f) s.

(** [handleFormatTypeChange(event)], on [event.target.value]. *)
Definition handleFormatTypeChange (formatType : string) (s : State)
  : State :=
  if String.eqb formatType "video"
  then with_form (set_selectors_hidden false true) s
  else with_form (set_selectors_hidden true false) s.

(** [getSelectedFormatType()]. *)
Fixpoint selected_value (radios : list Radio) : string :=
  match radios with
  | [] => "video"
  | radio :: rest =>
      if radio_checked radio then radio_value radio else selected_value rest
  end.

Definition getSelectedFormatType (s : State) : string :=
  selected_value (formatTypeRadios (form s)).

(** ** Progress *)

(** [updateProgress(data)]. *)
Definition updateProgress (data : value) : P unit :=
  p <- liftC (Get data "progress") ;;
  n <- liftC (ToNumber (or_else p (VNum Num.zero))) ;;
  let progress := Num.Math_round n in
  sp <- liftC (Get data "speed") ;;
  speed <- liftC (formatSpeed (or_else sp (VNum Num.zero))) ;;
  e <- liftC (Get data "eta") ;;
  eta <- liftC (formatEta (or_else e (VNum Num.zero))) ;;
  modify (with_progress (fun x =>
    mkProgress (Css.set_width (Number_toString progress ++ "%")
                              (progressBar_width x))
               (Number_toString progress ++ "%")
               speed eta (progressMessage x))).

(** ** Video preview *)

Definition no_thumbnail : string :=
  "https://via.placeholder.com/640x360?text=No+Thumbnail".

(** [showVideoPreview(info)]: each value is converted when it is
    assigned, so what was assigned before a conversion throws stays. *)
Definition showVideoPreview (info : value) : P unit :=
  thumbnail <- liftC (Get info "thumbnail") ;;
  src <- liftC (ToString (or_else thumbnail (VStr no_thumbnail))) ;;
  modify (with_preview (fun x =>
    mkPreview src
              (videoTitle x) (videoDuration x) (videoUploader x)
              (videoViews x) (videoDescription x))) ;;
  title <- liftC (Get info "title") ;;
  title_text <- liftC (to_textContent title) ;;
  modify (with_preview (fun x =>
    mkPreview (videoThumbnail_src x) title_text
              (videoDuration x) (videoUploader x)
              (videoViews x) (videoDescription x))) ;;
  duration <- liftC (Get info "duration") ;;
  duration_text <- liftC (formatDuration duration) ;;
  modify (with_preview (fun x =>
    mkPreview (videoThumbnail_src x) (videoTitle x)
              duration_text (videoUploader x)
              (videoViews x) (videoDescription x))) ;;
  uploader <- liftC (Get info "uploader") ;;
  uploader_text <- liftC (to_textContent uploader) ;;
  modify (with_preview (fun x =>
    mkPreview (videoThumbnail_src x) (videoTitle x) (videoDuration x)
              uploader_text
              (videoViews x) (videoDescription x))) ;;
  view_count <- liftC (Get info "view_count") ;;
  views <- liftC (formatNumber view_count) ;;
  modify (with_preview (fun x =>
    mkPreview (videoThumbnail_src x) (videoTitle x) (videoDuration x)
              (videoUploader x)
              (views ++ " 回視聴")
              (videoDescription x))) ;;
  description <- liftC (Get info "description") ;;
  description_text <-
    liftC (to_textContent (or_else description (VStr "説明なし"))) ;;
  modify (with_preview (fun x =>
    mkPreview (videoThumbnail_src x) (videoTitle x) (videoDuration x)
              (videoUploader x) (videoViews x)
              description_text)) ;;
  modify hideAllSections ;;
  modify (with_sections show_previewSection).

(** ** History *)

(** The markup [createHistoryItem] assigns to the [innerHTML] of its
    [div]: the template with the three strings put in as they are. *)
Definition history_item_markup (thumbnail alt title date : string)
  : string :=
  Str.newline
  ++ "        <div class=" ++ Str.quoted "history-thumbnail" ++ ">"
  ++ Str.newline
  ++ "            <img src=" ++ Str.quoted thumbnail
  ++ " alt=" ++ Str.quoted alt ++ ">" ++ Str.newline
  ++ "        </div>" ++ Str.newline
  ++ "        <div class=" ++ Str.quoted "history-info" ++ ">"
  ++ Str.newline
  ++ "            <div class=" ++ Str.quoted "history-title" ++ ">"
  ++ title ++ "</div>" ++ Str.newline
  ++ "            <div class=" ++ Str.quoted "history-date" ++ ">"
  ++ date ++ "</div>" ++ Str.newline
  ++ "        </div>" ++ Str.newline
  ++ "    ".

(** [createHistoryItem(item)]: the [div] for one entry.  The date is
    computed first, then the template converts the thumbnail and the
    title, twice. *)
Definition createHistoryItem (item : value) : completion node :=
  bindC (Get item "thumbnail") (fun t =>
  let thumbnail := or_else t (VStr no_thumbnail) in
  bindC (Get item "completed_at") (fun completed_at =>
  bindC (Date_toLocaleString completed_at) (fun date =>
  bindC (ToString thumbnail) (fun thumbnail_text =>
  bindC (Get item "title") (fun title =>
  bindC (ToString title) (fun alt_text =>
  bindC (ToString title) (fun title_text =>
  Normal (HistoryItem
            (history_item_markup thumbnail_text alt_text title_text date)
            item)))))))).

(** The click listener of the [div] of [item]: the address it assigns
    to [window.location.href]. *)
Definition history_item_target (item : value) : completion string :=
  bindC (Get item "id") (fun id =>
  bindC (ToString id) (fun id_text =>
  Normal ("/api/downloads/" ++ id_text ++ "/file"))).

(** [history.forEach(item => historyList.appendChild(createHistoryItem(item)))]
    on an array. *)
Fixpoint append_items (items : list value) : P unit :=
  match items with
  | [] => retP tt
  | item :: rest =>
      historyItem <- liftC (createHistoryItem item) ;;
      modify (with_historyList (fun l => (l ++ [historyItem])%list)) ;;
      append_items rest
  end.

(** [displayHistory(history)]. *)
Definition displayHistory (history : value) : P unit :=
  modify (with_historyList (fun _ => [])) ;;
  match history with
  | VArr items => append_items items
  | VUndefined | VNull =>
      liftC (Throw (TypeError (cannot_read_message history "forEach")))
  | _ => liftC (Throw (TypeError (not_a_function_message "history.forEach")))
  end.

(** [displayEmptyHistory()]. *)
Definition displayEmptyHistory (s : State) : State :=
  with_historyList (fun _ => [HistoryEmpty]) s.

Definition history_request : request :=
  mkRequest "/api/history" "GET" [] None.

(** The [catch] block of [loadHistory]. *)
Definition loadHistory_catch (error : exn) (s : State) : async_step :=
  (displayEmptyHistory s,
   [console_error [CText "履歴の読み込みに失敗:"; CExn error]], Done).

(** The body of the [try] block of [loadHistory], from [result] on. *)
Definition loadHistory_render (result : value) : P unit :=
  success <- liftC (Get result "success") ;;
  if ToBoolean success then
    data <- liftC (Get result "data") ;;
    len <- liftC (Get data "length") ;;
    n <- liftC (ToNumber len) ;;
    if Num.ltb Num.zero n
    then displayHistory data
    else modify displayEmptyHistory
  else modify displayEmptyHistory.

(** [loadHistory()], after [await response.json()]. *)
Definition loadHistory_json (body : completion value) (s : State)
  : async_step :=
  match body with
  | Throw e => loadHistory_catch e s
  | Normal result =>
      match loadHistory_render result s with
      | (s', Normal _) => (s', [], Done)
      | (s', Throw e) => loadHistory_catch e s'
      end
  end.

(** [loadHistory()], after [await fetch('/api/history')]. *)
Definition loadHistory_response (fr : fetch_result) (s : State)
  : async_step :=
  match fr with
  | Rejected e => loadHistory_catch e s
  | Fulfilled response => (s, [], AwaitJson response loadHistory_json)
  end.

(** [loadHistory()]. *)
Definition loadHistory (s : State) : async_step :=
  (s, [], AwaitFetch history_request loadHistory_response).

(** ** Completion *)

(** [handleDownloadComplete(result)]. *)
Definition handleDownloadComplete (result : value) : M unit :=
  liftP (
    modify hideAllSections ;;
    modify (with_sections show_completeSection) ;;
    filename <- liftC (Get result "filename") ;;
    filename_text <- liftC (to_textContent filename) ;;
    modify (with_complete (fun x =>
      mkComplete filename_text (downloadFileBtn_href x)
                 (downloadFileBtn_download x))) ;;
    id <- liftC (Get result "id") ;;
    id_text <- liftC (ToString id) ;;
    modify (with_complete (fun x =>
      mkComplete (completeFilename x)
                 ("/api/downloads/" ++ id_text ++ "/file")
                 (downloadFileBtn_download x))) ;;
    filename' <- liftC (Get result "filename") ;;
    download <- liftC (ToString filename') ;;
    modify (with_complete (fun x =>
      mkComplete (completeFilename x) (downloadFileBtn_href x)
                 download)) ;;
    id' <- liftC (Get result "id") ;;
    modify (with_globals (fun g =>
      mkGlobals (currentVideoInfo g) (websocket g) id'))) ;;;
  call_async loadHistory.

(** ** The status channel *)

(** [handleWebSocketMessage(data)]. *)
Definition handleWebSocketMessage (data : value) : M unit :=
  status <~ liftP (liftC (Get data "status")) ;;
  if strict_eq_string status "downloading" then
    liftP (updateProgress data)
  else if strict_eq_string status "finished" then
    liftP (
      message <- liftC (Get data "message") ;;
      text <- liftC (to_textContent
                       (or_else message (VStr "ファイルを処理中..."))) ;;
      modify (with_progress (fun x =>
        mkProgress (progressBar_width x) (progressPercent x)
                   (progressSpeed x) (progressEta x) text)))
  else if strict_eq_string status "completed" then
    result <~ liftP (liftC (Get data "result")) ;;
    handleDownloadComplete result
  else if strict_eq_string status "error" then
    error <~ liftP (liftC (Get data "error")) ;;
    liftP (showError error)
  else retM tt.

(** [initWebSocket()]: a new socket, in state CONNECTING, becomes the
    current one; its handlers are [ws_onopen], [ws_onmessage],
    [ws_onerror] and [ws_onclose] below.  The page is served over http or
    https, so the address is well formed and the constructor does not
    throw. *)
Definition initWebSocket (s : State) : State :=
  let protocol :=
    if String.eqb (location_protocol (env s)) "https:" then "wss:"
    else "ws:" in
  let wsUrl := protocol ++ "//" ++ location_host (env s) ++ "/ws" in
  let handle := List.length (sockets (env s)) in
  let s := with_env (fun e =>
             set_sockets (sockets e ++ [mkSocket wsUrl CONNECTING])%list e) s in
  with_globals (fun g =>
    mkGlobals (currentVideoInfo g) (Some handle) (currentDownloadId g)) s.

(** [websocket.onopen]. *)
Definition ws_onopen : M unit :=
  log (console_log [CText "WebSocket接続が確立されました"]).

(** [websocket.onmessage], on [event.data]. *)
Definition ws_onmessage (event_data : string) : M unit :=
  data <~ liftP (liftC (JSON_parse event_data)) ;;
  handleWebSocketMessage data.

(** [websocket.onerror]. *)
Definition ws_onerror : M unit :=
  log (console_error [CText "WebSocketエラー:"; CEvent]).

(** [setTimeout(f, delay)]. *)
Definition setTimeout (f : callback) (delay : Z) (s : State) : State :=
  with_env (fun e =>
    set_timers (timers e ++ [mkTimer (clock e + delay)%Z f])%list e) s.

(** [websocket.onclose]. *)
Definition ws_onclose : M unit :=
  log (console_log
         [CText "WebSocket接続が閉じられました。再接続します..."]) ;;;
  liftP (modify (setTimeout cb_initWebSocket 3000)).

(** ** Fetching the video's description *)

Definition video_info_request (url : string) : request :=
  mkRequest "/api/video-info" "POST"
            [("Content-Type", "application/json")]
            (Some (VObj [("url", VStr url)])).

(** The [finally] block of [handleFetchInfo]. *)
Definition handleFetchInfo_finally (s : State) : State :=
  with_form (fun f =>
    set_fetchInfoBtn (setButtonLoading false (fetchInfoBtn f)) f) s.

(** The [catch] block of [handleFetchInfo], then [finally]. *)
Definition handleFetchInfo_catch (error : exn) (s : State) : async_step :=
  (handleFetchInfo_finally (fst (showError (VStr (exn_message error)) s)),
   [], Done).

(** [handleFetchInfo()] for a response that is not [ok], after
    [await response.json()]. *)
Definition handleFetchInfo_failed (body : completion value) (s : State)
  : async_step :=
  match bindC body (fun error =>
        bindC (Get error "detail") (fun detail =>
        ToString (or_else detail (VStr "動画情報の取得に失敗しました"))))
  with
  | Throw e => handleFetchInfo_catch e s
  | Normal message => handleFetchInfo_catch (Error message) s
  end.

(** [handleFetchInfo()] for an [ok] response, after
    [await response.json()]. *)
Definition handleFetchInfo_json (body : completion value) (s : State)
  : async_step :=
  match bindC body (fun result => Get result "data") with
  | Throw e => handleFetchInfo_catch e s
  | Normal data =>
      let s := with_globals (fun g =>
                 mkGlobals data (websocket g) (currentDownloadId g)) s in
      match showVideoPreview (currentVideoInfo (globals s)) s with
      | (s', Normal _) => (handleFetchInfo_finally s', [], Done)
      | (s', Throw e) => handleFetchInfo_catch e s'
      end
  end.

(** [handleFetchInfo()], after [await fetch(...)]. *)
Definition handleFetchInfo_response (fr : fetch_result) (s : State)
  : async_step :=
  match fr with
  | Rejected e => handleFetchInfo_catch e s
  | Fulfilled response =>
      if negb (ok response)
      then (s, [], AwaitJson response handleFetchInfo_failed)
      else (s, [], AwaitJson response handleFetchInfo_json)
  end.

(** [handleFetchInfo()]. *)
Definition handleFetchInfo (s : State) : async_step :=
  let url := Str.trim (videoUrl_value (form s)) in
  if Str.is_empty url then
    (fst (showError (VStr "URLを入力してください") s), [], Done)
  else
    let s := with_form (fun f =>
               set_fetchInfoBtn (setButtonLoading true (fetchInfoBtn f)) f)
               s in
    let s := hideAllSections s in
    (s, [], AwaitFetch (video_info_request url) handleFetchInfo_response).

(** ** Starting a download *)

Definition download_request (url quality : string) (audioOnly : bool)
  (audioQuality : string) : request :=
  mkRequest "/api/download" "POST"
            [("Content-Type", "application/json")]
            (Some (VObj [("url", VStr url);
                         ("quality", VStr quality);
                         ("audio_only", VBool audioOnly);
                         ("audio_quality", VStr audioQuality)])).

(** The [finally] block of [handleDownload]. *)
Definition handleDownload_finally (s : State) : State :=
  with_form (fun f =>
    set_downloadBtn (setButtonLoading false (downloadBtn f)) f) s.

(** The [catch] block of [handleDownload], then [finally]. *)
Definition handleDownload_catch (error : exn) (s : State) : async_step :=
  (handleDownload_finally (fst (showError (VStr (exn_message error)) s)),
   [], Done).

(** [handleDownload()] for a response that is not [ok], after
    [await response.json()]. *)
Definition handleDownload_failed (body : completion value) (s : State)
  : async_step :=
  match bindC body (fun error =>
        bindC (Get error "detail") (fun detail =>
        ToString (or_else detail (VStr "ダウンロードの開始に失敗しました"))))
  with
  | Throw e => handleDownload_catch e s
  | Normal message => handleDownload_catch (Error message) s
  end.

(** [handleDownload()] for an [ok] response, after
    [await response.json()]. *)
Definition handleDownload_json (body : completion value) (s : State)
  : async_step :=
  match body with
  | Throw e => handleDownload_catch e s
  | Normal result =>
      (handleDownload_finally s,
       [console_log [CText "ダウンロード開始:"; CValue result]], Done)
  end.

(** [handleDownload()], after [await fetch(...)]. *)
Definition handleDownload_response (fr : fetch_result) (s : State)
  : async_step :=
  match fr with
  | Rejected e => handleDownload_catch e s
  | Fulfilled response =>
      if negb (ok response)
      then (s, [], AwaitJson response handleDownload_failed)
      else (s, [], AwaitJson response handleDownload_json)
  end.

(** The literal [{ progress: 0, speed: 0, eta: 0 }]. *)
Definition progress_reset : value :=
  VObj [("progress", VNum Num.zero); ("speed", VNum Num.zero);
        ("eta", VNum Num.zero)].

(** [handleDownload()].  The statements before the [try] are not
    guarded: were one to throw, the function would end there. *)
Definition handleDownload (s : State) : async_step :=
  let url := Str.trim (videoUrl_value (form s)) in
  if Str.is_empty url then
    (fst (showError (VStr "URLを入力してください") s), [], Done)
  else
    let s := with_form (fun f =>
               set_downloadBtn (setButtonLoading true (downloadBtn f)) f)
               s in
    let s := hideAllSections s in
    let s := with_sections show_progressSection s in
    match updateProgress progress_reset s with
    | (s, Throw _) => (s, [], Done)
    | (s, Normal _) =>
        let formatType := getSelectedFormatType s in
        let quality :=
          if String.eqb formatType "video"
          then videoQualitySelect_value (form s) else "best" in
        let audioOnly := String.eqb formatType "audio" in
        let audioQuality :=
          if String.eqb formatType "audio"
          then audioQualitySelect_value (form s) else "192" in
        (s, [],
         AwaitFetch (download_request url quality audioOnly audioQuality)
                    handleDownload_response)
    end.

(** ** Start-up *)

(** [initEventListeners()]. *)
Definition initEventListeners (s : State) : State :=
  with_form (set_listeners_bound true) s.

(** The listener of [DOMContentLoaded]. *)
Definition onDOMContentLoaded : M unit :=
  liftP (modify initEventListeners) ;;;
  liftP (modify initWebSocket) ;;;
  call_async loadHistory.

End Program.

(* ================================================================== *)
(** * The browser *)

(** The page, the [async] functions that wait, and the console. *)
Record World : Type := mkWorld {
  page : State;
  pending : list task;
  console_output : list console_entry
}.

(** What can happen to the page once it is loaded. *)
Inductive event : Type :=
| UserTypesUrl (text : string)
| UserChecksFormat (i : nat)
| UserSelectsVideoQuality (v : string)
| UserSelectsAudioQuality (v : string)
| ClickFetchInfo
| KeyPress (key : string)
| ClickDownload
| ClickNewDownload
| ClickRetry
| ClickHistoryItem (i : nat)
| SocketOpens (ws : nat)
| SocketMessage (ws : nat) (data : string)
| SocketError (ws : nat)
| SocketCloses (ws : nat)
| TimerFires (i : nat)
| TimePasses (ms : Z)
| FetchSettles (i : nat) (fr : fetch_result)
| BodyRead (i : nat).

Definition on_page (f : State -> State) (w : World) : World :=
  mkWorld (f (page w)) (pending w) (console_output w).

Fixpoint update_nth {A} (n : nat) (f : A -> A) (l : list A) : list A :=
  match l, n with
  | [], _ => []
  | x :: l', O => f x :: l'
  | x :: l', S n' => x :: update_nth n' f l'
  end.

Fixpoint remove_nth {A} (n : nat) (l : list A) : list A :=
  match l, n with
  | [], _ => []
  | _ :: l', O => l'
  | x :: l', S n' => x :: remove_nth n' l'
  end.

(** Checking radio [i] of a group unchecks the others. *)
Fixpoint check_radio (i : nat) (radios : list Radio) : list Radio :=
  match radios with
  | [] => []
  | r :: rest =>
      match i with
      | O =>
          mkRadio true (radio_value r)
          :: map (fun x => mkRadio false (radio_value x)) rest
      | S i' => mkRadio false (radio_value r) :: check_radio i' rest
      end
  end.

Definition set_readyState (ws : nat) (st : readyState) (s : State) : State :=
  with_env (fun e =>
    set_sockets
      (update_nth ws (fun x => mkSocket (ws_url x) st) (sockets e)) e) s.

Definition readyState_of (ws : nat) (s : State) : option readyState :=
  option_map ws_state (nth_error (sockets (env s)) ws).

(** Puts what remains of pending task [i] in its place. *)
Definition settle (i : nat) (t : task) (l : list task) : list task :=
  match t with
  | Done => remove_nth i l
  | _ => update_nth i (fun _ => t) l
  end.

Section Browser.

Context {E : Engine}.

(** Runs a handler to its end.  An exception that escapes it is reported
    by the browser and the page stays as the handler left it. *)
Definition run_handler (m : M unit) (w : World) : World :=
  let r := m (page w) in
  mkWorld (final r) (pending w ++ spawned r)
          (console_output w ++ console r).

(** Resumes pending task [i] with the continuation [k] applied. *)
Definition resume (i : nat) (k : State -> async_step) (w : World) : World :=
  let '(s, out, t) := k (page w) in
  mkWorld s (settle i t (pending w)) (console_output w ++ out).

Definition run_callback (f : callback) : State -> State :=
  match f with
  | cb_initWebSocket => initWebSocket
  end.

(** One event; [None] when it cannot happen in [w] (no such socket,
    timer or task, a timer that is not due, a control without listener,
    a disabled button). *)
Definition step (w : World) (ev : event) : option World :=
  let s := page w in
  match ev with
  | UserTypesUrl text =>
      Some (on_page (with_form (fun f =>
              set_videoUrl text (videoUrl_focused f) f)) w)
  | UserChecksFormat i =>
      match nth_error (formatTypeRadios (form s)) i with
      | None => None
      | Some radio =>
          if radio_checked radio then Some w
          else
            let w := on_page (with_form (fun f =>
                       set_choices (check_radio i (formatTypeRadios f))
                                   (videoQualitySelect_value f)
                                   (audioQualitySelect_value f) f)) w in
            if listeners_bound (form s)
            then Some (on_page (handleFormatTypeChange (radio_value radio)) w)
            else Some w
      end
  | UserSelectsVideoQuality v =>
      Some (on_page (with_form (fun f =>
              set_choices (formatTypeRadios f) v
                          (audioQualitySelect_value f) f)) w)
  | UserSelectsAudioQuality v =>
      Some (on_page (with_form (fun f =>
              set_choices (formatTypeRadios f)
                          (videoQualitySelect_value f) v f)) w)
  | ClickFetchInfo =>
      if listeners_bound (form s) && negb (disabled (fetchInfoBtn (form s)))
      then Some (run_handler (call_async handleFetchInfo) w)
      else None
  | KeyPress key =>
      if listeners_bound (form s) then
        if String.eqb key "Enter"
        then Some (run_handler (call_async handleFetchInfo) w)
        else Some w
      else None
  | ClickDownload =>
      if listeners_bound (form s) && negb (disabled (downloadBtn (form s)))
      then Some (run_handler (call_async handleDownload) w)
      else None
  | ClickNewDownload | ClickRetry =>
      if listeners_bound (form s) then Some (on_page resetForm w) else None
  | ClickHistoryItem i =>
      match nth_error (historyList s) i with
      | Some (HistoryItem _ item) =>
          match history_item_target item with
          | Normal target =>
              Some (on_page (with_env (set_location_href target)) w)
          | Throw _ => Some w
          end
      | _ => None
      end
  | SocketOpens ws =>
      match readyState_of ws s with
      | Some CONNECTING =>
          Some (run_handler ws_onopen (on_page (set_readyState ws OPEN) w))
      | _ => None
      end
  | SocketMessage ws data =>
      match readyState_of ws s with
      | Some OPEN => Some (run_handler (ws_onmessage data) w)
      | _ => None
      end
  | SocketError ws =>
      match readyState_of ws s with
      | Some CONNECTING | Some OPEN => Some (run_handler ws_onerror w)
      | _ => None
      end
  | SocketCloses ws =>
      match readyState_of ws s with
      | Some CONNECTING | Some OPEN =>
          Some (run_handler ws_onclose (on_page (set_readyState ws CLOSED) w))
      | _ => None
      end
  | TimerFires i =>
      match nth_error (timers (env s)) i with
      | Some t =>
          if (timer_due t <=? clock (env s))%Z then
            Some (on_page (run_callback (timer_callback t))
                    (on_page (with_env (fun e =>
                       set_timers (remove_nth i (timers e)) e)) w))
          else None
      | None => None
      end
  | TimePasses ms =>
      if (0 <=? ms)%Z
      then Some (on_page (with_env (fun e => set_clock (clock e + ms)%Z e)) w)
      else None
  | FetchSettles i fr =>
      match nth_error (pending w) i with
      | Some (AwaitFetch _ k) => Some (resume i (k fr) w)
      | _ => None
      end
  | BodyRead i =>
      match nth_error (pending w) i with
      | Some (AwaitJson r k) => Some (resume i (k (json r)) w)
      | _ => None
      end
  end.

(** A page as the document delivers it, before [DOMContentLoaded]: the
    globals are [null], nothing is bound, no socket and no timer exist. *)
Definition fresh (s : State) : Prop :=
  currentVideoInfo (globals s) = VNull /\
  websocket (globals s) = None /\
  currentDownloadId (globals s) = VNull /\
  listeners_bound (form s) = false /\
  sockets (env s) = [] /\
  timers (env s) = [].

(** The page after [DOMContentLoaded]. *)
Definition loaded (s : State) : World :=
  run_handler onDOMContentLoaded (mkWorld s [] []).

(** The worlds the loaded page can be in. *)
Inductive reachable : World -> Prop :=
| reach_loaded (s : State) : fresh s -> reachable (loaded s)
| reach_step (w w' : World) (ev : event) :
    reachable w -> step w ev = Some w' -> reachable w'.

(** Runs a list of events, stopping at the first that cannot happen. *)
Fixpoint run (w : World) (evs : list event) : option World :=
  match evs with
  | [] => Some w
  | ev :: rest =>
      match step w ev with
      | Some w' => run w' rest
      | None => None
      end
  end.

End Browser.

(* ================================================================== *)
(** * A page and an engine to run examples on *)

(** The text of the event [{status: 'finished'}]. *)
Definition finished_text : string :=
  "{" ++ Str.quoted "status" ++ ":" ++ Str.quoted "finished" ++ "}".

(** A small engine: it parses the JSON literals [null], [true] and
    [false] and the text of the event above, and rejects every other
    text; strings have no numeric value; a number in the locale prints
    as it does elsewhere. *)
Definition sample_engine : Engine := {|
  number_general := fun _ => "#";
  StringToNumber := fun _ => Num.nan;
  JSON_parse := fun text =>
    if String.eqb text "null" then Normal VNull
    else if String.eqb text "true" then Normal (VBool true)
    else if String.eqb text "false" then Normal (VBool false)
    else if String.eqb text finished_text
    then Normal (VObj [("status", VStr "finished")])
    else Throw (mkExn "SyntaxError" "Unexpected token");
  cannot_read_message := fun _ key =>
    "Cannot read properties (reading '" ++ key ++ "')";
  not_a_function_message := fun f => f ++ " is not a function";
  cannot_convert_message := "Cannot convert object to primitive value";
  Number_toLocaleString_ja := Num.toString (fun _ => "#");
  list_separator := ",";
  Date_toLocaleString_ja := fun _ => "Invalid Date"
|}.

(** The page as the document delivers it, served from
    [http://localhost:8000]. *)
Definition sample_page : State := {|
  globals := mkGlobals VNull None VNull;
  form := {|
    videoUrl_value := "";
    videoUrl_focused := false;
    fetchInfoBtn := mkButton false "" "";
    downloadBtn := mkButton false "" "";
    formatTypeRadios := [mkRadio true "video"; mkRadio false "audio"];
    videoQualitySelect_value := "best";
    audioQualitySelect_value := "192";
    videoQualitySelector_hidden := false;
    audioQualitySelector_hidden := true;
    listeners_bound := false
  |};
  sections := mkSections true true true true;
  preview := mkPreview "" "" "" "" "" "";
  progress := mkProgress "0%" "0%" "0 MB/s" "--" "";
  complete := mkComplete "" "" "";
  errorMessage := "";
  historyList := [];
  env := mkEnv "http:" "localhost:8000" "http://localhost:8000/" [] [] 0
|}.

(** 42.7 as a number: the binary64 value nearest to it, which is the
    IEEE quotient of 427 by 10. *)
Definition n42_7 : Num.number := Num.div (Num.of_Z 427) (Num.of_Z 10).

(** The event [{status: 'downloading', progress: 42.7, speed: 2097152,
    eta: 75}]. *)
Definition downloading_event : value :=
  VObj [("status", VStr "downloading"); ("progress", VNum n42_7);
        ("speed", VNum (Num.of_Z 2097152)); ("eta", VNum (Num.of_Z 75))].


(** The sample page showing a preview, its URL field emptied since. *)
Definition preview_page : State :=
  with_sections (fun x =>
    mkSections false (progressSection_hidden x) (completeSection_hidden x)
               (errorSection_hidden x)) sample_page.

(** A history of two entries, as [/api/history] returns it. *)
Definition history_body : value :=
  VObj [("success", VBool true);
        ("data",
         VArr [VObj [("id", VStr "a1"); ("title", VStr "First");
                     ("thumbnail", VStr "https://i.example/a1.jpg");
                     ("completed_at", VStr "2024-05-01T10:00:00")];
               VObj [("id", VStr "b2"); ("title", VStr "Second");
                     ("completed_at", VStr "2024-05-02T11:30:00")]])].

(* ================================================================== *)
(** * Notions used in the statements *)

Definition state_of (a : async_step) : State := fst (fst a).

Definition rest_of (a : async_step) : task := snd a.

(** A socket that can still deliver events. *)
Definition is_live (x : Socket) : bool :=
  match ws_state x with
  | CLOSED => false
  | _ => true
  end.

Definition live_sockets (s : State) : nat :=
  List.length (filter is_live (sockets (env s))).

Definition pending_timers (s : State) : nat :=
  List.length (timers (env s)).

(** The part of the page the status channel lives in. *)
Definition channel (s : State) : list Socket * list Timer :=
  (sockets (env s), timers (env s)).

(** A task none of whose continuations touches the channel. *)
Inductive quiet : task -> Prop :=
| quiet_Done : quiet Done
| quiet_AwaitFetch (rq : request)
    (k : fetch_result -> State -> async_step) :
    (forall fr s, channel (state_of (k fr s)) = channel s) ->
    (forall fr s, quiet (rest_of (k fr s))) ->
    quiet (AwaitFetch rq k)
| quiet_AwaitJson (r : response)
    (k : completion value -> State -> async_step) :
    (forall c s, channel (state_of (k c s)) = channel s) ->
    (forall c s, quiet (rest_of (k c s))) ->
    quiet (AwaitJson r k).

(** A shifted mantissa that is still positive. *)
Definition positive_mantissa (r : shr_record) : Prop :=
  exists m, shr_m r = Zpos m.

(** One socket is live or one reconnection is pending, never both and
    never two; the waiting [async] functions cannot change that. *)
Definition channel_invariant (w : World) : Prop :=
  (live_sockets (page w) + pending_timers (page w) = 1)%nat /\
  Forall quiet (pending w).

(** [n] rounds of: the current socket [ws] closes, 3000 ms pass, the
    timer fires (the socket it creates has the next handle). *)
Fixpoint reconnections (n ws : nat) : list event :=
  match n with
  | O => []
  | S n' =>
      SocketCloses ws :: TimePasses 3000 :: TimerFires 0
        :: reconnections n' (S ws)
  end.

(** ** Values that can be converted *)

(** Whether [ToString] returns on [v]: no object with an own member
    [toString] has to be printed. *)
Fixpoint printable (v : value) : bool :=
  match v with
  | VArr elems => forallb printable elems
  | VObj fields => negb (has_field "toString" fields)
  | _ => true
  end.

(** Whether [v.toLocaleString()] returns, for a [v] that is not
    [undefined] or [null]. *)
Fixpoint localizable (v : value) : bool :=
  match v with
  | VArr elems => forallb localizable elems
  | VObj fields =>
      negb (has_field "toLocaleString" fields)
      && negb (has_field "toString" fields)
  | _ => true
  end.

(** A value that has no members. *)
Definition nullish (v : value) : Prop := v = VNull \/ v = VUndefined.

(** Whether [formatNumber] returns on [v]. *)
Definition countable (v : value) : bool :=
  negb (ToBoolean v) || localizable v.

(** The sample page in the middle of a download. *)
Definition busy_page : State :=
  with_progress (fun x =>
    mkProgress "43%" "43%" "2.00 MB/s" "1分15秒 残り" (progressMessage x))
    sample_page.

(** A history whose second item is [null]. *)
Definition history_with_null : value :=
  VObj [("success", VBool true);
        ("data",
         VArr [VObj [("id", VStr "a1"); ("title", VStr "First");
                     ("completed_at", VStr "2024-05-01T10:00:00")];
               VNull])].

Section Notions.

Context {E : Engine}.

(** Member [key] of [v], [undefined] where reading it throws. *)
Definition member (v : value) (key : string) : value :=
  match Get v key with
  | Normal x => x
  | Throw _ => VUndefined
  end.

(** Whether [showVideoPreview] returns on [info]. *)
Definition previewable (info : value) : bool :=
  match info with
  | VUndefined | VNull => false
  | _ =>
      printable (member info "thumbnail")
      && printable (member info "title")
      && printable (member info "duration")
      && printable (member info "uploader")
      && countable (member info "view_count")
      && printable (member info "description")
  end.

(** Whether [createHistoryItem] returns on [item]. *)
Definition item_renders (item : value) : bool :=
  match item with
  | VUndefined | VNull => false
  | _ =>
      printable (member item "thumbnail")
      && printable (member item "completed_at")
      && printable (member item "title")
  end.

(** Whether the dispatch of the event [data] ends with an exception. *)
Definition dispatch_throws (data : value) : bool :=
  match data with
  | VUndefined | VNull => true
  | _ =>
      let status := member data "status" in
      if strict_eq_string status "downloading" then
        negb (printable (member data "progress")
              && printable (member data "speed")
              && printable (member data "eta"))
      else if strict_eq_string status "finished" then
        negb (printable (member data "message"))
      else if strict_eq_string status "completed" then
        match member data "result" with
        | VUndefined | VNull => true
        | result =>
            negb (printable (member result "filename")
                  && printable (member result "id"))
        end
      else if strict_eq_string status "error" then
        negb (printable (member data "error"))
      else false
  end.

(** A call of [loadHistory] run to its end, its [fetch] settling as
    [fr], with nothing else happening in between. *)
Definition loadHistory_settled (fr : fetch_result) (s : State) : State :=
  match loadHistory_response fr (state_of (loadHistory s)) with
  | (s1, _, AwaitJson r k) => state_of (k (json r) s1)
  | (s1, _, _) => s1
  end.

(** Calls of [loadHistory] one after the other. *)
Definition reload (frs : list fetch_result) (s : State) : State :=
  fold_left (fun s fr => loadHistory_settled fr s) frs s.

(** A computation that leaves the channel alone. *)
Definition preservesP {A} (m : P A) : Prop :=
  forall s, channel (fst (m s)) = channel s.

Definition preservesM {A} (m : M A) : Prop :=
  forall s, channel (final (m s)) = channel s /\ Forall quiet (spawned (m s)).

Definition quiet_step (f : State -> async_step) : Prop :=
  forall s, channel (state_of (f s)) = channel s /\ quiet (rest_of (f s)).

End Notions.

(* ================================================================== *)
(** * Notions for the rest of the page *)

(** How many of the four sections show. *)
Definition visible_sections (x : Sections) : nat :=
  ((if previewSection_hidden x then 0 else 1)
   + (if progressSection_hidden x then 0 else 1)
   + (if completeSection_hidden x then 0 else 1)
   + (if errorSection_hidden x then 0 else 1))%nat.

(** At most one section shows. *)
Definition exclusive (x : Sections) : bool :=
  (visible_sections x <=? 1)%nat.

Definition no_section : Sections := mkSections true true true true.
Definition preview_only : Sections := mkSections false true true true.
Definition progress_only : Sections := mkSections true false true true.
Definition complete_only : Sections := mkSections true true false true.
Definition error_only : Sections := mkSections true true true false.

(** What the user has typed and chosen, and which selector shows. *)
Definition form_inputs (f : Form)
  : string * list Radio * string * string * bool * bool * bool :=
  (videoUrl_value f, formatTypeRadios f, videoQualitySelect_value f,
   audioQualitySelect_value f, videoQualitySelector_hidden f,
   audioQualitySelector_hidden f, listeners_bound f).

(** What no handler of a message or of a response touches: the browser
    state, the socket handle, the user's inputs; and sections that were
    exclusive stay so. *)
Definition tame (s s' : State) : Prop :=
  env s' = env s /\
  websocket (globals s') = websocket (globals s) /\
  form_inputs (form s') = form_inputs (form s) /\
  (exclusive (sections s) = true -> exclusive (sections s') = true).

(** What the rest of an [async] function, resumed after an [await],
    leaves alone besides: the progress display, the completed-file
    display and the identifier of the download. *)
Definition steady (s s' : State) : Prop :=
  tame s s' /\
  progress s' = progress s /\
  complete s' = complete s /\
  currentDownloadId (globals s') = currentDownloadId (globals s).

(** A task all of whose continuations relate the page they resume on to
    the page they leave by [R]. *)
Inductive respects (R : State -> State -> Prop) : task -> Prop :=
| respects_Done : respects R Done
| respects_AwaitFetch (rq : request)
    (k : fetch_result -> State -> async_step) :
    (forall fr s, R s (state_of (k fr s))) ->
    (forall fr s, respects R (rest_of (k fr s))) ->
    respects R (AwaitFetch rq k)
| respects_AwaitJson (r : response)
    (k : completion value -> State -> async_step) :
    (forall c s, R s (state_of (k c s))) ->
    (forall c s, respects R (rest_of (k c s))) ->
    respects R (AwaitJson r k).

Definition respects_step (R : State -> State -> Prop)
  (f : State -> async_step) : Prop :=
  forall s, R s (state_of (f s)) /\ respects R (rest_of (f s)).

(** The rest of an [async] function from the moment its [fetch] settles
    as [fr] on page [s]: its first continuation [k] runs; when it awaits
    the body, [later] is what other events do to the page meanwhile, and
    the next continuation runs on the result. *)
Definition after_fetch (k : fetch_result -> State -> async_step)
  (fr : fetch_result) (s : State) (later : State -> State) : async_step :=
  match k fr s with
  | (s', out, AwaitJson r k') =>
      let '(s'', out', t) := k' (json r) (later s') in
      (s'', (out ++ out')%list, t)
  | done => done
  end.

(** The sample page, a URL typed with blanks around it. *)
Definition typed_page : State :=
  with_form (set_videoUrl "  https://youtu.be/x " false) sample_page.

(** The page with that URL while a first fetch of the description is
    waiting: the button is disabled. *)
Definition waiting_world : World :=
  run_handler
    (call_async (handleFetchInfo (E := sample_engine)))
    (mkWorld (initEventListeners typed_page) [] []).

(** An [async] function that has ended with the error section alone
    showing [message]. *)
Definition shown_error (a : async_step) (message : string) : Prop :=
  rest_of a = Done /\
  sections (state_of a) = error_only /\
  errorMessage (state_of a) = message.

(** The address [initWebSocket] connects to. *)
Definition socket_address (e : Env) : string :=
  (if String.eqb (location_protocol e) "https:" then "wss:" else "ws:")
    ++ "//" ++ location_host e ++ "/ws".

(** The events that come from the user. *)
Definition from_user (ev : event) : bool :=
  match ev with
  | UserTypesUrl _ | UserChecksFormat _ | UserSelectsVideoQuality _
  | UserSelectsAudioQuality _ | ClickFetchInfo | KeyPress _
  | ClickDownload | ClickNewDownload | ClickRetry | ClickHistoryItem _ =>
      true
  | _ => false
  end.

(** The events that create a socket or change the state of one. *)
Definition on_channel (ev : event) : bool :=
  match ev with
  | SocketOpens _ | SocketCloses _ | TimerFires _ => true
  | _ => false
  end.

Definition is_message (ev : event) : bool :=
  match ev with
  | SocketMessage _ _ => true
  | _ => false
  end.

(** The events of the connection itself and of the clock. *)
Definition is_transport (ev : event) : bool :=
  match ev with
  | SocketOpens _ | SocketError _ | SocketCloses _ | TimerFires _
  | TimePasses _ => true
  | _ => false
  end.

(** A [fetch] settling, or the body of a response arriving. *)
Definition is_response (ev : event) : bool :=
  match ev with
  | FetchSettles _ _ | BodyRead _ => true
  | _ => false
  end.

(** What the user sees and uses. *)
Definition display (s : State)
  : Sections * Preview * Progress * Complete * string * list node * Form :=
  (sections s, preview s, progress s, complete s, errorMessage s,
   historyList s, form s).

(** What event [ev] keeps of the page, going from [s] to [s']. *)
Definition kept (ev : event) (s s' : State) : Prop :=
  (exclusive (sections s) = true -> exclusive (sections s') = true) /\
  (from_user ev = false -> form_inputs (form s') = form_inputs (form s)) /\
  (is_message ev = false ->
   progressMessage (progress s') = progressMessage (progress s)) /\
  (on_channel ev = false ->
   sockets (env s') = sockets (env s) /\
   timers (env s') = timers (env s) /\
   websocket (globals s') = websocket (globals s)) /\
  location_protocol (env s') = location_protocol (env s) /\
  location_host (env s') = location_host (env s).

(** Every waiting [async] function is steady. *)
Definition calm (w : World) : Prop :=
  Forall (respects steady) (pending w).

(** ** Reference formulas, in integer arithmetic *)

(** At least two digits. *)
Definition two_digits (z : Z) : string :=
  if (z <? 10)%Z then "0" ++ Str.of_Z z else Str.of_Z z.

(** [n] seconds as minutes and seconds remaining. *)
Definition eta_text (n : Z) : string :=
  if (n <? 60)%Z then Str.of_Z n ++ "秒 残り"
  else Str.of_Z (n / 60) ++ "分" ++ Str.of_Z (n mod 60) ++ "秒 残り".

(** [n] seconds as minutes and seconds, minutes not folded into hours. *)
Definition duration_text (n : Z) : string :=
  two_digits (n / 60) ++ ":" ++ two_digits (n mod 60).

(** [n] bytes per second in MB/s with two decimals, the nearest
    hundredth, a tie going up. *)
Definition speed_text (n : Z) : string :=
  let c := ((200 * n + 1048576) / 2097152)%Z in
  Str.of_Z (c / 100) ++ "." ++ two_digits (c mod 100) ++ " MB/s".

(** [f] holds of the [count] integers from [a] on. *)
Fixpoint all_from (count : nat) (a : Z) (f : Z -> bool) : bool :=
  match count with
  | O => true
  | S count' => f a && all_from count' (a + 1)%Z f
  end.

Section Checks.

Context {E : Engine}.

(** The checks behind the statements on ranges of whole numbers. *)
Definition returns (c : completion string) (expected : string) : bool :=
  match c with
  | Normal text => String.eqb text expected
  | Throw _ => false
  end.

Definition eta_agrees (n : Z) : bool :=
  returns (formatEta (VNum (Num.of_Z n))) (eta_text n).

Definition duration_agrees (n : Z) : bool :=
  returns (formatDuration (VNum (Num.of_Z n))) (duration_text n).

Definition speed_agrees (n : Z) : bool :=
  returns (formatSpeed (VNum (Num.of_Z n))) (speed_text n).

(** The percent [updateProgress] writes for a progress of [h] halves. *)
Definition percent_text (h : Z) : string :=
  let x := Num.div (Num.of_Z h) (Num.of_Z 2) in
  Number_toString
    (Num.Math_round (if Num.truthy x then x else Num.zero)) ++ "%".

Definition percent_agrees (h : Z) : bool :=
  String.eqb (percent_text h) (Str.of_Z ((h + 1) / 2) ++ "%")
  && Bool.eqb (Css.width_percentage (percent_text h)) (-1 <=? h)%Z.

End Checks.

(* ================================================================== *)
(** * Properties *)

Section Claims.

Context {E : Engine}.

Local Open Scope js_scope.

(** ** Helper lemmas *)

Lemma strict_eq_string_neq (v : value) (lit : string) :
  v <> VStr lit -> strict_eq_string v lit = false.
Proof.
  destruct v as [ | | b | n | s | l | fs ]; simpl; intros H;
    try reflexivity.
  destruct (String.eqb_spec s lit) as [-> | _]; [ | reflexivity ].
  now elim H.
Qed.

Lemma lookup_absent (key : string) (fields : list (string * value)) :
  has_field key fields = false -> lookup key fields = VUndefined.
Proof.
  induction fields as [ | [k v] rest IH ]; simpl; [ reflexivity | ].
  destruct (String.eqb k key); simpl; [ discriminate | exact IH ].
Qed.

Lemma set_width_twice (v old : string) :
  Css.set_width v (Css.set_width v old) = Css.set_width v old.
Proof.
  unfold Css.set_width.
  destruct (Css.width_percentage v); reflexivity.
Qed.

Lemma is_empty_false (s : string) : s <> "" -> Str.is_empty s = false.
Proof. destruct s; [ intros H; now elim H | reflexivity ]. Qed.

(** ** Conversions *)

Lemma value_induction (P : value -> Prop) :
  P VUndefined -> P VNull ->
  (forall b, P (VBool b)) -> (forall n, P (VNum n)) ->
  (forall str, P (VStr str)) ->
  (forall elems, Forall P elems -> P (VArr elems)) ->
  (forall fields, P (VObj fields)) ->
  forall v, P v.
Proof.
  intros H1 H2 H3 H4 H5 H6 H7.
  fix IH 1.
  intros [ | | b | n | str | elems | fields ];
    [ exact H1 | exact H2 | apply H3 | apply H4 | apply H5 | | apply H7 ].
  apply H6.
  induction elems as [ | x rest IHl ]; constructor;
    [ apply IH | exact IHl ].
Qed.

Lemma join_cons (each : value -> completion string) (sep : string)
  (x : value) (rest : list value) :
  join each sep (x :: rest)
  = bindC (each x) (fun sx =>
    match rest with
    | [] => Normal sx
    | _ :: _ => bindC (join each sep rest) (fun sr =>
                Normal (sx ++ sep ++ sr))
    end).
Proof. reflexivity. Qed.

(** How a join ends, from how each element does. *)
Lemma join_returns (each : value -> completion string) (sep : string)
  (good : value -> bool) (e : exn) (elems : list value) :
  Forall (fun x => if good x then exists t, each x = Normal t
                   else each x = Throw e) elems ->
  if forallb good elems then exists t, join each sep elems = Normal t
  else join each sep elems = Throw e.
Proof.
  induction 1 as [ | x rest Hx _ IH ].
  - cbn. now exists "".
  - rewrite join_cons. cbn [forallb].
    destruct (good x).
    + destruct Hx as [ t -> ]. cbn [andb bindC].
      destruct rest as [ | y rest ]; [ now exists t | ].
      destruct (forallb good (y :: rest)).
      * destruct IH as [ t' -> ]. cbn. eexists; reflexivity.
      * rewrite IH. reflexivity.
    + rewrite Hx. reflexivity.
Qed.

Lemma join_may_throw (each : value -> completion string) (sep : string)
  (good : value -> bool) (elems : list value) :
  Forall (fun x => if good x then exists t, each x = Normal t
                   else exists e, each x = Throw e) elems ->
  if forallb good elems then exists t, join each sep elems = Normal t
  else exists e, join each sep elems = Throw e.
Proof.
  induction 1 as [ | x rest Hx _ IH ].
  - cbn. now exists "".
  - rewrite join_cons. cbn [forallb].
    destruct (good x).
    + destruct Hx as [ t -> ]. cbn [andb bindC].
      destruct rest as [ | y rest ]; [ now exists t | ].
      destruct (forallb good (y :: rest)).
      * destruct IH as [ t' -> ]. cbn. eexists; reflexivity.
      * destruct IH as [ e -> ]. eexists; reflexivity.
    + destruct Hx as [ e -> ]. eexists; reflexivity.
Qed.

Lemma falsy_printable (v : value) :
  ToBoolean v = false -> printable v = true.
Proof. destruct v; try reflexivity; discriminate. Qed.

Lemma or_else_printable (a b : value) :
  printable b = true -> printable (or_else a b) = printable a.
Proof.
  unfold or_else. destruct (ToBoolean a) eqn:H; [ reflexivity | ].
  intros ->. symmetry. now apply falsy_printable.
Qed.

(** [ToString] returns exactly on the printable values, and throws the
    same TypeError on the others. *)
Lemma ToString_returns (v : value) :
  if printable v then exists t, ToString v = Normal t
  else ToString v = Throw (TypeError cannot_convert_message).
Proof.
  induction v as [ | | b | n | str | elems IH | fields ]
    using value_induction;
    try (cbn; eexists; reflexivity).
  - cbn [printable ToString].
    apply join_returns.
    apply Forall_impl with (2 := IH).
    intros [ | | b | n | str | l | fs ] H; try exact H;
      eexists; reflexivity.
  - cbn [printable ToString].
    destruct (has_field "toString" fields); cbn;
      [ reflexivity | eexists; reflexivity ].
Qed.

Lemma ToString_printable (v : value) :
  printable v = true -> exists t, ToString v = Normal t.
Proof.
  intros H. pose proof (ToString_returns v) as Hv. now rewrite H in Hv.
Qed.

Lemma ToString_unprintable (v : value) :
  printable v = false ->
  ToString v = Throw (TypeError cannot_convert_message).
Proof.
  intros H. pose proof (ToString_returns v) as Hv. now rewrite H in Hv.
Qed.

Lemma to_textContent_returns (v : value) :
  if printable v then exists t, to_textContent v = Normal t
  else to_textContent v = Throw (TypeError cannot_convert_message).
Proof.
  pose proof (ToString_returns v) as H.
  destruct v; try exact H; cbn; eexists; reflexivity.
Qed.

Lemma ToNumber_returns (v : value) :
  if printable v then exists n, ToNumber v = Normal n
  else ToNumber v = Throw (TypeError cannot_convert_message).
Proof.
  pose proof (ToString_returns v) as H.
  destruct v as [ | | b | n | str | elems | fields ];
    try (cbn; eexists; reflexivity);
    unfold ToNumber;
    (destruct (printable _);
     [ destruct H as [ t -> ]; eexists; reflexivity
     | now rewrite H ]).
Qed.

Lemma formatDuration_returns (v : value) :
  if printable v then exists t, formatDuration v = Normal t
  else formatDuration v = Throw (TypeError cannot_convert_message).
Proof.
  unfold formatDuration. pose proof (ToNumber_returns v) as H.
  destruct (ToBoolean v) eqn:Hb; cbn [negb].
  - destruct (printable v);
      [ destruct H as [ n -> ]; eexists; reflexivity | now rewrite H ].
  - rewrite (falsy_printable _ Hb). eexists; reflexivity.
Qed.

Lemma formatSpeed_returns (v : value) :
  if printable v then exists t, formatSpeed v = Normal t
  else formatSpeed v = Throw (TypeError cannot_convert_message).
Proof.
  unfold formatSpeed. pose proof (ToNumber_returns v) as H.
  destruct (ToBoolean v) eqn:Hb; cbn [negb].
  - destruct (printable v);
      [ destruct H as [ n -> ]; eexists; reflexivity | now rewrite H ].
  - rewrite (falsy_printable _ Hb). eexists; reflexivity.
Qed.

Lemma formatEta_returns (v : value) :
  if printable v then exists t, formatEta v = Normal t
  else formatEta v = Throw (TypeError cannot_convert_message).
Proof.
  unfold formatEta. pose proof (ToNumber_returns v) as H.
  destruct (ToBoolean v) eqn:Hb; cbn [negb].
  - destruct (printable v).
    + destruct H as [ n -> ]. cbn [bindC].
      destruct (Num.ltb _ _); eexists; reflexivity.
    + now rewrite H.
  - rewrite (falsy_printable _ Hb). eexists; reflexivity.
Qed.

Lemma toLocaleString_returns (v : value) :
  forall callee,
    v <> VUndefined -> v <> VNull ->
    if localizable v then exists t, toLocaleString callee v = Normal t
    else exists e, toLocaleString callee v = Throw e.
Proof.
  induction v as [ | | b | n | str | elems IH | fields ]
    using value_induction; intros callee H1 H2;
    try (now elim H1); try (now elim H2);
    try (cbn; eexists; reflexivity).
  - cbn [localizable toLocaleString].
    apply join_may_throw.
    apply Forall_impl with (2 := IH).
    intros [ | | b | n | str | l | fs ] H;
      try (cbn; eexists; reflexivity);
      apply H; discriminate.
  - cbn [localizable toLocaleString].
    destruct (has_field "toLocaleString" fields); cbn;
      [ eexists; reflexivity | ].
    destruct (has_field "toString" fields); cbn; eexists; reflexivity.
Qed.

Lemma formatNumber_returns (v : value) :
  if countable v then exists t, formatNumber v = Normal t
  else exists e, formatNumber v = Throw e.
Proof.
  unfold formatNumber, countable.
  destruct (ToBoolean v) eqn:Hb; cbn [negb orb];
    [ | eexists; reflexivity ].
  apply toLocaleString_returns; intros ->; discriminate Hb.
Qed.

(** ** Progress *)

(** What [updateProgress] does on an object: the three values are
    converted, in the order progress, speed, time, before anything is
    written. *)
Lemma updateProgress_object (fields : list (string * value)) (s : State) :
  updateProgress (VObj fields) s =
  match ToNumber (or_else (lookup "progress" fields) (VNum Num.zero)) with
  | Throw e => (s, Throw e)
  | Normal n =>
      match formatSpeed (or_else (lookup "speed" fields) (VNum Num.zero))
      with
      | Throw e => (s, Throw e)
      | Normal speed =>
          match formatEta (or_else (lookup "eta" fields) (VNum Num.zero))
          with
          | Throw e => (s, Throw e)
          | Normal eta =>
              (with_progress (fun x =>
                 mkProgress
                   (Css.set_width
                      (Number_toString (Num.Math_round n) ++ "%")
                      (progressBar_width x))
                   (Number_toString (Num.Math_round n) ++ "%")
                   speed eta (progressMessage x)) s,
               Normal tt)
          end
      end
  end.
Proof.
  unfold updateProgress, bindP, liftC, modify. cbn [Get].
  destruct (ToNumber _); [ | reflexivity ].
  destruct (formatSpeed _); [ | reflexivity ].
  destruct (formatEta _); reflexivity.
Qed.

(** [updateProgress] throws before it writes. *)
Lemma updateProgress_throws (data : value) (s : State) (e : exn) :
  snd (updateProgress data s) = Throw e -> fst (updateProgress data s) = s.
Proof.
  destruct data as [ | | b | n | str | l | fields ];
    try (cbn; congruence).
  rewrite updateProgress_object.
  destruct (ToNumber _); [ | reflexivity ].
  destruct (formatSpeed _); [ | reflexivity ].
  destruct (formatEta _); [ discriminate | reflexivity ].
Qed.

(** On the printable values, and only on them, it returns. *)
Lemma updateProgress_returns (fields : list (string * value)) (s : State) :
  snd (updateProgress (VObj fields) s) = Normal tt <->
  printable (lookup "progress" fields)
  && printable (lookup "speed" fields)
  && printable (lookup "eta" fields) = true.
Proof.
  rewrite updateProgress_object.
  pose proof (ToNumber_returns
                (or_else (lookup "progress" fields) (VNum Num.zero))) as H1.
  pose proof (formatSpeed_returns
                (or_else (lookup "speed" fields) (VNum Num.zero))) as H2.
  pose proof (formatEta_returns
                (or_else (lookup "eta" fields) (VNum Num.zero))) as H3.
  rewrite or_else_printable in H1, H2, H3 by reflexivity.
  destruct (printable (lookup "progress" fields)).
  - destruct H1 as [ n -> ].
    destruct (printable (lookup "speed" fields)).
    + destruct H2 as [ t2 -> ].
      destruct (printable (lookup "eta" fields)).
      * destruct H3 as [ t3 -> ]. now split.
      * rewrite H3. cbn. split; discriminate.
    + rewrite H2. cbn. split; discriminate.
  - rewrite H1. cbn. split; discriminate.
Qed.

(** The rendering of [{ progress: 0, speed: 0, eta: 0 }]. *)
Lemma updateProgress_reset (s : State) :
  updateProgress progress_reset s =
  (with_progress (fun x =>
     mkProgress "0%" "0%" "0 MB/s" "-- 残り" (progressMessage x)) s,
   Normal tt).
Proof. reflexivity. Qed.

(** What [showError] does for a text, and what it leaves alone:
    everything but the four sections and the text of the error
    message. *)
Lemma showError_text (message : string) (s : State) :
  showError (VStr message) s
  = (with_errorMessage message
       (with_sections show_errorSection (hideAllSections s)),
     Normal tt).
Proof. reflexivity. Qed.

Lemma showError_frame (message : value) (s : State) :
  globals (fst (showError message s)) = globals s /\
  form (fst (showError message s)) = form s /\
  preview (fst (showError message s)) = preview s /\
  progress (fst (showError message s)) = progress s /\
  complete (fst (showError message s)) = complete s /\
  historyList (fst (showError message s)) = historyList s /\
  env (fst (showError message s)) = env s /\
  sections (fst (showError message s)) = mkSections true true true false.
Proof.
  unfold showError, bindP, liftC, modify.
  destruct (to_textContent message); repeat split.
Qed.

(** ** Integers as numbers *)

Lemma iter_pos_nat {A} (f : A -> A) (p : positive) (x : A) :
  iter_pos f p x = Nat.iter (Pos.to_nat p) f x.
Proof.
  revert x. induction p as [ p IH | p IH | ]; intros x; cbn [iter_pos].
  - rewrite !IH, Pos2Nat.inj_xI.
    replace (S (2 * Pos.to_nat p)) with (Pos.to_nat p + S (Pos.to_nat p))%nat
      by lia.
    rewrite Nat.iter_add, Nat.iter_succ_r. reflexivity.
  - rewrite !IH, Pos2Nat.inj_xO.
    replace (2 * Pos.to_nat p)%nat with (Pos.to_nat p + Pos.to_nat p)%nat
      by lia.
    now rewrite Nat.iter_add.
  - reflexivity.
Qed.

(** Shifting right by fewer places than the mantissa has digits leaves a
    positive mantissa. *)
Lemma shr_iter_positive (n : nat) (m : positive) (r s : bool) :
  (Z.of_nat n < Zpos (digits2_pos m))%Z ->
  positive_mantissa (Nat.iter n shr_1 (Build_shr_record (Zpos m) r s)).
Proof.
  revert m r s. induction n as [ | n IH ]; intros m r s Hn.
  - now exists m.
  - rewrite Nat.iter_succ_r.
    destruct m as [ m | m | ]; cbn [shr_1 digits2_pos] in *;
      try (apply IH; lia).
    lia.
Qed.

Lemma shr_record_of_loc_m (m : Z) (l : location) :
  shr_m (shr_record_of_loc m l) = m.
Proof. destruct l as [ | [ | | ] ]; reflexivity. Qed.

Lemma shr_fexp_positive (m : positive) (e : Z) (l : location) :
  (emin Num.prec Num.emax <= e)%Z ->
  positive_mantissa (fst (shr_fexp Num.prec Num.emax (Zpos m) e l)) /\
  (e <= snd (shr_fexp Num.prec Num.emax (Zpos m) e l))%Z.
Proof.
  intros He. unfold shr_fexp, shr, fexp, emin, Num.prec, Num.emax in *.
  cbn [Zdigits2].
  destruct (Z.max (Zpos (digits2_pos m) + e - 53) (3 - 1024 - 53) - e)%Z
    as [ | k | k ] eqn:Hk; cbn [fst snd].
  - split; [ | lia ]. exists m. apply shr_record_of_loc_m.
  - split; [ | lia ]. rewrite iter_pos_nat.
    destruct l as [ | [ | | ] ]; cbn [shr_record_of_loc];
      apply shr_iter_positive; lia.
  - split; [ | lia ]. exists m. apply shr_record_of_loc_m.
Qed.

Lemma round_nearest_even_positive (m : positive) (l : location) :
  exists m', round_nearest_even (Zpos m) l = Zpos m'.
Proof.
  destruct l as [ | [ | | ] ]; cbn [round_nearest_even];
    try (now exists m).
  - destruct (Z.even (Zpos m)); [ now exists m | now exists (m + 1)%positive ].
  - now exists (m + 1)%positive.
Qed.

Lemma binary_round_aux_positive (m : positive) (e : Z) (l : location) :
  (emin Num.prec Num.emax <= e)%Z ->
  Num.ltb Num.zero (binary_round_aux Num.prec Num.emax false (Zpos m) e l)
  = true.
Proof.
  intros He. unfold binary_round_aux.
  destruct (shr_fexp_positive m e l He) as [[m1 H1] He1].
  destruct (shr_fexp Num.prec Num.emax (Zpos m) e l) as [mrs' e'].
  cbn [fst snd] in *. rewrite H1.
  destruct (round_nearest_even_positive m1 (loc_of_shr_record mrs'))
    as [m2 H2].
  rewrite H2.
  assert (He' : (emin Num.prec Num.emax <= e')%Z) by lia.
  destruct (shr_fexp_positive m2 e' loc_Exact He') as [[m3 H3] _].
  destruct (shr_fexp Num.prec Num.emax (Zpos m2) e' loc_Exact)
    as [mrs'' e''].
  cbn [fst] in H3. rewrite H3.
  destruct (e'' <=? Num.emax - Num.prec)%Z; reflexivity.
Qed.

(** The number of a positive integer is greater than zero. *)
Lemma of_Z_positive (p : positive) :
  Num.ltb Num.zero (Num.of_Z (Zpos p)) = true.
Proof.
  unfold Num.of_Z, binary_normalize, binary_round, shl_align.
  destruct (fexp Num.prec Num.emax (Zpos (digits2_pos p) + 0) - 0)%Z
    as [ | d | d ] eqn:Hd;
    apply binary_round_aux_positive;
    unfold fexp, emin, Num.prec, Num.emax in *; lia.
Qed.

(** ** The status channel *)

(** C3: an event whose [status] is none of [downloading], [finished],
    [completed], [error] (any other string, any other value, or no status
    at all) is ignored: [handleWebSocketMessage] returns normally, leaves
    every part of the page state as it was, writes nothing to the console
    and starts no asynchronous work, so the world (page, pending tasks,
    console) is the same after the handler as before. *)
Theorem unknown_status_ignored (data status : value) (s : State) :
  Get data "status" = Normal status ->
  status <> VStr "downloading" ->
  status <> VStr "finished" ->
  status <> VStr "completed" ->
  status <> VStr "error" ->
  handleWebSocketMessage data s = mkResult s [] [] (Normal tt) /\
  forall w : World,
    page w = s -> run_handler (handleWebSocketMessage data) w = w.
Proof.
  intros Hget H1 H2 H3 H4.
  assert (Hrun : handleWebSocketMessage data s = mkResult s [] [] (Normal tt)).
  { unfold handleWebSocketMessage, bindM, liftP, liftC. simpl.
    rewrite Hget. simpl.
    rewrite (strict_eq_string_neq _ _ H1), (strict_eq_string_neq _ _ H2),
            (strict_eq_string_neq _ _ H3), (strict_eq_string_neq _ _ H4).
    reflexivity. }
  split; [ exact Hrun | ].
  intros [p q c] Hp. simpl in Hp. subst p.
  unfold run_handler. simpl. rewrite Hrun. simpl.
  now rewrite !app_nil_r.
Qed.

(** C10: when [JSON.parse] throws on the payload of a message, the
    [onmessage] handler ends with that exception (nothing catches it); the
    page state is unchanged, nothing is logged and nothing is started, so
    the dispatch on [status] is never entered; a socket message with such
    a payload leaves the world as it was. *)
Theorem malformed_payload_raises (payload : string) (e : exn) (s : State) :
  JSON_parse payload = Throw e ->
  ws_onmessage payload s = mkResult s [] [] (Throw e) /\
  forall (w w' : World) (ws : nat),
    page w = s -> step w (SocketMessage ws payload) = Some w' -> w' = w.
Proof.
  intros Hparse.
  assert (Hrun : ws_onmessage payload s = mkResult s [] [] (Throw e)).
  { unfold ws_onmessage, bindM, liftP, liftC. simpl.
    now rewrite Hparse. }
  split; [ exact Hrun | ].
  intros [p q c] w' ws Hp. simpl in Hp. subst p.
  unfold step. simpl.
  destruct (readyState_of ws s) as [ [ | | ] | ]; try discriminate.
  intros [= <-]. unfold run_handler. simpl. rewrite Hrun. simpl.
  now rewrite !app_nil_r.
Qed.

(** C2: a [downloading] event and its missing fields.  The dispatch of
    such an event returns normally exactly when each of [progress],
    [speed] and [eta] can be converted to a number, which a field that
    is absent always can: it reads as [undefined], [|| 0] makes it zero,
    so no missing field ever makes the handler throw, and with all
    three missing it returns.  When it returns, a field that is absent
    (or otherwise falsy) shows as zero: percent and bar width [0%],
    speed [0 MB/s], time [-- 残り]; a field that is truthy shows as its
    own rounding or format.  When it throws, it has written nothing. *)
Theorem downloading_event_defaults (fields : list (string * value))
  (s : State) :
  lookup "status" fields = VStr "downloading" ->
  let r := handleWebSocketMessage (VObj fields) s in
  (outcome r = Normal tt <->
   printable (lookup "progress" fields)
   && printable (lookup "speed" fields)
   && printable (lookup "eta" fields) = true) /\
  (forall key,
     has_field key fields = false ->
     lookup key fields = VUndefined /\
     or_else (lookup key fields) (VNum Num.zero) = VNum Num.zero /\
     printable (lookup key fields) = true) /\
  (has_field "progress" fields = false ->
   has_field "speed" fields = false ->
   has_field "eta" fields = false ->
   outcome r = Normal tt) /\
  (outcome r <> Normal tt -> final r = s) /\
  (outcome r = Normal tt ->
   (ToBoolean (lookup "progress" fields) = false ->
    progressPercent (progress (final r)) = "0%" /\
    progressBar_width (progress (final r)) = "0%") /\
   (forall n,
      ToBoolean (lookup "progress" fields) = true ->
      ToNumber (lookup "progress" fields) = Normal n ->
      progressPercent (progress (final r))
      = Number_toString (Num.Math_round n) ++ "%") /\
   (ToBoolean (lookup "speed" fields) = false ->
    progressSpeed (progress (final r)) = "0 MB/s") /\
   (ToBoolean (lookup "speed" fields) = true ->
    formatSpeed (lookup "speed" fields)
    = Normal (progressSpeed (progress (final r)))) /\
   (ToBoolean (lookup "eta" fields) = false ->
    progressEta (progress (final r)) = "-- 残り") /\
   (ToBoolean (lookup "eta" fields) = true ->
    formatEta (lookup "eta" fields)
    = Normal (progressEta (progress (final r))))).
Proof.
  intros Hstatus r.
  assert (Hr : r = mkResult (fst (updateProgress (VObj fields) s)) [] []
                            (snd (updateProgress (VObj fields) s))).
  { subst r. unfold handleWebSocketMessage, bindM, liftP, liftC.
    cbn [Get outcome final console spawned]. rewrite Hstatus.
    cbn [strict_eq_string String.eqb Ascii.eqb Bool.eqb].
    now destruct (updateProgress (VObj fields) s). }
  assert (Habsent : forall key,
            has_field key fields = false ->
            lookup key fields = VUndefined /\
            or_else (lookup key fields) (VNum Num.zero) = VNum Num.zero /\
            printable (lookup key fields) = true).
  { intros key H. rewrite (lookup_absent _ _ H). now repeat split. }
  rewrite Hr. cbn [outcome final].
  split; [ apply updateProgress_returns | ].
  split; [ exact Habsent | ].
  split.
  { intros H1 H2 H3. apply updateProgress_returns.
    now rewrite (proj1 (Habsent _ H1)), (proj1 (Habsent _ H2)),
      (proj1 (Habsent _ H3)). }
  split.
  { intros H. destruct (snd (updateProgress (VObj fields) s))
      as [ [] | e ] eqn:He; [ now elim H | ].
    exact (updateProgress_throws _ _ _ He). }
  rewrite updateProgress_object.
  destruct (ToNumber (or_else (lookup "progress" fields) (VNum Num.zero)))
    as [ n | e ] eqn:Hn; [ | discriminate ].
  destruct (formatSpeed (or_else (lookup "speed" fields) (VNum Num.zero)))
    as [ speed | e ] eqn:Hsp; [ | discriminate ].
  destruct (formatEta (or_else (lookup "eta" fields) (VNum Num.zero)))
    as [ eta | e ] eqn:He; [ | discriminate ].
  intros _. unfold or_else in Hn, Hsp, He.
  cbn [fst progress with_progress progressPercent progressBar_width
       progressSpeed progressEta].
  split.
  { intros H. rewrite H in Hn. injection Hn as <-. split; reflexivity. }
  split.
  { intros n0 H H0. rewrite H in Hn. congruence. }
  split.
  { intros H. rewrite H in Hsp. now injection Hsp as <-. }
  split.
  { intros H. now rewrite H in Hsp. }
  split.
  { intros H. rewrite H in He. now injection He as <-. }
  intros H. now rewrite H in He.
Qed.

(** C6: rendering progress is idempotent.  Running [updateProgress] a
    second time on the same event gives the same page state and the same
    completion as running it once (when the event is [null] or
    [undefined] both runs throw and write nothing); in particular the bar
    width, the percent, the speed and the time shown are the same. *)
Theorem updateProgress_idempotent (data : value) (s : State) :
  updateProgress data (fst (updateProgress data s)) = updateProgress data s
  /\ progress (fst (updateProgress data (fst (updateProgress data s)))) =
     progress (fst (updateProgress data s)).
Proof.
  assert (H : updateProgress data (fst (updateProgress data s)) =
              updateProgress data s).
  { destruct data as [ | | b | n | str | l | fields ];
      try reflexivity.
    rewrite !updateProgress_object.
    destruct (ToNumber _); [ | reflexivity ].
    destruct (formatSpeed _); [ | reflexivity ].
    destruct (formatEta _); [ | reflexivity ].
    cbn [fst]. unfold with_progress.
    cbn [progress progressBar_width progressMessage].
    now rewrite set_width_twice. }
  split; [ exact H | now rewrite H ].
Qed.

(** C7: the event [{status: 'downloading', progress: 42.7,
    speed: 2097152, eta: 75}] sets the width of the progress bar to
    [43%], the percent text to [43%], the speed to [2.00 MB/s] and the
    time to [1分15秒 残り], whatever the page showed before; the dispatch
    of the event does exactly that. *)
Theorem downloading_scenario_rendering (s : State) :
  updateProgress downloading_event s =
    (with_progress (fun x =>
       mkProgress "43%" "43%" "2.00 MB/s" "1分15秒 残り"
                  (progressMessage x)) s,
     Normal tt) /\
  progressBar_width (progress (fst (updateProgress downloading_event s)))
    = "43%" /\
  progressPercent (progress (fst (updateProgress downloading_event s)))
    = "43%" /\
  progressSpeed (progress (fst (updateProgress downloading_event s)))
    = "2.00 MB/s" /\
  progressEta (progress (fst (updateProgress downloading_event s)))
    = "1分15秒 残り" /\
  final (handleWebSocketMessage downloading_event s) =
    fst (updateProgress downloading_event s).
Proof.
  assert (H : updateProgress downloading_event s =
              (with_progress (fun x =>
                 mkProgress "43%" "43%" "2.00 MB/s" "1分15秒 残り"
                            (progressMessage x)) s,
               Normal tt)).
  { unfold downloading_event. rewrite updateProgress_object.
    reflexivity. }
  split; [ exact H | ].
  split; [ now rewrite H | ].
  split; [ now rewrite H | ].
  split; [ now rewrite H | ].
  split; [ now rewrite H | ].
  unfold handleWebSocketMessage, bindM, liftP, liftC.
  cbn [Get downloading_event lookup String.eqb Ascii.eqb Bool.eqb
       outcome final console spawned strict_eq_string].
  now destruct (updateProgress _ s).
Qed.

(** ** The form *)

(** C8: when the trimmed URL is not empty, [handleDownload] runs up to
    its [fetch] of [/api/download], and the page on which that call is
    issued has the progress section showing and the progress display
    reset: bar width [0%], percent [0%], speed [0 MB/s], time [-- 残り]
    (what [formatEta] prints for zero). *)
Theorem handleDownload_resets_progress (s : State) :
  Str.trim (videoUrl_value (form s)) <> "" ->
  exists (s' : State) (rq : request),
    handleDownload s = (s', [], AwaitFetch rq handleDownload_response) /\
    req_url rq = "/api/download" /\
    req_method rq = "POST" /\
    progressSection_hidden (sections s') = false /\
    progressBar_width (progress s') = "0%" /\
    progressPercent (progress s') = "0%" /\
    progressSpeed (progress s') = "0 MB/s" /\
    progressEta (progress s') = "-- 残り".
Proof.
  intros Hurl. unfold handleDownload.
  rewrite (is_empty_false _ Hurl), updateProgress_reset.
  eexists. eexists. split; [ reflexivity | ].
  repeat split.
Qed.

(** C4: when the URL field is empty or holds only white space (its
    trimmed value is empty), [handleFetchInfo] and [handleDownload] both
    end at once, with no [fetch] issued and nothing left pending, and
    what they do to the page is [showError('URLを入力してください')]: the
    error section shows with that message and the three other sections
    are hidden; the globals, the form, the preview, the progress display,
    the completed-file display, the history list and the browser state
    are as before. *)
Theorem empty_url_rejected (s : State) :
  Str.trim (videoUrl_value (form s)) = "" ->
  handleFetchInfo s
  = (fst (showError (VStr "URLを入力してください") s), [], Done) /\
  handleDownload s
  = (fst (showError (VStr "URLを入力してください") s), [], Done) /\
  (forall w : World, page w = s ->
     pending (run_handler (call_async handleFetchInfo) w) = pending w /\
     pending (run_handler (call_async handleDownload) w) = pending w) /\
  errorMessage (fst (showError (VStr "URLを入力してください") s))
    = "URLを入力してください" /\
  sections (fst (showError (VStr "URLを入力してください") s))
    = mkSections true true true false /\
  globals (fst (showError (VStr "URLを入力してください") s))
    = globals s /\
  form (fst (showError (VStr "URLを入力してください") s))
    = form s /\
  preview (fst (showError (VStr "URLを入力してください") s))
    = preview s /\
  progress (fst (showError (VStr "URLを入力してください") s))
    = progress s /\
  complete (fst (showError (VStr "URLを入力してください") s))
    = complete s /\
  historyList (fst (showError (VStr "URLを入力してください") s))
    = historyList s /\
  env (fst (showError (VStr "URLを入力してください") s))
    = env s.
Proof.
  intros Hurl.
  assert (Hf : handleFetchInfo s =
               (fst (showError (VStr "URLを入力してください") s), [], Done)).
  { unfold handleFetchInfo. now rewrite Hurl. }
  assert (Hd : handleDownload s =
               (fst (showError (VStr "URLを入力してください") s), [], Done)).
  { unfold handleDownload. now rewrite Hurl. }
  split; [ exact Hf | ]. split; [ exact Hd | ].
  split.
  - intros [p q c] Hp. simpl in Hp. subst p.
    unfold run_handler, call_async. cbn [page pending].
    rewrite Hf, Hd. cbn [spawned]. now rewrite app_nil_r.
  - repeat split.
Qed.


(** ** History *)

Lemma Get_member (v : value) (key : string) :
  v <> VNull -> v <> VUndefined -> Get v key = Normal (member v key).
Proof.
  intros H1 H2. unfold member.
  destruct v; try (now elim H1); try (now elim H2); reflexivity.
Qed.

Lemma Date_toLocaleString_returns (v : value) :
  if printable v then exists t, Date_toLocaleString v = Normal t
  else Date_toLocaleString v = Throw (TypeError cannot_convert_message).
Proof.
  pose proof (ToString_returns v) as H.
  destruct v as [ | | b | n | str | elems | fields ];
    try (cbn; eexists; reflexivity);
    unfold Date_toLocaleString;
    (destruct (printable _);
     [ destruct H as [ t -> ]; eexists; reflexivity
     | now rewrite H ]).
Qed.

(** [createHistoryItem] returns exactly on the items it can render. *)
Lemma createHistoryItem_returns (item : value) :
  if item_renders item then exists n, createHistoryItem item = Normal n
  else exists e, createHistoryItem item = Throw e.
Proof.
  assert (Hn : item = VNull \/ item = VUndefined \/
               (item <> VNull /\ item <> VUndefined)).
  { destruct item; auto; right; right; split; discriminate. }
  destruct Hn as [ -> | [ -> | [ H1 H2 ] ] ];
    try (cbn; eexists; reflexivity).
  assert (Hr : item_renders item
               = printable (member item "thumbnail")
                 && printable (member item "completed_at")
                 && printable (member item "title")).
  { destruct item; try reflexivity; [ now elim H2 | now elim H1 ]. }
  rewrite Hr. unfold createHistoryItem.
  rewrite !(Get_member item _ H1 H2). cbn [bindC]. cbv zeta.
  pose proof (ToString_returns
                (or_else (member item "thumbnail") (VStr no_thumbnail)))
    as Ht.
  rewrite or_else_printable in Ht by reflexivity.
  pose proof (Date_toLocaleString_returns (member item "completed_at"))
    as Hd.
  pose proof (ToString_returns (member item "title")) as Hi.
  destruct (printable (member item "thumbnail")).
  - destruct Ht as [ t1 -> ].
    destruct (printable (member item "completed_at")).
    + destruct Hd as [ t2 -> ].
      destruct (printable (member item "title")).
      * destruct Hi as [ t3 -> ]. eexists; reflexivity.
      * rewrite Hi. eexists; reflexivity.
    + rewrite Hd. eexists; reflexivity.
  - destruct (Date_toLocaleString _); cbn;
      [ rewrite Ht | ]; eexists; reflexivity.
Qed.

Lemma createHistoryItem_defined (item : value) :
  item_renders item = true ->
  exists n, createHistoryItem item = Normal n.
Proof.
  intros H. pose proof (createHistoryItem_returns item) as Hr.
  now rewrite H in Hr.
Qed.

Lemma nullish_not_rendered (item : value) :
  nullish item -> item_renders item = false.
Proof. intros [ -> | -> ]; reflexivity. Qed.

(** What [append_items] adds and how it ends depend on the items only. *)
Lemma append_items_adds (items : list value) :
  exists (added : list node) (c : completion unit),
    forall s,
      historyList (fst (append_items items s))
        = (historyList s ++ added)%list /\
      snd (append_items items s) = c.
Proof.
  induction items as [ | item rest (added & c & IH) ].
  - exists [], (Normal tt). intros s. cbn. now rewrite app_nil_r.
  - cbn [append_items]. unfold bindP, liftC, modify.
    destruct (createHistoryItem item) as [ n | e ].
    + exists (n :: added), c. intros s.
      destruct (IH (with_historyList (fun l => (l ++ [n])%list) s))
        as [Hl Hc].
      rewrite Hl, Hc. cbn. now rewrite <- app_assoc.
    + exists [], (Throw e). intros s. cbn. now rewrite app_nil_r.
Qed.

(** On items that can all be rendered, one node is added for each. *)
Lemma append_items_all (items : list value) :
  Forall (fun item => item_renders item = true) items ->
  exists nodes,
    Forall2 (fun item n => createHistoryItem item = Normal n) items nodes /\
    forall s,
      historyList (fst (append_items items s))
        = (historyList s ++ nodes)%list /\
      snd (append_items items s) = Normal tt.
Proof.
  induction 1 as [ | item rest H1 _ (nodes & HF & IH) ].
  - exists []. split; [ constructor | ]. intros s. cbn.
    now rewrite app_nil_r.
  - destruct (createHistoryItem_defined item H1) as [n Hn].
    exists (n :: nodes). split; [ now constructor | ].
    intros s. cbn [append_items]. unfold bindP, liftC, modify.
    rewrite Hn.
    destruct (IH (with_historyList (fun l => (l ++ [n])%list) s))
      as [Hl Hc].
    rewrite Hl, Hc. cbn. now rewrite <- app_assoc.
Qed.

(** What [displayHistory] renders and how it ends depend on its argument
    only: the list is rebuilt from nothing. *)
Lemma displayHistory_replaces (history : value) :
  exists (l : list node) (c : completion unit),
    forall s,
      historyList (fst (displayHistory history s)) = l /\
      snd (displayHistory history s) = c.
Proof.
  unfold displayHistory, bindP, modify, liftC.
  destruct history as [ | | b | n | str | items | fields ];
    try (eexists; eexists; intros s; cbn; split; reflexivity).
  destruct (append_items_adds items) as (added & c & H).
  exists added, c. intros s.
  destruct (H (with_historyList (fun _ => []) s)) as [Hl Hc].
  now rewrite Hl, Hc.
Qed.

(** The list shown after [loadHistory] has read the body depends on the
    body only. *)
Lemma loadHistory_json_replaces (body : completion value) :
  exists l : list node,
    forall s, historyList (state_of (loadHistory_json body s)) = l.
Proof.
  destruct body as [ result | e ];
    [ | exists [HistoryEmpty]; reflexivity ].
  unfold loadHistory_json, loadHistory_render, bindP, liftC, modify.
  destruct (Get result "success") as [ success | e ];
    [ | exists [HistoryEmpty]; reflexivity ].
  destruct (ToBoolean success);
    [ | exists [HistoryEmpty]; reflexivity ].
  destruct (Get result "data") as [ data | e ];
    [ | exists [HistoryEmpty]; reflexivity ].
  destruct (Get data "length") as [ len | e ];
    [ | exists [HistoryEmpty]; reflexivity ].
  destruct (ToNumber len) as [ n | e ];
    [ | exists [HistoryEmpty]; reflexivity ].
  destruct (Num.ltb Num.zero n);
    [ | exists [HistoryEmpty]; reflexivity ].
  destruct (displayHistory_replaces data) as (l & c & H).
  destruct c as [ [] | e ].
  - exists l. intros s. destruct (H s) as [Hl Hc].
    destruct (displayHistory data s) as [s' c']. cbn in *. now subst c'.
  - exists [HistoryEmpty]. intros s. destruct (H s) as [Hl Hc].
    destruct (displayHistory data s) as [s' c']. cbn in *. now subst c'.
Qed.

Lemma loadHistory_settled_replaces (fr : fetch_result) (s s' : State) :
  historyList (loadHistory_settled fr s)
  = historyList (loadHistory_settled fr s').
Proof.
  unfold loadHistory_settled, loadHistory, loadHistory_response.
  destruct fr as [ r | e ]; [ | reflexivity ].
  cbn [state_of fst].
  destruct (loadHistory_json_replaces (json r)) as [l H].
  now rewrite !H.
Qed.

(** An item that cannot be rendered ends the rendering with an
    exception. *)
Lemma append_items_unrenderable (items : list value) :
  Exists (fun item => item_renders item = false) items ->
  forall s, exists e, snd (append_items items s) = Throw e.
Proof.
  induction items as [ | item rest IH ]; intros Hex s.
  - inversion Hex.
  - cbn [append_items]. unfold bindP, liftC, modify.
    pose proof (createHistoryItem_returns item) as Hr.
    destruct (createHistoryItem item) as [ n | e ] eqn:Hc;
      [ | eexists; reflexivity ].
    inversion Hex as [ x l0 H | x l0 H ]; subst.
    + rewrite H in Hr. destruct Hr as [ e He ]. discriminate He.
    + now apply IH.
Qed.

(** C9: what [loadHistory] renders.  A call issues one [fetch] of
    [/api/history] and renders nothing until it settles.  When the fetch
    fails, the body is not JSON, [success] is falsy or the list is empty,
    the history shows the placeholder alone; so it does when the list
    holds an item that cannot be rendered ([null], or one whose
    thumbnail, title or date cannot be converted to a string), however
    many items the list has.  When [success] is truthy and [data] is a
    non-empty array of items that can all be rendered, the history
    shows exactly the nodes [createHistoryItem] builds for the items,
    one for each, in order.  In every case the list shown afterwards
    depends on the response only, not on what was shown before: a call
    replaces the list, so after any number of calls the list is the
    rendering of the last response and no entry of an earlier call
    remains. *)
Theorem history_rendering (s : State) :
  loadHistory s = (s, [], AwaitFetch history_request loadHistory_response) /\
  (forall e,
     historyList (loadHistory_settled (Rejected e) s) = [HistoryEmpty]) /\
  (forall ok e,
     historyList (loadHistory_settled
                    (Fulfilled (mkResponse ok (Throw e))) s)
     = [HistoryEmpty]) /\
  (forall ok fields,
     ToBoolean (lookup "success" fields) = false ->
     historyList (loadHistory_settled
                    (Fulfilled (mkResponse ok (Normal (VObj fields)))) s)
     = [HistoryEmpty]) /\
  (forall ok fields,
     lookup "data" fields = VArr [] ->
     historyList (loadHistory_settled
                    (Fulfilled (mkResponse ok (Normal (VObj fields)))) s)
     = [HistoryEmpty]) /\
  (forall ok fields items,
     lookup "data" fields = VArr items ->
     Exists (fun item => item_renders item = false) items ->
     historyList (loadHistory_settled
                    (Fulfilled (mkResponse ok (Normal (VObj fields)))) s)
     = [HistoryEmpty]) /\
  (forall ok fields items,
     ToBoolean (lookup "success" fields) = true ->
     lookup "data" fields = VArr items ->
     items <> [] ->
     Forall (fun item => item_renders item = true) items ->
     exists nodes,
       Forall2 (fun item n => createHistoryItem item = Normal n)
               items nodes /\
       List.length nodes = List.length items /\
       historyList (loadHistory_settled
                      (Fulfilled (mkResponse ok (Normal (VObj fields)))) s)
       = nodes) /\
  (forall body s',
     historyList (state_of (loadHistory_json body s))
     = historyList (state_of (loadHistory_json body s'))) /\
  (forall fr s',
     historyList (loadHistory_settled fr s)
     = historyList (loadHistory_settled fr s')) /\
  (forall frs fr,
     historyList (reload (frs ++ [fr]) s)
     = historyList (loadHistory_settled fr s)).
Proof.
  split; [ reflexivity | ].
  split; [ reflexivity | ].
  split; [ reflexivity | ].
  split.
  { intros ok fields Hs.
    unfold loadHistory_settled, loadHistory, loadHistory_response,
      loadHistory_json, loadHistory_render, bindP, liftC, modify.
    cbn [state_of fst snd json Get]. now rewrite Hs. }
  split.
  { intros ok fields Hd.
    unfold loadHistory_settled, loadHistory, loadHistory_response,
      loadHistory_json, loadHistory_render, bindP, liftC, modify.
    cbn [state_of fst snd json Get]. rewrite Hd.
    destruct (ToBoolean (lookup "success" fields)); reflexivity. }
  split.
  { intros ok fields items Hd Hex.
    unfold loadHistory_settled, loadHistory, loadHistory_response,
      loadHistory_json, loadHistory_render, bindP, liftC, modify.
    cbn [state_of fst snd json Get]. rewrite Hd.
    destruct (ToBoolean (lookup "success" fields)); [ | reflexivity ].
    cbn [Get String.eqb Ascii.eqb Bool.eqb ToNumber].
    destruct (Num.ltb Num.zero _); [ | reflexivity ].
    unfold displayHistory, bindP, modify.
    destruct (append_items_unrenderable items Hex
                (with_historyList (fun _ => []) s)) as [ e He ].
    destruct (append_items items _) as [ s' c' ].
    cbn [snd] in He. subst c'. reflexivity. }
  split.
  { intros ok fields items Hs Hd Hne Hall.
    destruct (append_items_all items Hall) as (nodes & HF & Happ).
    exists nodes. split; [ exact HF | ].
    split; [ symmetry; exact (Forall2_length HF) | ].
    unfold loadHistory_settled, loadHistory, loadHistory_response,
      loadHistory_json, loadHistory_render, bindP, liftC, modify.
    cbn [state_of fst snd json Get]. rewrite Hs, Hd.
    cbn [Get String.eqb Ascii.eqb Bool.eqb ToNumber].
    destruct items as [ | item rest ]; [ now elim Hne | ].
    cbn [List.length Z.of_nat]. rewrite of_Z_positive.
    unfold displayHistory, bindP, modify.
    destruct (Happ (with_historyList (fun _ => []) s)) as [Hl Hc].
    destruct (append_items (item :: rest)
                (with_historyList (fun _ => []) s)) as [s' c'].
    cbn [fst snd] in Hl, Hc. subst c'. cbn [fst]. exact Hl. }
  split.
  { intros body s'.
    destruct (loadHistory_json_replaces body) as [l H]. now rewrite !H. }
  split.
  { intros fr s'. apply loadHistory_settled_replaces. }
  intros frs fr. unfold reload. rewrite fold_left_app. cbn [fold_left].
  apply loadHistory_settled_replaces.
Qed.

(** ** Reconnection *)

Lemma preserves_ret {A} (a : A) : preservesP (retP a).
Proof. intros s. reflexivity. Qed.

Lemma preserves_liftC {A} (c : completion A) : preservesP (liftC c).
Proof. intros s. reflexivity. Qed.

Lemma preserves_modify (f : State -> State) :
  (forall s, channel (f s) = channel s) -> preservesP (modify f).
Proof. intros H s. apply H. Qed.

Lemma preserves_bind {A B} (m : P A) (k : A -> P B) :
  preservesP m -> (forall a, preservesP (k a)) -> preservesP (bindP m k).
Proof.
  intros Hm Hk s. unfold bindP. specialize (Hm s).
  destruct (m s) as [s' [a | e]]; cbn [fst] in *.
  - now rewrite Hk.
  - exact Hm.
Qed.

Ltac preserves :=
  repeat (intros;
          match goal with
          | |- preservesP (bindP _ _) => apply preserves_bind
          | |- preservesP (liftC _) => apply preserves_liftC
          | |- preservesP (retP _) => apply preserves_ret
          | |- preservesP (modify _) =>
              apply preserves_modify; intros; reflexivity
          | |- preservesP (if ?b then _ else _) => destruct b
          | |- preservesP (match ?x with _ => _ end) => destruct x
          end);
  intros.

Lemma updateProgress_preserves (data : value) :
  preservesP (updateProgress data).
Proof. unfold updateProgress. preserves. Qed.

Lemma showError_preserves (message : value) :
  preservesP (showError message).
Proof. unfold showError. preserves. Qed.

Lemma showVideoPreview_preserves (info : value) :
  preservesP (showVideoPreview info).
Proof. unfold showVideoPreview. preserves. Qed.

Lemma append_items_preserves (items : list value) :
  preservesP (append_items items).
Proof.
  induction items as [ | item rest IH ]; cbn [append_items]; preserves.
  exact IH.
Qed.

Lemma displayHistory_preserves (history : value) :
  preservesP (displayHistory history).
Proof.
  unfold displayHistory. preserves; apply append_items_preserves.
Qed.

Lemma loadHistory_render_preserves (result : value) :
  preservesP (loadHistory_render result).
Proof.
  unfold loadHistory_render. preserves; apply displayHistory_preserves.
Qed.


Lemma quiet_step_done (f : State -> State) (out : list console_entry) :
  (forall s, channel (f s) = channel s) ->
  quiet_step (fun s => (f s, out, Done)).
Proof. intros H s. split; [ apply H | constructor ]. Qed.

Lemma loadHistory_catch_quiet (e : exn) : quiet_step (loadHistory_catch e).
Proof. intros s. split; [ reflexivity | constructor ]. Qed.

Lemma loadHistory_json_quiet (body : completion value) :
  quiet_step (loadHistory_json body).
Proof.
  intros s. unfold loadHistory_json.
  destruct body as [ result | e ]; [ | apply loadHistory_catch_quiet ].
  pose proof (loadHistory_render_preserves result s) as H.
  destruct (loadHistory_render result s) as [s' [ [] | e ]];
    cbn [fst] in H.
  - split; [ exact H | constructor ].
  - destruct (loadHistory_catch_quiet e s') as [H1 H2].
    split; [ now rewrite H1 | exact H2 ].
Qed.

Lemma loadHistory_response_quiet (fr : fetch_result) :
  quiet_step (loadHistory_response fr).
Proof.
  intros s. destruct fr as [ r | e ]; [ | apply loadHistory_catch_quiet ].
  split; [ reflexivity | ].
  constructor; intros; apply loadHistory_json_quiet.
Qed.

Lemma loadHistory_quiet : quiet_step loadHistory.
Proof.
  intros s. split; [ reflexivity | ].
  constructor; intros; apply loadHistory_response_quiet.
Qed.

Lemma handleFetchInfo_catch_quiet (e : exn) :
  quiet_step (handleFetchInfo_catch e).
Proof. intros s. split; [ reflexivity | constructor ]. Qed.

Lemma handleFetchInfo_failed_quiet (body : completion value) :
  quiet_step (handleFetchInfo_failed body).
Proof.
  intros s. unfold handleFetchInfo_failed.
  destruct (bindC body _);
    apply handleFetchInfo_catch_quiet.
Qed.

Lemma handleFetchInfo_json_quiet (body : completion value) :
  quiet_step (handleFetchInfo_json body).
Proof.
  intros s. unfold handleFetchInfo_json.
  destruct (bindC body (fun result => Get result "data")) as [ data | e ];
    [ | apply handleFetchInfo_catch_quiet ].
  cbv zeta.
  match goal with
  | |- context [showVideoPreview ?i ?s0] =>
      pose proof (showVideoPreview_preserves i s0) as H;
      destruct (showVideoPreview i s0) as [s' [ [] | e ]]
  end; cbn [fst] in H.
  - split; [ exact H | constructor ].
  - destruct (handleFetchInfo_catch_quiet e s') as [H1 H2].
    split; [ now rewrite H1 | exact H2 ].
Qed.

Lemma handleFetchInfo_response_quiet (fr : fetch_result) :
  quiet_step (handleFetchInfo_response fr).
Proof.
  intros s. destruct fr as [ r | e ];
    [ | apply handleFetchInfo_catch_quiet ].
  cbn [handleFetchInfo_response]. destruct (negb (ok r)).
  - split; [ reflexivity | ].
    constructor; intros; apply handleFetchInfo_failed_quiet.
  - split; [ reflexivity | ].
    constructor; intros; apply handleFetchInfo_json_quiet.
Qed.

Lemma handleFetchInfo_quiet : quiet_step handleFetchInfo.
Proof.
  intros s. unfold handleFetchInfo.
  destruct (Str.is_empty _).
  - split; [ reflexivity | constructor ].
  - split; [ reflexivity | ].
    constructor; intros; apply handleFetchInfo_response_quiet.
Qed.

Lemma handleDownload_catch_quiet (e : exn) :
  quiet_step (handleDownload_catch e).
Proof. intros s. split; [ reflexivity | constructor ]. Qed.

Lemma handleDownload_failed_quiet (body : completion value) :
  quiet_step (handleDownload_failed body).
Proof.
  intros s. unfold handleDownload_failed.
  destruct (bindC body _);
    apply handleDownload_catch_quiet.
Qed.

Lemma handleDownload_json_quiet (body : completion value) :
  quiet_step (handleDownload_json body).
Proof.
  intros s. destruct body as [ result | e ];
    [ | apply handleDownload_catch_quiet ].
  split; [ reflexivity | constructor ].
Qed.

Lemma handleDownload_response_quiet (fr : fetch_result) :
  quiet_step (handleDownload_response fr).
Proof.
  intros s. destruct fr as [ r | e ];
    [ | apply handleDownload_catch_quiet ].
  cbn [handleDownload_response]. destruct (negb (ok r)).
  - split; [ reflexivity | ].
    constructor; intros; apply handleDownload_failed_quiet.
  - split; [ reflexivity | ].
    constructor; intros; apply handleDownload_json_quiet.
Qed.

Lemma handleDownload_quiet : quiet_step handleDownload.
Proof.
  intros s. unfold handleDownload.
  destruct (Str.is_empty _).
  - split; [ reflexivity | constructor ].
  - rewrite updateProgress_reset.
    split; [ reflexivity | ].
    constructor; intros; apply handleDownload_response_quiet.
Qed.


Lemma preservesM_ret {A} (a : A) : preservesM (retM a).
Proof. intros s. split; [ reflexivity | constructor ]. Qed.

Lemma preservesM_log (entry : console_entry) : preservesM (log entry).
Proof. intros s. split; [ reflexivity | constructor ]. Qed.

Lemma preservesM_liftP {A} (m : P A) : preservesP m -> preservesM (liftP m).
Proof.
  intros H s. unfold liftP. specialize (H s).
  destruct (m s) as [s' c]. split; [ exact H | constructor ].
Qed.

Lemma preservesM_bind {A B} (m : M A) (k : A -> M B) :
  preservesM m -> (forall a, preservesM (k a)) -> preservesM (bindM m k).
Proof.
  intros Hm Hk s. unfold bindM. destruct (Hm s) as [H1 H2].
  destruct (outcome (m s)) as [ a | e ]; cbn [final spawned].
  - destruct (Hk a (final (m s))) as [H3 H4].
    split; [ now rewrite H3 | now apply Forall_app ].
  - now split.
Qed.

Lemma preservesM_call_async (f : State -> async_step) :
  quiet_step f -> preservesM (call_async f).
Proof.
  intros H s. unfold call_async. destruct (H s) as [H1 H2].
  destruct (f s) as [[s' out] t]. cbn [state_of rest_of fst snd] in *.
  destruct t; cbn [final spawned]; split; auto.
Qed.

Lemma handleDownloadComplete_preserves (result : value) :
  preservesM (handleDownloadComplete result).
Proof.
  unfold handleDownloadComplete.
  apply preservesM_bind;
    [ apply preservesM_liftP; preserves
    | intros; apply preservesM_call_async, loadHistory_quiet ].
Qed.

Lemma handleWebSocketMessage_preserves (data : value) :
  preservesM (handleWebSocketMessage data).
Proof.
  unfold handleWebSocketMessage.
  apply preservesM_bind; [ apply preservesM_liftP; preserves | ].
  intros status.
  destruct (strict_eq_string status "downloading");
    [ apply preservesM_liftP, updateProgress_preserves | ].
  destruct (strict_eq_string status "finished");
    [ apply preservesM_liftP; preserves | ].
  destruct (strict_eq_string status "completed").
  { apply preservesM_bind; [ apply preservesM_liftP; preserves | ].
    intros; apply handleDownloadComplete_preserves. }
  destruct (strict_eq_string status "error").
  { apply preservesM_bind; [ apply preservesM_liftP; preserves | ].
    intros; apply preservesM_liftP, showError_preserves. }
  apply preservesM_ret.
Qed.

Lemma ws_onmessage_preserves (payload : string) :
  preservesM (ws_onmessage payload).
Proof.
  unfold ws_onmessage.
  apply preservesM_bind; [ apply preservesM_liftP; preserves | ].
  intros; apply handleWebSocketMessage_preserves.
Qed.

(** Running a handler that leaves the channel alone keeps the invariant. *)
Lemma run_handler_invariant (m : M unit) (w : World) :
  preservesM m -> channel_invariant w -> channel_invariant (run_handler m w).
Proof.
  intros Hm [Hc Hq]. destruct (Hm (page w)) as [H1 H2].
  unfold channel_invariant, run_handler, live_sockets, pending_timers in *.
  cbn [page pending].
  injection H1 as Hs Ht. rewrite Hs, Ht.
  split; [ exact Hc | now apply Forall_app ].
Qed.

Lemma on_page_invariant (f : State -> State) (w : World) :
  (forall s, channel (f s) = channel s) ->
  channel_invariant w -> channel_invariant (on_page f w).
Proof.
  intros Hf [Hc Hq]. specialize (Hf (page w)).
  unfold channel_invariant, on_page, live_sockets, pending_timers in *.
  cbn [page pending].
  injection Hf as Hs Ht. rewrite Hs, Ht. now split.
Qed.

Lemma Forall_update_nth {A} (Q : A -> Prop) (n : nat) (f : A -> A)
  (l : list A) :
  (forall x, Q (f x)) -> Forall Q l -> Forall Q (update_nth n f l).
Proof.
  intros Hf H. revert n.
  induction H as [ | x l Hx Hl IH ]; intros [ | n ]; cbn;
    constructor; auto.
Qed.

Lemma Forall_remove_nth {A} (Q : A -> Prop) (n : nat) (l : list A) :
  Forall Q l -> Forall Q (remove_nth n l).
Proof.
  intros H. revert n.
  induction H as [ | x l Hx Hl IH ]; intros [ | n ]; cbn;
    try constructor; auto.
Qed.

Lemma Forall_settle (i : nat) (t : task) (l : list task) :
  quiet t -> Forall quiet l -> Forall quiet (settle i t l).
Proof.
  intros Ht Hl. unfold settle.
  destruct t; try (now apply Forall_remove_nth);
    now apply Forall_update_nth.
Qed.

Lemma resume_invariant (i : nat) (k : State -> async_step) (w : World) :
  quiet_step k -> channel_invariant w -> channel_invariant (resume i k w).
Proof.
  intros Hk [Hc Hq]. destruct (Hk (page w)) as [H1 H2].
  unfold resume. destruct (k (page w)) as [[s out] t].
  cbn [state_of rest_of fst snd] in *.
  unfold channel_invariant, live_sockets, pending_timers in *.
  cbn [page pending].
  injection H1 as Hs Ht. rewrite Hs, Ht.
  split; [ exact Hc | now apply Forall_settle ].
Qed.

Lemma length_remove_nth {A} (i : nat) (l : list A) (x : A) :
  nth_error l i = Some x ->
  S (List.length (remove_nth i l)) = List.length l.
Proof.
  revert i. induction l as [ | y l IH ]; intros [ | i ]; cbn;
    try discriminate; auto.
Qed.

Lemma live_update_nth (ws : nat) (st : readyState) (l : list Socket)
  (x : Socket) :
  nth_error l ws = Some x ->
  (List.length
     (filter is_live (update_nth ws (fun y => mkSocket (ws_url y) st) l))
   + (if is_live x then 1 else 0)
   = List.length (filter is_live l)
     + (if is_live (mkSocket (ws_url x) st) then 1 else 0))%nat.
Proof.
  revert ws. induction l as [ | y l IH ]; intros [ | ws ]; cbn [nth_error];
    try discriminate.
  - intros [= ->]. cbn [update_nth filter].
    destruct (is_live x), (is_live (mkSocket (ws_url x) st));
      cbn [List.length]; lia.
  - intros H. specialize (IH ws H). cbn [update_nth filter].
    destruct (is_live y); cbn [List.length]; lia.
Qed.

Lemma live_app_connecting (l : list Socket) (url : string) :
  List.length (filter is_live (l ++ [mkSocket url CONNECTING]))
  = S (List.length (filter is_live l)).
Proof.
  rewrite filter_app, length_app. cbn. lia.
Qed.


Lemma readyState_of_Some (ws : nat) (s : State) (st : readyState) :
  readyState_of ws s = Some st ->
  exists x, nth_error (sockets (env s)) ws = Some x /\ ws_state x = st.
Proof.
  unfold readyState_of.
  destruct (nth_error (sockets (env s)) ws) as [ x | ]; cbn;
    [ intros [= <-]; now exists x | discriminate ].
Qed.

(** What a close does to the page: the socket is CLOSED and one timer is
    added, due 3000 ms from now, that will call [initWebSocket]. *)
Lemma close_step (w w' : World) (ws : nat) :
  step w (SocketCloses ws) = Some w' ->
  exists x,
    nth_error (sockets (env (page w))) ws = Some x /\
    is_live x = true /\
    page w' = setTimeout cb_initWebSocket 3000
                (set_readyState ws CLOSED (page w)) /\
    pending w' = pending w.
Proof.
  cbn [step].
  destruct (readyState_of ws (page w)) as [ st | ] eqn:Hst;
    [ | discriminate ].
  destruct (readyState_of_Some _ _ _ Hst) as (x & Hx & Hs).
  destruct st; try discriminate; intros [= <-]; exists x;
    (split; [ exact Hx | ]);
    (split; [ unfold is_live; now rewrite Hs | ]);
    unfold run_handler; cbn; now rewrite app_nil_r.
Qed.

(** What a timer does when it fires: it is due, it leaves the list and
    [initWebSocket] runs. *)
Lemma timer_step (w w' : World) (i : nat) :
  step w (TimerFires i) = Some w' ->
  exists t,
    nth_error (timers (env (page w))) i = Some t /\
    (timer_due t <= clock (env (page w)))%Z /\
    page w' = initWebSocket
                (with_env (fun e => set_timers (remove_nth i (timers e)) e)
                          (page w)) /\
    pending w' = pending w.
Proof.
  cbn [step].
  destruct (nth_error (timers (env (page w))) i) as [ t | ] eqn:Ht;
    [ | discriminate ].
  destruct (timer_due t <=? clock (env (page w)))%Z eqn:Hdue;
    [ | discriminate ].
  intros [= <-]. exists t.
  split; [ reflexivity | ]. split; [ now apply Z.leb_le | ].
  destruct t as [due []]. now split.
Qed.

Lemma step_invariant (w w' : World) (ev : event) :
  channel_invariant w -> step w ev = Some w' -> channel_invariant w'.
Proof.
  intros Hw Hstep.
  destruct ev as [ text | i | v | v | | key | | | | i | ws | ws data | ws
                 | ws | i | ms | i fr | i ].
  - cbn [step] in Hstep. injection Hstep as <-.
    now apply on_page_invariant.
  - cbn [step] in Hstep.
    destruct (nth_error _ i) as [ radio | ]; [ | discriminate ].
    destruct (radio_checked radio); [ now injection Hstep as <- | ].
    destruct (listeners_bound _); injection Hstep as <-.
    + apply on_page_invariant.
      * intros s. unfold handleFormatTypeChange.
        now destruct (String.eqb _ _).
      * now apply on_page_invariant.
    + now apply on_page_invariant.
  - cbn [step] in Hstep. injection Hstep as <-.
    now apply on_page_invariant.
  - cbn [step] in Hstep. injection Hstep as <-.
    now apply on_page_invariant.
  - cbn [step] in Hstep.
    destruct (_ && _); [ injection Hstep as <- | discriminate ].
    apply run_handler_invariant; [ | exact Hw ].
    apply preservesM_call_async, handleFetchInfo_quiet.
  - cbn [step] in Hstep.
    destruct (listeners_bound _); [ | discriminate ].
    destruct (String.eqb _ _); injection Hstep as <-; [ | exact Hw ].
    apply run_handler_invariant; [ | exact Hw ].
    apply preservesM_call_async, handleFetchInfo_quiet.
  - cbn [step] in Hstep.
    destruct (_ && _); [ injection Hstep as <- | discriminate ].
    apply run_handler_invariant; [ | exact Hw ].
    apply preservesM_call_async, handleDownload_quiet.
  - cbn [step] in Hstep.
    destruct (listeners_bound _); [ injection Hstep as <- | discriminate ].
    now apply on_page_invariant.
  - cbn [step] in Hstep.
    destruct (listeners_bound _); [ injection Hstep as <- | discriminate ].
    now apply on_page_invariant.
  - cbn [step] in Hstep.
    destruct (nth_error _ i) as [ [ | markup item ] | ];
      try discriminate.
    destruct (history_item_target item);
      injection Hstep as <-; [ now apply on_page_invariant | exact Hw ].
  - cbn [step] in Hstep.
    destruct (readyState_of ws (page w)) as [ st | ] eqn:Hst;
      [ | discriminate ].
    destruct (readyState_of_Some _ _ _ Hst) as (x & Hx & Hs).
    destruct st; try discriminate. injection Hstep as <-.
    apply run_handler_invariant; [ apply preservesM_log | ].
    destruct Hw as [Hc Hq]. split; [ | exact Hq ].
    pose proof (live_update_nth ws OPEN _ x Hx) as Hl.
    assert (Hlive : is_live x = true) by (unfold is_live; now rewrite Hs).
    rewrite Hlive in Hl.
    change (is_live (mkSocket (ws_url x) OPEN)) with true in Hl.
    unfold live_sockets, pending_timers in *.
    cbn [on_page page set_readyState with_env env set_sockets sockets
         timers].
    lia.
  - cbn [step] in Hstep.
    destruct (readyState_of ws (page w)) as [ [ | | ] | ];
      try discriminate.
    injection Hstep as <-.
    apply run_handler_invariant; [ apply ws_onmessage_preserves | exact Hw ].
  - cbn [step] in Hstep.
    destruct (readyState_of ws (page w)) as [ [ | | ] | ];
      try discriminate; injection Hstep as <-;
      (apply run_handler_invariant; [ apply preservesM_log | exact Hw ]).
  - destruct (close_step _ _ _ Hstep) as (x & Hx & Hlive & Hp & Hq).
    destruct Hw as [Hc Hpend]. split; [ | now rewrite Hq ].
    pose proof (live_update_nth ws CLOSED _ x Hx) as Hl.
    rewrite Hlive in Hl.
    change (is_live (mkSocket (ws_url x) CLOSED)) with false in Hl.
    rewrite Hp. unfold live_sockets, pending_timers in *.
    cbn [setTimeout set_readyState with_env env set_sockets set_timers
         sockets timers].
    rewrite length_app. cbn [List.length]. lia.
  - destruct (timer_step _ _ _ Hstep) as (t & Ht & _ & Hp & Hq).
    destruct Hw as [Hc Hpend]. split; [ | now rewrite Hq ].
    pose proof (length_remove_nth _ _ _ Ht) as Hl.
    rewrite Hp. unfold live_sockets, pending_timers in *.
    cbn [initWebSocket with_env with_globals env set_sockets set_timers
         sockets timers].
    rewrite live_app_connecting. lia.
  - cbn [step] in Hstep.
    destruct (0 <=? ms)%Z; [ injection Hstep as <- | discriminate ].
    now apply on_page_invariant.
  - cbn [step] in Hstep.
    destruct (nth_error (pending w) i) as [ [ | rq k | r k ] | ] eqn:Hi;
      try discriminate.
    injection Hstep as <-.
    apply resume_invariant; [ | exact Hw ].
    destruct Hw as [_ Hq].
    pose proof (proj1 (Forall_forall _ _) Hq _ (nth_error_In _ _ Hi)) as Hk.
    inversion Hk as [ | rq' k' H1 H2 | ]; subst.
    intros s. split; [ apply H1 | apply H2 ].
  - cbn [step] in Hstep.
    destruct (nth_error (pending w) i) as [ [ | rq k | r k ] | ] eqn:Hi;
      try discriminate.
    injection Hstep as <-.
    apply resume_invariant; [ | exact Hw ].
    destruct Hw as [_ Hq].
    pose proof (proj1 (Forall_forall _ _) Hq _ (nth_error_In _ _ Hi)) as Hk.
    inversion Hk as [ | | r' k' H1 H2 ]; subst.
    intros s. split; [ apply H1 | apply H2 ].
Qed.

Lemma loaded_invariant (s : State) :
  fresh s -> channel_invariant (loaded s).
Proof.
  intros (_ & _ & _ & _ & Hs & Ht).
  unfold loaded, run_handler, channel_invariant, live_sockets,
    pending_timers.
  cbn. rewrite Hs, Ht. cbn. split; [ reflexivity | ].
  repeat constructor; intros; try reflexivity;
    apply loadHistory_response_quiet.
Qed.

Lemma reachable_invariant (w : World) :
  reachable w -> channel_invariant w.
Proof.
  induction 1 as [ s Hs | w w' ev _ IH Hstep ].
  - now apply loaded_invariant.
  - exact (step_invariant _ _ _ IH Hstep).
Qed.


Lemma live_nth (l : list Socket) (ws : nat) (x : Socket) :
  nth_error l ws = Some x -> is_live x = true ->
  (1 <= List.length (filter is_live l))%nat.
Proof.
  revert ws. induction l as [ | y l IH ]; intros [ | ws ]; cbn [nth_error];
    try discriminate.
  - intros [= ->] Hx. cbn [filter]. rewrite Hx. cbn. lia.
  - intros H Hx. specialize (IH ws H Hx). cbn [filter].
    destruct (is_live y); cbn [List.length]; lia.
Qed.

(** One close, and the reconnection that follows it. *)
Lemma close_then_reconnect (w : World) :
  reachable w ->
  forall (ws : nat) (w' : World),
    step w (SocketCloses ws) = Some w' ->
    page w' = final (ws_onclose (set_readyState ws CLOSED (page w))) /\
    timers (env (page w'))
      = [mkTimer (clock (env (page w)) + 3000) cb_initWebSocket] /\
    reachable w' /\
    (forall ms, (0 <= ms < 3000)%Z ->
       run w' [TimePasses ms; TimerFires 0] = None) /\
    exists w'',
      run w' [TimePasses 3000; TimerFires 0] = Some w'' /\
      reachable w'' /\
      page w''
        = initWebSocket
            (with_env (fun e => set_timers (remove_nth 0 (timers e)) e)
               (with_env (fun e => set_clock (clock e + 3000)%Z e)
                         (page w'))) /\
      timers (env (page w'')) = [] /\
      List.length (sockets (env (page w'')))
        = S (List.length (sockets (env (page w)))) /\
      live_sockets (page w'') = 1%nat /\
      websocket (globals (page w''))
        = Some (List.length (sockets (env (page w)))) /\
      readyState_of (List.length (sockets (env (page w)))) (page w'')
        = Some CONNECTING.
Proof.
  intros Hreach.
  destruct (reachable_invariant w Hreach) as [Hinv Hq].
  intros ws w' Hstep.
  pose proof (reach_step _ _ _ Hreach Hstep) as Hreach'.
  destruct (close_step _ _ _ Hstep) as (x & Hx & Hlive & Hp & Hpend).
  pose proof (live_nth _ _ _ Hx Hlive) as H1.
  assert (Ht : timers (env (page w)) = []).
  { unfold live_sockets, pending_timers in Hinv.
    destruct (timers (env (page w))); [ reflexivity | cbn in Hinv; lia ]. }
  assert (Ht' : timers (env (page w'))
                = [mkTimer (clock (env (page w)) + 3000) cb_initWebSocket]).
  { rewrite Hp. cbn. now rewrite Ht. }
  assert (Hclock : clock (env (page w')) = clock (env (page w))).
  { now rewrite Hp. }
  split; [ exact Hp | ]. split; [ exact Ht' | ].
  split; [ exact Hreach' | ].
  split.
  - intros ms [Hms1 Hms2]. cbn [run step].
    apply Z.leb_le in Hms1. rewrite Hms1.
    cbn [step run on_page page with_env env set_clock timers clock].
    rewrite Ht'. cbn [nth_error timer_due]. rewrite Hclock.
    destruct (Z.leb_spec (clock (env (page w)) + 3000)
                         (clock (env (page w)) + ms)); [ lia | reflexivity ].
  - destruct (step w' (TimePasses 3000)) as [ w1 | ] eqn:Hs1;
      [ | discriminate Hs1 ].
    destruct (step w1 (TimerFires 0)) as [ w2 | ] eqn:Hs2.
    + exists w2. cbn [run]. rewrite Hs1, Hs2.
      split; [ reflexivity | ].
      pose proof (reach_step _ _ _ Hreach' Hs1) as Hr1.
      pose proof (reach_step _ _ _ Hr1 Hs2) as Hr2.
      split; [ exact Hr2 | ].
      injection Hs1 as <-.
      destruct (timer_step _ _ _ Hs2) as (t & Hnth & _ & Hp2 & _).
      split; [ exact Hp2 | ].
      rewrite Hp2.
      cbn [on_page page with_env env set_clock set_timers timers sockets
           initWebSocket with_globals globals websocket set_sockets
           clock location_protocol location_host location_href].
      rewrite Ht'. cbn [remove_nth].
      assert (Hs' : sockets (env (page w'))
                    = update_nth ws (fun y => mkSocket (ws_url y) CLOSED)
                                 (sockets (env (page w)))).
      { now rewrite Hp. }
      assert (Hlen : List.length (sockets (env (page w')))
                     = List.length (sockets (env (page w)))).
      { rewrite Hs'. clear. generalize (sockets (env (page w))) as l.
        revert ws. induction ws as [ | ws IH ]; intros [ | y l ]; cbn;
          auto. }
      split; [ reflexivity | ].
      split; [ now rewrite length_app, Hlen, Nat.add_comm | ].
      split.
      { unfold live_sockets.
        cbn [initWebSocket with_env with_globals env set_sockets sockets
             set_timers set_clock on_page page].
        rewrite live_app_connecting.
        destruct (reachable_invariant _ Hreach') as [Hinv' _].
        unfold live_sockets, pending_timers in Hinv'.
        rewrite Ht' in Hinv'. cbn [List.length] in Hinv'. lia. }
      split; [ now rewrite Hlen | ].
      unfold readyState_of.
      cbn [initWebSocket with_env with_globals env set_sockets sockets
           set_timers set_clock on_page page].
      rewrite <- Hlen, nth_error_app2, Nat.sub_diag by lia.
      reflexivity.
    + exfalso. injection Hs1 as <-. revert Hs2.
      cbn [step on_page page with_env env set_clock timers clock].
      rewrite Ht'. cbn [nth_error timer_due]. rewrite Hclock.
      destruct (Z.leb_spec (clock (env (page w)) + 3000)
                           (clock (env (page w)) + 3000));
        [ discriminate | lia ].
Qed.


(** C1: the reconnection policy of the status channel.  The close
    handler always ends normally having called [setTimeout(initWebSocket,
    3000)] once.  In every world the loaded page can reach, at most one
    reconnection timer is pending.  When a socket closes, the handler has
    run once on the page with that socket CLOSED, and exactly one timer is
    pending afterwards: it is due 3000 ms after the close and calls
    [initWebSocket].  It cannot fire before 3000 ms have passed; once they
    have, it fires: [initWebSocket] runs, no timer is left, and a new
    socket, CONNECTING, is the current one and the only live one.  This
    goes on for any number [n] of rounds, each with the same delay: after
    [n] closes of the current socket, each followed 3000 ms later by its
    timer, [n] more sockets exist, one is live and no timer is pending. *)
Theorem reconnection_policy (w : World) :
  reachable w ->
  (forall s : State,
     outcome (ws_onclose s) = Normal tt /\
     final (ws_onclose s) = setTimeout cb_initWebSocket 3000 s) /\
  (pending_timers (page w) <= 1)%nat /\
  (forall (ws : nat) (w' : World),
     step w (SocketCloses ws) = Some w' ->
     page w' = final (ws_onclose (set_readyState ws CLOSED (page w))) /\
     timers (env (page w'))
       = [mkTimer (clock (env (page w)) + 3000) cb_initWebSocket] /\
     reachable w' /\
     (forall ms, (0 <= ms < 3000)%Z ->
        run w' [TimePasses ms; TimerFires 0] = None) /\
     exists w'',
       run w' [TimePasses 3000; TimerFires 0] = Some w'' /\
       reachable w'' /\
       page w''
         = initWebSocket
             (with_env (fun e => set_timers (remove_nth 0 (timers e)) e)
                (with_env (fun e => set_clock (clock e + 3000)%Z e)
                          (page w'))) /\
       timers (env (page w'')) = [] /\
       List.length (sockets (env (page w'')))
         = S (List.length (sockets (env (page w)))) /\
       live_sockets (page w'') = 1%nat /\
       websocket (globals (page w''))
         = Some (List.length (sockets (env (page w)))) /\
       readyState_of (List.length (sockets (env (page w)))) (page w'')
         = Some CONNECTING) /\
  (forall (n ws : nat),
     S ws = List.length (sockets (env (page w))) ->
     (readyState_of ws (page w) = Some CONNECTING \/
      readyState_of ws (page w) = Some OPEN) ->
     exists w',
       run w (reconnections n ws) = Some w' /\
       reachable w' /\
       List.length (sockets (env (page w')))
         = (n + List.length (sockets (env (page w))))%nat /\
       timers (env (page w')) = [] /\
       live_sockets (page w') = 1%nat).
Proof.
  intros Hreach.
  split; [ intros s; split; reflexivity | ].
  split; [ destruct (reachable_invariant w Hreach) as [Hinv _]; lia | ].
  split; [ exact (close_then_reconnect w Hreach) | ].
  intros n. revert w Hreach.
  induction n as [ | n IH ]; intros w Hreach ws Hlast Hlive.
  - exists w. cbn [reconnections run Nat.add].
    split; [ reflexivity | ]. split; [ exact Hreach | ].
    split; [ reflexivity | ].
    destruct (reachable_invariant w Hreach) as [Hinv _].
    assert (H1 : (1 <= live_sockets (page w))%nat).
    { unfold readyState_of in Hlive.
      destruct (nth_error (sockets (env (page w))) ws) as [ x | ] eqn:Hx;
        [ | destruct Hlive; discriminate ].
      apply (live_nth _ _ _ Hx). unfold is_live.
      cbn [option_map] in Hlive.
      destruct Hlive as [ [= ->] | [= ->] ]; reflexivity. }
    unfold pending_timers in Hinv.
    destruct (timers (env (page w))); [ split; [ reflexivity | lia ] | ].
    cbn [List.length] in Hinv. lia.
  - assert (Hclose : exists w1, step w (SocketCloses ws) = Some w1).
    { cbn [step]. destruct Hlive as [ -> | -> ]; eexists; reflexivity. }
    destruct Hclose as [w1 Hs1].
    destruct (close_then_reconnect w Hreach ws w1 Hs1)
      as (_ & _ & _ & _ & w2 & Hrun & Hr2 & _ & _ & Hlen & _ & _ & Hst).
    destruct (IH w2 Hr2 (S ws)) as (w' & Hrun' & Hr' & Hlen' & Ht' & Hl').
    { now rewrite Hlen, Hlast. }
    { left. now rewrite Hlast. }
    exists w'. cbn [reconnections run]. rewrite Hs1.
    cbn [run] in Hrun.
    destruct (step w1 (TimePasses 3000)) as [ wa | ]; [ | discriminate ].
    destruct (step wa (TimerFires 0)) as [ wb | ]; [ | discriminate ].
    injection Hrun as ->.
    split; [ exact Hrun' | ]. split; [ exact Hr' | ].
    split; [ rewrite Hlen', Hlen; lia | ]. now split.
Qed.

(** The handler itself keeps no record of what is pending: run twice on
    the same page it adds two timers.  Stacking is excluded by the
    browser, which closes a socket once, and by [initWebSocket] running
    only from the timer. *)
Remark onclose_twice (s : State) :
  List.length (timers (env (final (ws_onclose (final (ws_onclose s))))))
  = S (S (List.length (timers (env s)))).
Proof. cbn. rewrite !length_app. cbn. lia. Qed.

End Claims.

(* ================================================================== *)
(** * Further properties *)

Section Further.

Context {E : Engine}.

Local Open Scope js_scope.

(** ** What handlers and continuations leave alone *)

Lemma tame_refl (s : State) : tame s s.
Proof. repeat split. auto. Qed.

Lemma tame_trans (s1 s2 s3 : State) : tame s1 s2 -> tame s2 s3 -> tame s1 s3.
Proof.
  intros (A1 & A2 & A3 & A4) (B1 & B2 & B3 & B4).
  repeat split; try congruence. auto.
Qed.

Lemma steady_refl (s : State) : steady s s.
Proof. repeat split. auto. Qed.

Lemma steady_trans (s1 s2 s3 : State) :
  steady s1 s2 -> steady s2 s3 -> steady s1 s3.
Proof.
  intros (A1 & A2 & A3 & A4) (B1 & B2 & B3 & B4).
  split; [ exact (tame_trans _ _ _ A1 B1) | ].
  repeat split; congruence.
Qed.

(** Settles a goal [steady s s'] or [tame s s'] where [s'] is [s] with
    some fields rewritten. *)
Ltac settled :=
  solve [ unfold steady, tame; repeat split;
          first [ reflexivity
                | intros Hx; exact Hx
                | intros _; reflexivity ] ].

(** Splits on how each conversion in the goal ends. *)
Ltac conversions :=
  repeat match goal with
         | |- context [ match to_textContent ?v with _ => _ end ] =>
             destruct (to_textContent v)
         | |- context [ match ToString ?v with _ => _ end ] =>
             destruct (ToString v)
         | |- context [ match ToNumber ?v with _ => _ end ] =>
             destruct (ToNumber v)
         | |- context [ match formatDuration ?v with _ => _ end ] =>
             destruct (formatDuration v)
         | |- context [ match formatNumber ?v with _ => _ end ] =>
             destruct (formatNumber v)
         | |- context [ match formatSpeed ?v with _ => _ end ] =>
             destruct (formatSpeed v)
         | |- context [ match formatEta ?v with _ => _ end ] =>
             destruct (formatEta v)
         end.

Lemma append_items_steady (items : list value) (s : State) :
  steady s (fst (append_items items s)).
Proof.
  revert s. induction items as [ | item rest IH ]; intros s.
  - apply steady_refl.
  - cbn [append_items]. unfold bindP, liftC, modify.
    destruct (createHistoryItem item) as [ n | e ];
      [ | apply steady_refl ].
    eapply steady_trans; [ | apply IH ]. settled.
Qed.

Lemma displayHistory_steady (history : value) (s : State) :
  steady s (fst (displayHistory history s)).
Proof.
  unfold displayHistory, bindP, liftC, modify.
  destruct history as [ | | b | n | str | items | fields ];
    try (cbn [fst]; settled).
  eapply steady_trans; [ | apply append_items_steady ]. settled.
Qed.

Lemma loadHistory_render_steady (result : value) (s : State) :
  steady s (fst (loadHistory_render result s)).
Proof.
  unfold loadHistory_render, bindP, liftC, modify.
  destruct (Get result "success") as [ success | e ];
    [ | apply steady_refl ].
  destruct (ToBoolean success); [ | cbn [fst]; settled ].
  destruct (Get result "data") as [ data | e ]; [ | apply steady_refl ].
  destruct (Get data "length") as [ len | e ]; [ | apply steady_refl ].
  destruct (ToNumber len) as [ n | e ]; [ | apply steady_refl ].
  destruct (Num.ltb Num.zero n); [ | cbn [fst]; settled ].
  apply displayHistory_steady.
Qed.

Lemma showVideoPreview_steady (info : value) (s : State) :
  steady s (fst (showVideoPreview info s)).
Proof.
  unfold showVideoPreview, bindP, liftC, modify.
  destruct info as [ | | b | n | str | items | fields ];
    cbn [Get]; conversions; settled.
Qed.

Lemma updateProgress_tame (data : value) (s : State) :
  tame s (fst (updateProgress data s)) /\
  progressMessage (progress (fst (updateProgress data s)))
  = progressMessage (progress s) /\
  sections (fst (updateProgress data s)) = sections s.
Proof.
  unfold updateProgress, bindP, liftC, modify.
  destruct data as [ | | b | n | str | items | fields ];
    cbn [Get]; conversions;
    (split; [ settled | split; reflexivity ]).
Qed.

Lemma loadHistory_catch_steady (e : exn) :
  respects_step steady (loadHistory_catch e).
Proof. intros s. split; [ settled | constructor ]. Qed.

Lemma loadHistory_json_steady (body : completion value) :
  respects_step steady (loadHistory_json body).
Proof.
  intros s. unfold loadHistory_json.
  destruct body as [ result | e ]; [ | apply loadHistory_catch_steady ].
  pose proof (loadHistory_render_steady result s) as H.
  destruct (loadHistory_render result s) as [s' [ [] | e ]];
    cbn [fst] in H.
  - split; [ exact H | constructor ].
  - destruct (loadHistory_catch_steady e s') as [H1 H2].
    split; [ exact (steady_trans _ _ _ H H1) | exact H2 ].
Qed.

Lemma loadHistory_response_steady (fr : fetch_result) :
  respects_step steady (loadHistory_response fr).
Proof.
  intros s. destruct fr as [ r | e ]; [ | apply loadHistory_catch_steady ].
  split; [ apply steady_refl | ].
  constructor; intros; apply loadHistory_json_steady.
Qed.

Lemma loadHistory_steady : respects_step steady loadHistory.
Proof.
  intros s. split; [ apply steady_refl | ].
  constructor; intros; apply loadHistory_response_steady.
Qed.

Lemma handleFetchInfo_catch_steady (e : exn) :
  respects_step steady (handleFetchInfo_catch e).
Proof. intros s. split; [ settled | constructor ]. Qed.

Lemma handleFetchInfo_failed_steady (body : completion value) :
  respects_step steady (handleFetchInfo_failed body).
Proof.
  intros s. unfold handleFetchInfo_failed.
  destruct (bindC body _);
    apply handleFetchInfo_catch_steady.
Qed.

Lemma handleFetchInfo_json_steady (body : completion value) :
  respects_step steady (handleFetchInfo_json body).
Proof.
  intros s. unfold handleFetchInfo_json.
  destruct (bindC body (fun result => Get result "data")) as [ data | e ];
    [ | apply handleFetchInfo_catch_steady ].
  cbv zeta.
  match goal with
  | |- context [showVideoPreview ?i ?s0] =>
      pose proof (showVideoPreview_steady i s0) as H;
      assert (H0 : steady s s0) by settled;
      destruct (showVideoPreview i s0) as [s' [ [] | e ]]
  end; cbn [fst] in H.
  - split; [ | constructor ].
    eapply steady_trans; [ exact (steady_trans _ _ _ H0 H) | settled ].
  - destruct (handleFetchInfo_catch_steady e s') as [H1 H2].
    split; [ | exact H2 ].
    exact (steady_trans _ _ _ (steady_trans _ _ _ H0 H) H1).
Qed.

Lemma handleFetchInfo_response_steady (fr : fetch_result) :
  respects_step steady (handleFetchInfo_response fr).
Proof.
  intros s. destruct fr as [ r | e ];
    [ | apply handleFetchInfo_catch_steady ].
  cbn [handleFetchInfo_response]. destruct (negb (ok r)).
  - split; [ apply steady_refl | ].
    constructor; intros; apply handleFetchInfo_failed_steady.
  - split; [ apply steady_refl | ].
    constructor; intros; apply handleFetchInfo_json_steady.
Qed.

Lemma handleFetchInfo_steady : respects_step steady handleFetchInfo.
Proof.
  intros s. unfold handleFetchInfo.
  destruct (Str.is_empty _).
  - split; [ settled | constructor ].
  - split; [ settled | ].
    constructor; intros; apply handleFetchInfo_response_steady.
Qed.

Lemma handleDownload_catch_steady (e : exn) :
  respects_step steady (handleDownload_catch e).
Proof. intros s. split; [ settled | constructor ]. Qed.

Lemma handleDownload_failed_steady (body : completion value) :
  respects_step steady (handleDownload_failed body).
Proof.
  intros s. unfold handleDownload_failed.
  destruct (bindC body _);
    apply handleDownload_catch_steady.
Qed.

Lemma handleDownload_json_steady (body : completion value) :
  respects_step steady (handleDownload_json body).
Proof.
  intros s. destruct body as [ result | e ];
    [ | apply handleDownload_catch_steady ].
  split; [ settled | constructor ].
Qed.

Lemma handleDownload_response_steady (fr : fetch_result) :
  respects_step steady (handleDownload_response fr).
Proof.
  intros s. destruct fr as [ r | e ];
    [ | apply handleDownload_catch_steady ].
  cbn [handleDownload_response]. destruct (negb (ok r)).
  - split; [ apply steady_refl | ].
    constructor; intros; apply handleDownload_failed_steady.
  - split; [ apply steady_refl | ].
    constructor; intros; apply handleDownload_json_steady.
Qed.

(** The part of [handleDownload] that runs at the click. *)
Lemma handleDownload_tame (s : State) :
  tame s (state_of (handleDownload s)) /\
  progressMessage (progress (state_of (handleDownload s)))
  = progressMessage (progress s) /\
  respects steady (rest_of (handleDownload s)).
Proof.
  unfold handleDownload.
  destruct (Str.is_empty _).
  - split; [ settled | ]. split; [ reflexivity | constructor ].
  - rewrite updateProgress_reset.
    split; [ settled | ]. split; [ reflexivity | ].
    constructor; intros; apply handleDownload_response_steady.
Qed.

Lemma loadHistory_spawned_steady :
  Forall (respects steady) [AwaitFetch history_request loadHistory_response].
Proof.
  constructor; [ | constructor ].
  constructor; intros; apply loadHistory_response_steady.
Qed.

Lemma handleDownloadComplete_tame (result : value) (s : State) :
  tame s (final (handleDownloadComplete result s)) /\
  sections (final (handleDownloadComplete result s)) = complete_only /\
  progress (final (handleDownloadComplete result s)) = progress s /\
  Forall (respects steady) (spawned (handleDownloadComplete result s)).
Proof.
  unfold handleDownloadComplete, bindM, liftP, bindP, liftC, modify.
  destruct result as [ | | b | n | str | items | fields ];
    cbn [Get]; conversions;
    (split; [ settled | ]);
    (split; [ reflexivity | ]);
    (split; [ reflexivity | ]);
    first [ apply loadHistory_spawned_steady | constructor ].
Qed.

(** What the dispatch of a message leaves alone, and what it starts. *)
Lemma handleWebSocketMessage_tame (data : value) (s : State) :
  tame s (final (handleWebSocketMessage data s)) /\
  Forall (respects steady) (spawned (handleWebSocketMessage data s)).
Proof.
  unfold handleWebSocketMessage, bindM, liftP, liftC.
  destruct (Get data "status") as [ status | e ];
    cbn [outcome final spawned console];
    [ | split; [ apply tame_refl | constructor ] ].
  destruct (strict_eq_string status "downloading").
  { destruct (updateProgress_tame data s) as (H & _).
    destruct (updateProgress data s) as [s' c].
    split; [ exact H | constructor ]. }
  destruct (strict_eq_string status "finished").
  { unfold bindP, modify.
    destruct (Get data "message") as [ message | e ];
      conversions;
      cbn [final spawned app]; (split; [ settled | constructor ]). }
  destruct (strict_eq_string status "completed").
  { destruct (Get data "result") as [ result | e ];
      cbn [outcome final spawned console app];
      [ | split; [ apply tame_refl | constructor ] ].
    destruct (handleDownloadComplete_tame result s) as (H1 & _ & _ & H2).
    now split. }
  destruct (strict_eq_string status "error").
  { destruct (Get data "error") as [ error | e ];
      cbn [outcome final spawned console app modify];
      [ | split; [ apply tame_refl | constructor ] ].
    unfold showError, bindP, liftC, modify. conversions;
      cbn [final spawned app]; (split; [ settled | constructor ]). }
  split; [ apply tame_refl | constructor ].
Qed.

Lemma ws_onmessage_tame (payload : string) (s : State) :
  tame s (final (ws_onmessage payload s)) /\
  Forall (respects steady) (spawned (ws_onmessage payload s)).
Proof.
  unfold ws_onmessage, bindM, liftP, liftC.
  destruct (JSON_parse payload) as [ data | e ];
    cbn [outcome final spawned console app];
    [ | split; [ apply tame_refl | constructor ] ].
  apply handleWebSocketMessage_tame.
Qed.

Lemma call_async_spawned (f : State -> async_step)
  (R : State -> State -> Prop) (s : State) :
  respects R (rest_of (f s)) ->
  final (call_async f s) = state_of (f s) /\
  Forall (respects R) (spawned (call_async f s)).
Proof.
  intros H. unfold call_async.
  destruct (f s) as [[s' out] t]. cbn [state_of rest_of fst snd] in *.
  destruct t; cbn [final spawned]; split; auto.
Qed.

Lemma respects_settle (R : State -> State -> Prop) (i : nat) (t : task)
  (l : list task) :
  respects R t -> Forall (respects R) l -> Forall (respects R) (settle i t l).
Proof.
  intros Ht Hl. unfold settle.
  destruct t; try (now apply Forall_remove_nth);
    now apply Forall_update_nth.
Qed.

Lemma pending_respects (R : State -> State -> Prop) (l : list task)
  (i : nat) (t : task) :
  Forall (respects R) l -> nth_error l i = Some t -> respects R t.
Proof.
  intros Hl Hi.
  exact (proj1 (Forall_forall _ _) Hl _ (nth_error_In _ _ Hi)).
Qed.

Lemma tame_kept (ev : event) (s s' : State) :
  tame s s' ->
  (is_message ev = false ->
   progressMessage (progress s') = progressMessage (progress s)) ->
  kept ev s s'.
Proof.
  intros (He & Hw & Hf & Hx) Hm. unfold kept. rewrite He.
  repeat split; auto.
Qed.

Lemma steady_kept (ev : event) (s s' : State) : steady s s' -> kept ev s s'.
Proof.
  intros (Ht & Hp & _). apply tame_kept; [ exact Ht | ].
  intros _. now rewrite Hp.
Qed.

(** Settles [kept ev s s'] where [s'] is [s] with some fields rewritten. *)
Ltac kept_now :=
  solve [ unfold kept; repeat split;
          first [ reflexivity
                | discriminate
                | intros Hx; exact Hx
                | intros _; reflexivity ] ].

Lemma run_handler_calm (m : M unit) (w : World) :
  Forall (respects steady) (spawned (m (page w))) ->
  calm w -> calm (run_handler m w).
Proof.
  intros Hs Hw. unfold calm, run_handler. cbn [pending].
  now apply Forall_app.
Qed.

(** One event: the waiting functions stay steady, and the page keeps
    what [kept] says. *)
Lemma step_orderly (w w' : World) (ev : event) :
  calm w -> step w ev = Some w' -> calm w' /\ kept ev (page w) (page w').
Proof.
  intros Hw Hstep.
  destruct ev as [ text | i | v | v | | key | | | | i | ws | ws data | ws
                 | ws | i | ms | i fr | i ].
  - cbn [step] in Hstep. injection Hstep as <-.
    split; [ exact Hw | kept_now ].
  - cbn [step] in Hstep.
    destruct (nth_error _ i) as [ radio | ]; [ | discriminate ].
    destruct (radio_checked radio);
      [ injection Hstep as <-; split; [ exact Hw | kept_now ] | ].
    destruct (listeners_bound _); injection Hstep as <-.
    + split; [ exact Hw | ].
      unfold handleFormatTypeChange. cbn [on_page page].
      destruct (String.eqb _ _); kept_now.
    + split; [ exact Hw | kept_now ].
  - cbn [step] in Hstep. injection Hstep as <-.
    split; [ exact Hw | kept_now ].
  - cbn [step] in Hstep. injection Hstep as <-.
    split; [ exact Hw | kept_now ].
  - cbn [step] in Hstep.
    destruct (_ && _); [ injection Hstep as <- | discriminate ].
    destruct (handleFetchInfo_steady (page w)) as [H1 H2].
    destruct (call_async_spawned handleFetchInfo steady (page w) H2)
      as [Hf Hs].
    split; [ now apply run_handler_calm | ].
    unfold run_handler. cbn [page]. rewrite Hf. now apply steady_kept.
  - cbn [step] in Hstep.
    destruct (listeners_bound _); [ | discriminate ].
    destruct (String.eqb _ _); injection Hstep as <-;
      [ | split; [ exact Hw | kept_now ] ].
    destruct (handleFetchInfo_steady (page w)) as [H1 H2].
    destruct (call_async_spawned handleFetchInfo steady (page w) H2)
      as [Hf Hs].
    split; [ now apply run_handler_calm | ].
    unfold run_handler. cbn [page]. rewrite Hf. now apply steady_kept.
  - cbn [step] in Hstep.
    destruct (_ && _); [ injection Hstep as <- | discriminate ].
    destruct (handleDownload_tame (page w)) as (H1 & H2 & H3).
    destruct (call_async_spawned handleDownload steady (page w) H3)
      as [Hf Hs].
    split; [ now apply run_handler_calm | ].
    unfold run_handler. cbn [page]. rewrite Hf. now apply tame_kept.
  - cbn [step] in Hstep.
    destruct (listeners_bound _); [ injection Hstep as <- | discriminate ].
    split; [ exact Hw | kept_now ].
  - cbn [step] in Hstep.
    destruct (listeners_bound _); [ injection Hstep as <- | discriminate ].
    split; [ exact Hw | kept_now ].
  - cbn [step] in Hstep.
    destruct (nth_error _ i) as [ [ | markup item ] | ];
      try discriminate.
    destruct (history_item_target item); injection Hstep as <-;
      (split; [ exact Hw | kept_now ]).
  - cbn [step] in Hstep.
    destruct (readyState_of ws (page w)) as [ [ | | ] | ];
      try discriminate.
    injection Hstep as <-.
    split; [ apply run_handler_calm; [ constructor | exact Hw ] | kept_now ].
  - cbn [step] in Hstep.
    destruct (readyState_of ws (page w)) as [ [ | | ] | ];
      try discriminate.
    injection Hstep as <-.
    destruct (ws_onmessage_tame data (page w)) as [H1 H2].
    split; [ now apply run_handler_calm | ].
    unfold run_handler. cbn [page]. apply tame_kept; [ exact H1 | ].
    discriminate.
  - cbn [step] in Hstep.
    destruct (readyState_of ws (page w)) as [ [ | | ] | ];
      try discriminate; injection Hstep as <-;
      (split; [ apply run_handler_calm; [ constructor | exact Hw ]
              | kept_now ]).
  - destruct (close_step _ _ _ Hstep) as (x & _ & _ & Hp & Hq).
    split; [ unfold calm; now rewrite Hq | ].
    rewrite Hp. kept_now.
  - destruct (timer_step _ _ _ Hstep) as (t & _ & _ & Hp & Hq).
    split; [ unfold calm; now rewrite Hq | ].
    rewrite Hp. kept_now.
  - cbn [step] in Hstep.
    destruct (0 <=? ms)%Z; [ injection Hstep as <- | discriminate ].
    split; [ exact Hw | kept_now ].
  - cbn [step] in Hstep.
    destruct (nth_error (pending w) i) as [ [ | rq k | r k ] | ] eqn:Hi;
      try discriminate.
    injection Hstep as <-.
    pose proof (pending_respects _ _ _ _ Hw Hi) as Hk.
    inversion Hk as [ | rq' k' H1 H2 | ]; subst.
    specialize (H1 fr (page w)). specialize (H2 fr (page w)).
    unfold resume. destruct (k fr (page w)) as [[s out] t].
    cbn [state_of rest_of fst snd page pending] in *.
    split; [ now apply respects_settle | now apply steady_kept ].
  - cbn [step] in Hstep.
    destruct (nth_error (pending w) i) as [ [ | rq k | r k ] | ] eqn:Hi;
      try discriminate.
    injection Hstep as <-.
    pose proof (pending_respects _ _ _ _ Hw Hi) as Hk.
    inversion Hk as [ | | r' k' H1 H2 ]; subst.
    specialize (H1 (json r) (page w)). specialize (H2 (json r) (page w)).
    unfold resume. destruct (k (json r) (page w)) as [[s out] t].
    cbn [state_of rest_of fst snd page pending] in *.
    split; [ now apply respects_settle | now apply steady_kept ].
Qed.

Lemma loaded_calm (s : State) : calm (loaded s).
Proof.
  unfold calm, loaded, run_handler. cbn.
  apply loadHistory_spawned_steady.
Qed.

(** Along a run from a loaded page, an invariant of the steps holds. *)
Lemma run_invariant (Inv : World -> Prop) :
  (forall w ev w', calm w -> Inv w -> step w ev = Some w' -> Inv w') ->
  forall (w : World) (evs : list event) (w' : World),
    calm w -> Inv w -> run w evs = Some w' -> calm w' /\ Inv w'.
Proof.
  intros Hstep w evs. revert w.
  induction evs as [ | ev evs IH ]; intros w w' Hc Hi Hrun.
  - injection Hrun as <-. now split.
  - cbn [run] in Hrun.
    destruct (step w ev) as [ w1 | ] eqn:H1; [ | discriminate ].
    apply (IH w1 w'); [ | | exact Hrun ].
    + exact (proj1 (step_orderly _ _ _ Hc H1)).
    + exact (Hstep _ _ _ Hc Hi H1).
Qed.

Lemma reachable_calm (w : World) : reachable w -> calm w.
Proof.
  induction 1 as [ s Hs | w w' ev _ IH Hstep ].
  - apply loaded_calm.
  - exact (proj1 (step_orderly _ _ _ IH Hstep)).
Qed.

(** ** The four sections *)

(** X1: the four sections are mutually exclusive.  If at most one of the
    preview, progress, complete and error sections shows when the page
    loads, then at most one shows after any sequence of events (user
    actions, messages, responses, closes, timers, in any order). *)
Theorem sections_stay_exclusive (s : State) (evs : list event) (w : World) :
  exclusive (sections s) = true ->
  run (loaded s) evs = Some w ->
  exclusive (sections (page w)) = true.
Proof.
  intros Hs Hrun.
  refine (proj2 (run_invariant
                   (fun w => exclusive (sections (page w)) = true)
                   _ (loaded s) evs w (loaded_calm s) Hs Hrun)).
  intros w0 ev w1 Hc Hi Hstep.
  destruct (step_orderly _ _ _ Hc Hstep) as (_ & Hk & _).
  exact (Hk Hi).
Qed.

(** ** The current socket *)

Lemma nth_error_update_nth_same {A} (f : A -> A) (l : list A) (n : nat) :
  nth_error (update_nth n f l) n = option_map f (nth_error l n).
Proof.
  revert n. induction l as [ | x l IH ]; intros [ | n ]; cbn; auto.
Qed.

Lemma nth_error_update_nth_other {A} (f : A -> A) (l : list A)
  (n i : nat) :
  i <> n -> nth_error (update_nth n f l) i = nth_error l i.
Proof.
  revert n i. induction l as [ | x l IH ]; intros [ | n ] [ | i ] H; cbn;
    auto; try (now elim H).
Qed.

Lemma length_update_nth {A} (f : A -> A) (l : list A) (n : nat) :
  List.length (update_nth n f l) = List.length l.
Proof.
  revert n. induction l as [ | x l IH ]; intros [ | n ]; cbn; auto.
Qed.

Lemma Forall_update_nth_url (ws : nat) (st : readyState) (url : string)
  (l : list Socket) :
  Forall (fun x => ws_url x = url) l ->
  Forall (fun x => ws_url x = url)
         (update_nth ws (fun y => mkSocket (ws_url y) st) l).
Proof.
  intros H. revert ws.
  induction H as [ | x l Hx Hl IH ]; intros [ | ws ]; cbn;
    constructor; auto.
Qed.

Lemma none_live_all_closed (l : list Socket) (i : nat) (x : Socket) :
  List.length (filter is_live l) = 0%nat ->
  nth_error l i = Some x -> ws_state x = CLOSED.
Proof.
  intros H Hi.
  destruct (ws_state x) eqn:Hs; [ | | reflexivity ];
    (assert (Hl : is_live x = true) by (unfold is_live; now rewrite Hs);
     pose proof (live_nth _ _ _ Hi Hl); lia).
Qed.

(** The socket the global names is the last one created, the earlier ones
    are closed, and all were opened at the page's own address. *)
Lemma newest_socket (w : World) :
  reachable w ->
  websocket (globals (page w))
    = Some (Nat.pred (List.length (sockets (env (page w))))) /\
  sockets (env (page w)) <> [] /\
  (forall i x,
     nth_error (sockets (env (page w))) i = Some x ->
     (S i < List.length (sockets (env (page w))))%nat ->
     ws_state x = CLOSED) /\
  Forall (fun x => ws_url x = socket_address (env (page w)))
         (sockets (env (page w))).
Proof.
  induction 1 as [ s Hs | w w' ev Hreach IH Hstep ].
  - destruct Hs as (_ & _ & _ & _ & Hs & _).
    unfold loaded, run_handler. cbn. rewrite Hs. cbn.
    split; [ reflexivity | ]. split; [ discriminate | ].
    split; [ intros i x _ Hi; lia | ].
    repeat constructor.
  - pose proof (reachable_calm _ Hreach) as Hc.
    destruct (step_orderly _ _ _ Hc Hstep)
      as (_ & _ & _ & _ & Hch & Hlp & Hlh).
    assert (Haddr : socket_address (env (page w'))
                    = socket_address (env (page w))).
    { unfold socket_address. now rewrite Hlp, Hlh. }
    rewrite Haddr.
    destruct IH as (Hcur & Hne & Hold & Hurl).
    destruct (on_channel ev) eqn:Hev.
    + destruct ev; try discriminate Hev.
      * (* a socket opens *)
        cbn [step] in Hstep.
        destruct (readyState_of ws (page w)) as [ st | ] eqn:Hst;
          [ | discriminate ].
        destruct (readyState_of_Some _ _ _ Hst) as (x & Hx & Hxs).
        destruct st; try discriminate. injection Hstep as <-.
        cbn. rewrite length_update_nth.
        split; [ exact Hcur | ].
        split.
        { intros Hnil. apply Hne.
          apply (f_equal (@List.length Socket)) in Hnil.
          rewrite length_update_nth in Hnil.
          now destruct (sockets (env (page w))). }
        split; [ | now apply Forall_update_nth_url ].
        intros i y Hi Hlt.
        destruct (Nat.eq_dec i ws) as [ -> | Hneq ].
        { specialize (Hold ws x Hx Hlt). congruence. }
        rewrite nth_error_update_nth_other in Hi by exact Hneq.
        exact (Hold i y Hi Hlt).
      * (* a socket closes *)
        destruct (close_step _ _ _ Hstep) as (x & Hx & _ & Hp & _).
        rewrite Hp. cbn. rewrite length_update_nth.
        split; [ exact Hcur | ].
        split.
        { intros Hnil. apply Hne.
          apply (f_equal (@List.length Socket)) in Hnil.
          rewrite length_update_nth in Hnil.
          now destruct (sockets (env (page w))). }
        split; [ | now apply Forall_update_nth_url ].
        intros i y Hi Hlt.
        destruct (Nat.eq_dec i ws) as [ -> | Hneq ].
        { rewrite nth_error_update_nth_same, Hx in Hi.
          now injection Hi as <-. }
        rewrite nth_error_update_nth_other in Hi by exact Hneq.
        exact (Hold i y Hi Hlt).
      * (* the timer fires *)
        destruct (timer_step _ _ _ Hstep) as (t & Ht & _ & Hp & _).
        destruct (reachable_invariant _ Hreach) as [Hinv _].
        assert (Hnone : List.length (filter is_live (sockets (env (page w))))
                        = 0%nat).
        { unfold live_sockets, pending_timers in Hinv.
          destruct (timers (env (page w))) as [ | t0 l ];
            [ now destruct i | cbn [List.length] in Hinv; lia ]. }
        rewrite Hp. cbn. rewrite length_app. cbn.
        split; [ f_equal; lia | ].
        split; [ now destruct (sockets (env (page w))) | ].
        split.
        { intros j y Hj Hlt.
          assert (Hj' : (j < List.length (sockets (env (page w))))%nat)
            by lia.
          rewrite nth_error_app1 in Hj by exact Hj'.
          exact (none_live_all_closed _ _ _ Hnone Hj). }
        apply Forall_app. split; [ exact Hurl | ].
        repeat constructor.
    + destruct (Hch eq_refl) as (Hs & _ & Hw).
      rewrite Hs, Hw. now repeat split.
Qed.

(** X2: one current socket.  In every world the loaded page can reach,
    the global [websocket] names the socket created last, every socket
    created before it is CLOSED, a message can only arrive on the socket
    the global names (so no message is handled by a socket of an earlier
    connection), and every socket was opened at the address derived from
    the page's own protocol and host. *)
Theorem current_socket (w : World) :
  reachable w ->
  websocket (globals (page w))
    = Some (Nat.pred (List.length (sockets (env (page w))))) /\
  (forall i x,
     nth_error (sockets (env (page w))) i = Some x ->
     (S i < List.length (sockets (env (page w))))%nat ->
     ws_state x = CLOSED) /\
  (forall i data w',
     step w (SocketMessage i data) = Some w' ->
     websocket (globals (page w)) = Some i) /\
  Forall (fun x => ws_url x = socket_address (env (page w)))
         (sockets (env (page w))).
Proof.
  intros Hreach.
  destruct (newest_socket w Hreach) as (Hcur & Hne & Hold & Hurl).
  split; [ exact Hcur | ]. split; [ exact Hold | ].
  split; [ | exact Hurl ].
  intros i data w' Hstep. cbn [step] in Hstep.
  destruct (readyState_of i (page w)) as [ st | ] eqn:Hst;
    [ | discriminate ].
  destruct (readyState_of_Some _ _ _ Hst) as (x & Hx & Hxs).
  destruct st; try discriminate.
  rewrite Hcur. f_equal.
  assert (Hlt : (i < List.length (sockets (env (page w))))%nat).
  { apply nth_error_Some. congruence. }
  destruct (Nat.eq_dec (S i) (List.length (sockets (env (page w)))))
    as [ Heq | Hneq ]; [ lia | ].
  assert (Hc : ws_state x = CLOSED) by (apply (Hold i x Hx); lia).
  congruence.
Qed.

(** ** The two requests and their responses *)

Ltac same_response :=
  intros;
  repeat match goal with
         | H : exists _, _ |- _ => destruct H
         | H : _ /\ _ |- _ => destruct H
         | H : Rejected _ = Fulfilled _ |- _ => discriminate H
         | H : Fulfilled _ = Fulfilled _ |- _ => injection H as H; subst
         end;
  cbn in *; congruence.


Lemma showVideoPreview_nullish (info : value) (s : State) :
  info = VNull \/ info = VUndefined ->
  showVideoPreview info s
  = (s, Throw (TypeError (cannot_read_message info "thumbnail"))).
Proof. intros [ -> | -> ]; reflexivity. Qed.

(** [showVideoPreview] returns exactly on the values it can render;
    when it throws, the sections are as they were. *)
Lemma showVideoPreview_returns (info : value) (s : State) :
  if previewable info
  then snd (showVideoPreview info s) = Normal tt /\
       sections (fst (showVideoPreview info s)) = preview_only /\
       globals (fst (showVideoPreview info s)) = globals s /\
       form (fst (showVideoPreview info s)) = form s
  else (exists e, snd (showVideoPreview info s) = Throw e) /\
       sections (fst (showVideoPreview info s)) = sections s /\
       globals (fst (showVideoPreview info s)) = globals s.
Proof.
  assert (Hn : info = VNull \/ info = VUndefined \/
               (info <> VNull /\ info <> VUndefined)).
  { destruct info; auto; right; right; split; discriminate. }
  destruct Hn as [ -> | [ -> | [ H1 H2 ] ] ];
    try (cbn; split; [ eexists; reflexivity | split; reflexivity ]).
  assert (Hp : previewable info
               = printable (member info "thumbnail")
                 && printable (member info "title")
                 && printable (member info "duration")
                 && printable (member info "uploader")
                 && countable (member info "view_count")
                 && printable (member info "description")).
  { destruct info; try reflexivity; [ now elim H2 | now elim H1 ]. }
  rewrite Hp. unfold showVideoPreview, bindP, liftC, modify.
  rewrite !(Get_member info _ H1 H2).
  pose proof (ToString_returns
                (or_else (member info "thumbnail") (VStr no_thumbnail)))
    as C1.
  rewrite or_else_printable in C1 by reflexivity.
  pose proof (to_textContent_returns (member info "title")) as C2.
  pose proof (formatDuration_returns (member info "duration")) as C3.
  pose proof (to_textContent_returns (member info "uploader")) as C4.
  pose proof (formatNumber_returns (member info "view_count")) as C5.
  pose proof (to_textContent_returns
                (or_else (member info "description") (VStr "説明なし")))
    as C6.
  rewrite or_else_printable in C6 by reflexivity.
  destruct (printable (member info "thumbnail"));
    [ destruct C1 as [ t1 -> ]
    | rewrite C1; cbn; split; [ eexists; reflexivity | split; reflexivity ] ].
  destruct (printable (member info "title"));
    [ destruct C2 as [ t2 -> ]
    | rewrite C2; cbn; split; [ eexists; reflexivity | split; reflexivity ] ].
  destruct (printable (member info "duration"));
    [ destruct C3 as [ t3 -> ]
    | rewrite C3; cbn; split; [ eexists; reflexivity | split; reflexivity ] ].
  destruct (printable (member info "uploader"));
    [ destruct C4 as [ t4 -> ]
    | rewrite C4; cbn; split; [ eexists; reflexivity | split; reflexivity ] ].
  destruct (countable (member info "view_count"));
    [ destruct C5 as [ t5 -> ]
    | destruct C5 as [ e5 -> ]; cbn;
      split; [ eexists; reflexivity | split; reflexivity ] ].
  destruct (printable (member info "description"));
    [ destruct C6 as [ t6 -> ]
    | rewrite C6; cbn; split; [ eexists; reflexivity | split; reflexivity ] ].
  cbn. repeat split.
Qed.

(** X3: the two buttons.  From the call of [handleFetchInfo] (of
    [handleDownload]) with a URL that is not blank until its [fetch] has
    settled, the button is disabled; whatever the outcome (rejection, a
    response that is not ok, a body that is not JSON, a preview that
    cannot be rendered) and whatever happened to the page in between,
    the function ends with its button enabled again, opacity 1 and the
    pointer cursor. *)
Theorem buttons_restored (fr : fetch_result) (s : State)
  (later : State -> State) :
  (Str.is_empty (Str.trim (videoUrl_value (form s))) = false ->
   disabled (fetchInfoBtn (form (state_of (handleFetchInfo s)))) = true /\
   disabled (downloadBtn (form (state_of (handleDownload s)))) = true) /\
  (rest_of (after_fetch handleFetchInfo_response fr s later) = Done /\
   fetchInfoBtn
     (form (state_of (after_fetch handleFetchInfo_response fr s later)))
   = mkButton false "1" "pointer") /\
  (rest_of (after_fetch handleDownload_response fr s later) = Done /\
   downloadBtn
     (form (state_of (after_fetch handleDownload_response fr s later)))
   = mkButton false "1" "pointer").
Proof.
  split; [ | split ].
  - intros Hurl. unfold handleFetchInfo, handleDownload.
    rewrite Hurl, updateProgress_reset. split; reflexivity.
  - unfold after_fetch, handleFetchInfo_response.
    destruct fr as [ r | e ]; [ | split; reflexivity ].
    destruct (ok r); cbn [negb].
    + unfold handleFetchInfo_json.
      destruct (json r) as [ result | e ]; cbn [bindC];
        [ | split; reflexivity ].
      destruct (Get result "data") as [ data | e ];
        [ | split; reflexivity ].
      cbv zeta.
      destruct (showVideoPreview _ _) as [ s' [ [] | e ] ];
        split; reflexivity.
    + unfold handleFetchInfo_failed.
      destruct (bindC (json r) _); split; reflexivity.
  - unfold after_fetch, handleDownload_response.
    destruct fr as [ r | e ]; [ | split; reflexivity ].
    destruct (ok r); cbn [negb].
    + destruct (json r); split; reflexivity.
    + unfold handleDownload_failed.
      destruct (bindC (json r) _); split; reflexivity.
Qed.

(** X4: how a call of [handleFetchInfo] ends.  With a URL that is not
    blank it hides every section and issues one POST to
    [/api/video-info] carrying the trimmed URL.  Once the fetch has
    settled the function is over, and exactly one section shows: the
    preview or the error.  The preview shows exactly when the response
    is ok, its body is JSON and the member [data] of the body can be
    rendered: it is neither [null] nor [undefined], and its thumbnail,
    title, duration, uploader, view count and description can be
    converted; the member [success] of the body is not looked at.  The
    global [currentVideoInfo] is assigned [data] before the preview is
    attempted, so it holds [data] even when the preview fails. *)
Theorem info_fetch_outcome (fr : fetch_result) (s : State)
  (later : State -> State) :
  (Str.is_empty (Str.trim (videoUrl_value (form s))) = false ->
   sections (state_of (handleFetchInfo s)) = no_section /\
   rest_of (handleFetchInfo s)
   = AwaitFetch (video_info_request (Str.trim (videoUrl_value (form s))))
                handleFetchInfo_response) /\
  rest_of (after_fetch handleFetchInfo_response fr s later) = Done /\
  (sections (state_of (after_fetch handleFetchInfo_response fr s later))
   = preview_only \/
   sections (state_of (after_fetch handleFetchInfo_response fr s later))
   = error_only) /\
  (sections (state_of (after_fetch handleFetchInfo_response fr s later))
   = preview_only <->
   exists r result data,
     fr = Fulfilled r /\ ok r = true /\ json r = Normal result /\
     Get result "data" = Normal data /\
     previewable data = true) /\
  (forall r result data,
     fr = Fulfilled r -> ok r = true -> json r = Normal result ->
     Get result "data" = Normal data ->
     currentVideoInfo
       (globals (state_of (after_fetch handleFetchInfo_response fr s later)))
     = data).
Proof.
  split.
  { intros Hurl. unfold handleFetchInfo. rewrite Hurl.
    split; reflexivity. }
  assert (Hno : forall P : Prop, error_only = preview_only -> P)
    by (intros P0 H0; discriminate H0).
  unfold after_fetch, handleFetchInfo_response.
  destruct fr as [ r | e ].
  2:{ cbn. split; [ reflexivity | ]. split; [ now right | ].
      split; [ split; [ apply Hno | ] | ]; same_response. }
  destruct (ok r) eqn:Hok; cbn [negb].
  - unfold handleFetchInfo_json.
    destruct (json r) as [ result | e ] eqn:Hjson; cbn [bindC].
    2:{ cbn. split; [ reflexivity | ]. split; [ now right | ].
        split; [ split; [ apply Hno | ] | ]; same_response. }
    destruct (Get result "data") as [ data | e ] eqn:Hdata.
    2:{ cbn. split; [ reflexivity | ]. split; [ now right | ].
        split; [ split; [ apply Hno | ] | ]; same_response. }
    cbv zeta.
    change (currentVideoInfo (globals (with_globals _ (later s))))
      with data.
    pose proof (showVideoPreview_returns data
                  (with_globals
                     (fun g => mkGlobals data (websocket g)
                                         (currentDownloadId g)) (later s)))
      as Hshow.
    destruct (previewable data) eqn:Hprev.
    + destruct Hshow as (Ho & Hsec & Hg & _).
      destruct (showVideoPreview data _) as [ s' c ].
      cbn [fst snd] in Ho, Hsec, Hg. subst c.
      cbn [state_of rest_of fst snd].
      change (sections (handleFetchInfo_finally s')) with (sections s').
      change (globals (handleFetchInfo_finally s')) with (globals s').
      rewrite Hsec, Hg.
      split; [ reflexivity | ]. split; [ now left | ].
      split; [ split; [ intros _ | reflexivity ] | same_response ].
      exists r, result, data. now repeat split.
    + destruct Hshow as ([ e He ] & Hsec & Hg).
      destruct (showVideoPreview data _) as [ s' c ].
      cbn [fst snd] in He, Hsec, Hg. subst c.
      cbn [state_of rest_of fst snd handleFetchInfo_catch].
      change (globals (handleFetchInfo_finally
                         (fst (showError (VStr (exn_message e)) s'))))
        with (globals s').
      rewrite Hg.
      split; [ reflexivity | ]. split; [ now right | ].
      split; [ split; [ apply Hno | ] | ]; same_response.
  - unfold handleFetchInfo_failed.
    destruct (bindC (json r) _) as [ detail | e ];
      (split; [ reflexivity | ]; split; [ now right | ];
       split; [ split; [ apply Hno | ] | ]; same_response).
Qed.

(** X5: the acknowledgement of a download.  When the response to
    [/api/download] is ok and its body is JSON, the function logs the
    body and enables the button again, and that is all: whatever the
    body says, the sections, the progress display, the error text, the
    three globals and the history are those the page had when the body
    arrived.  The progress section shown at the click stays. *)
Theorem download_acknowledged (r : response) (result : value) (s : State)
  (later : State -> State) :
  ok r = true -> json r = Normal result ->
  after_fetch handleDownload_response (Fulfilled r) s later
  = (handleDownload_finally (later s),
     [console_log [CText "ダウンロード開始:"; CValue result]], Done) /\
  sections (handleDownload_finally (later s)) = sections (later s) /\
  progress (handleDownload_finally (later s)) = progress (later s) /\
  errorMessage (handleDownload_finally (later s)) = errorMessage (later s) /\
  globals (handleDownload_finally (later s)) = globals (later s) /\
  historyList (handleDownload_finally (later s)) = historyList (later s) /\
  (Str.is_empty (Str.trim (videoUrl_value (form s))) = false ->
   sections (state_of (handleDownload s)) = progress_only).
Proof.
  intros Hok Hjson.
  unfold after_fetch, handleDownload_response. rewrite Hok. cbn [negb].
  rewrite Hjson. repeat split.
  intros Hurl. unfold handleDownload.
  now rewrite Hurl, updateProgress_reset.
Qed.

(** X6: the message of a failed request, for [handleFetchInfo] and
    [handleDownload] alike.  Each failure ends the function with the
    error section alone showing: the message of the rejection when the
    fetch is rejected; the message of the parse error when the body is
    not JSON (even for a response that is not ok: the fallback text is
    not used then); for a response that is not ok with an object as
    body, its member [detail] converted to a string when it is truthy
    (a text as it is; a list of one plain object reads
    [[object Object]]), the function's fallback text when [detail] is
    missing or otherwise falsy, and the engine's TypeError message when
    [detail] cannot be converted; the engine's TypeError message when
    the body is [null]. *)
Theorem failure_messages (s : State) (later : State -> State) :
  (forall e,
     shown_error (after_fetch handleFetchInfo_response (Rejected e) s later)
                 (exn_message e) /\
     shown_error (after_fetch handleDownload_response (Rejected e) s later)
                 (exn_message e)) /\
  (forall r e,
     json r = Throw e ->
     shown_error (after_fetch handleFetchInfo_response (Fulfilled r) s later)
                 (exn_message e) /\
     shown_error (after_fetch handleDownload_response (Fulfilled r) s later)
                 (exn_message e)) /\
  (forall r fields message,
     ok r = false -> json r = Normal (VObj fields) ->
     ToBoolean (lookup "detail" fields) = true ->
     ToString (lookup "detail" fields) = Normal message ->
     shown_error (after_fetch handleFetchInfo_response (Fulfilled r) s later)
                 message /\
     shown_error (after_fetch handleDownload_response (Fulfilled r) s later)
                 message) /\
  (forall r fields text,
     ok r = false -> json r = Normal (VObj fields) ->
     lookup "detail" fields = VStr text -> text <> "" ->
     shown_error (after_fetch handleFetchInfo_response (Fulfilled r) s later)
                 text /\
     shown_error (after_fetch handleDownload_response (Fulfilled r) s later)
                 text) /\
  (forall r fields,
     ok r = false -> json r = Normal (VObj fields) ->
     ToBoolean (lookup "detail" fields) = false ->
     shown_error (after_fetch handleFetchInfo_response (Fulfilled r) s later)
                 "動画情報の取得に失敗しました" /\
     shown_error (after_fetch handleDownload_response (Fulfilled r) s later)
                 "ダウンロードの開始に失敗しました") /\
  (forall r fields,
     ok r = false -> json r = Normal (VObj fields) ->
     has_field "detail" fields = false ->
     shown_error (after_fetch handleFetchInfo_response (Fulfilled r) s later)
                 "動画情報の取得に失敗しました" /\
     shown_error (after_fetch handleDownload_response (Fulfilled r) s later)
                 "ダウンロードの開始に失敗しました") /\
  (forall r fields problem,
     ok r = false -> json r = Normal (VObj fields) ->
     lookup "detail" fields = VArr [VObj problem] ->
     has_field "toString" problem = false ->
     shown_error (after_fetch handleFetchInfo_response (Fulfilled r) s later)
                 "[object Object]" /\
     shown_error (after_fetch handleDownload_response (Fulfilled r) s later)
                 "[object Object]") /\
  (forall r fields,
     ok r = false -> json r = Normal (VObj fields) ->
     printable (lookup "detail" fields) = false ->
     shown_error (after_fetch handleFetchInfo_response (Fulfilled r) s later)
                 cannot_convert_message /\
     shown_error (after_fetch handleDownload_response (Fulfilled r) s later)
                 cannot_convert_message) /\
  (forall r,
     ok r = false -> json r = Normal VNull ->
     shown_error (after_fetch handleFetchInfo_response (Fulfilled r) s later)
                 (cannot_read_message VNull "detail") /\
     shown_error (after_fetch handleDownload_response (Fulfilled r) s later)
                 (cannot_read_message VNull "detail")).
Proof.
  assert (Htruthy : forall r fields message,
            ok r = false -> json r = Normal (VObj fields) ->
            ToBoolean (lookup "detail" fields) = true ->
            ToString (lookup "detail" fields) = Normal message ->
            shown_error
              (after_fetch handleFetchInfo_response (Fulfilled r) s later)
              message /\
            shown_error
              (after_fetch handleDownload_response (Fulfilled r) s later)
              message).
  { intros r fields message Hok Hjson Hb Hm.
    unfold shown_error, after_fetch, handleFetchInfo_response,
      handleDownload_response.
    rewrite Hok. cbn [negb].
    unfold handleFetchInfo_failed, handleDownload_failed.
    rewrite Hjson. cbn [bindC Get]. unfold or_else. rewrite Hb, Hm.
    repeat split. }
  assert (Hfalsy : forall r fields,
            ok r = false -> json r = Normal (VObj fields) ->
            ToBoolean (lookup "detail" fields) = false ->
            shown_error
              (after_fetch handleFetchInfo_response (Fulfilled r) s later)
              "動画情報の取得に失敗しました" /\
            shown_error
              (after_fetch handleDownload_response (Fulfilled r) s later)
              "ダウンロードの開始に失敗しました").
  { intros r fields Hok Hjson Hb.
    unfold shown_error, after_fetch, handleFetchInfo_response,
      handleDownload_response.
    rewrite Hok. cbn [negb].
    unfold handleFetchInfo_failed, handleDownload_failed.
    rewrite Hjson. cbn [bindC Get]. unfold or_else. rewrite Hb.
    repeat split. }
  split.
  { intros e. unfold shown_error, after_fetch. repeat split. }
  split.
  { intros r e Hjson.
    unfold shown_error, after_fetch, handleFetchInfo_response,
      handleDownload_response.
    destruct (ok r); cbn [negb];
      unfold handleFetchInfo_json, handleFetchInfo_failed,
        handleDownload_json, handleDownload_failed;
      rewrite Hjson; repeat split. }
  split; [ exact Htruthy | ].
  split.
  { intros r fields text Hok Hjson Hd Hne.
    apply (Htruthy r fields text Hok Hjson); rewrite Hd;
      [ | reflexivity ].
    cbn. now rewrite (is_empty_false _ Hne). }
  split; [ exact Hfalsy | ].
  split.
  { intros r fields Hok Hjson Habs.
    apply (Hfalsy r fields Hok Hjson).
    now rewrite (lookup_absent _ _ Habs). }
  split.
  { intros r fields problem Hok Hjson Hd Hp.
    apply (Htruthy r fields "[object Object]" Hok Hjson); rewrite Hd;
      [ reflexivity | ].
    cbn. now rewrite Hp. }
  split.
  { intros r fields Hok Hjson Hp.
    assert (Hb : ToBoolean (lookup "detail" fields) = true).
    { destruct (ToBoolean (lookup "detail" fields)) eqn:Hb;
        [ reflexivity | ].
      rewrite (falsy_printable _ Hb) in Hp. discriminate Hp. }
    unfold shown_error, after_fetch, handleFetchInfo_response,
      handleDownload_response.
    rewrite Hok. cbn [negb].
    unfold handleFetchInfo_failed, handleDownload_failed.
    rewrite Hjson. cbn [bindC Get]. unfold or_else.
    rewrite Hb, (ToString_unprintable _ Hp).
    repeat split. }
  intros r Hok Hjson.
  unfold shown_error, after_fetch, handleFetchInfo_response,
    handleDownload_response.
  rewrite Hok. cbn [negb].
  unfold handleFetchInfo_failed, handleDownload_failed.
  rewrite Hjson. repeat split.
Qed.

(** X7: what a download asks for.  With a URL that is not blank,
    [handleDownload] issues one POST to [/api/download] whose body
    carries the trimmed URL and, by the value of the checked format
    radio: for [video], the chosen video quality, [audio_only] false
    and the audio quality 192; for [audio], the quality [best],
    [audio_only] true and the chosen audio quality; for any other
    value, [best], false and 192.  With no radio checked the format is
    [video].  Which quality selector is visible plays no part. *)
Theorem download_request_fields (s : State) :
  Str.is_empty (Str.trim (videoUrl_value (form s))) = false ->
  exists quality audioOnly audioQuality,
    rest_of (handleDownload s)
    = AwaitFetch
        (download_request (Str.trim (videoUrl_value (form s)))
                          quality audioOnly audioQuality)
        handleDownload_response /\
    (getSelectedFormatType s = "video" ->
     quality = videoQualitySelect_value (form s) /\
     audioOnly = false /\ audioQuality = "192") /\
    (getSelectedFormatType s = "audio" ->
     quality = "best" /\
     audioOnly = true /\ audioQuality = audioQualitySelect_value (form s)) /\
    (getSelectedFormatType s <> "video" ->
     getSelectedFormatType s <> "audio" ->
     quality = "best" /\ audioOnly = false /\ audioQuality = "192") /\
    (Forall (fun radio => radio_checked radio = false)
            (formatTypeRadios (form s)) ->
     getSelectedFormatType s = "video").
Proof.
  intros Hurl. unfold handleDownload.
  rewrite Hurl, updateProgress_reset. cbv zeta.
  do 3 eexists. split; [ reflexivity | ].
  change (getSelectedFormatType (with_progress _ _))
    with (getSelectedFormatType s).
  cbn [form with_progress with_sections with_form set_downloadBtn
       hideAllSections videoQualitySelect_value audioQualitySelect_value].
  split; [ intros ->; now repeat split | ].
  split; [ intros ->; now repeat split | ].
  split.
  - intros Hv Ha.
    destruct (String.eqb_spec (getSelectedFormatType s) "video");
      [ now elim Hv | ].
    destruct (String.eqb_spec (getSelectedFormatType s) "audio");
      [ now elim Ha | ].
    now repeat split.
  - unfold getSelectedFormatType.
    induction 1 as [ | radio rest Hr _ IH ]; cbn; [ reflexivity | ].
    now rewrite Hr.
Qed.

(** ** The preview *)

(** X8: the preview of a description with members missing.
    [showVideoPreview] returns on an object exactly when its thumbnail,
    title, duration, uploader, view count and description can be
    converted, which a missing member always can.  When it returns,
    the preview section alone shows; a thumbnail that is falsy (absent,
    [null], empty) gives the placeholder image, a falsy duration
    [00:00], a falsy view count [0 回視聴], a falsy description
    [説明なし]; a title or an uploader that is absent or [null] gives an
    empty text, and a title that is a text is shown as it is.  When it
    throws, the sections are as they were.  For [null] and [undefined]
    the function throws at its first statement and the page is as
    before. *)
Theorem preview_defaults (fields : list (string * value)) (s : State) :
  (snd (showVideoPreview (VObj fields) s) = Normal tt <->
   previewable (VObj fields) = true) /\
  (forall key,
     has_field key fields = false ->
     printable (lookup key fields) = true /\
     countable (lookup key fields) = true) /\
  (previewable (VObj fields) = true ->
   sections (fst (showVideoPreview (VObj fields) s)) = preview_only /\
   (ToBoolean (lookup "thumbnail" fields) = false ->
    videoThumbnail_src (preview (fst (showVideoPreview (VObj fields) s)))
    = no_thumbnail) /\
   (ToBoolean (lookup "duration" fields) = false ->
    videoDuration (preview (fst (showVideoPreview (VObj fields) s)))
    = "00:00") /\
   (ToBoolean (lookup "view_count" fields) = false ->
    videoViews (preview (fst (showVideoPreview (VObj fields) s)))
    = "0 回視聴") /\
   (ToBoolean (lookup "description" fields) = false ->
    videoDescription (preview (fst (showVideoPreview (VObj fields) s)))
    = "説明なし") /\
   (lookup "title" fields = VUndefined \/ lookup "title" fields = VNull ->
    videoTitle (preview (fst (showVideoPreview (VObj fields) s))) = "") /\
   (lookup "uploader" fields = VUndefined \/
    lookup "uploader" fields = VNull ->
    videoUploader (preview (fst (showVideoPreview (VObj fields) s))) = "") /\
   (forall text,
      lookup "title" fields = VStr text ->
      videoTitle (preview (fst (showVideoPreview (VObj fields) s)))
      = text)) /\
  (previewable (VObj fields) = false ->
   sections (fst (showVideoPreview (VObj fields) s)) = sections s) /\
  (forall info,
     info = VNull \/ info = VUndefined ->
     exists e, showVideoPreview info s = (s, Throw e)).
Proof.
  pose proof (showVideoPreview_returns (VObj fields) s) as Hret.
  split.
  { destruct (previewable (VObj fields)).
    - now destruct Hret as (-> & _).
    - destruct Hret as ([ e -> ] & _). split; discriminate. }
  split.
  { intros key H. rewrite (lookup_absent _ _ H). now split. }
  split.
  2:{ split.
      - intros H. rewrite H in Hret. now destruct Hret as (_ & -> & _).
      - intros info H. eexists. now apply showVideoPreview_nullish. }
  intros Hp. rewrite Hp in Hret. destruct Hret as (_ & Hsec & _).
  split; [ exact Hsec | ].
  unfold previewable in Hp. cbn [member Get] in Hp.
  repeat (apply andb_prop in Hp; destruct Hp as [ Hp ? ]).
  unfold showVideoPreview, bindP, liftC, modify. cbn [Get].
  destruct (ToString_printable
              (or_else (lookup "thumbnail" fields) (VStr no_thumbnail)))
    as [ t1 C1 ];
    [ now rewrite or_else_printable | ].
  pose proof (to_textContent_returns (lookup "title" fields)) as C2.
  pose proof (formatDuration_returns (lookup "duration" fields)) as C3.
  pose proof (to_textContent_returns (lookup "uploader" fields)) as C4.
  pose proof (formatNumber_returns (lookup "view_count" fields)) as C5.
  pose proof (to_textContent_returns
                (or_else (lookup "description" fields) (VStr "説明なし")))
    as C6.
  rewrite or_else_printable in C6 by reflexivity.
  repeat match goal with
         | H : ?b = true, C : (if ?b then _ else _) |- _ =>
             rewrite H in C
         end.
  destruct C2 as [ t2 C2 ]. destruct C3 as [ t3 C3 ].
  destruct C4 as [ t4 C4 ]. destruct C5 as [ t5 C5 ].
  destruct C6 as [ t6 C6 ].
  rewrite C1, C2, C3, C4, C5, C6.
  cbn [fst preview with_preview with_sections hideAllSections
       videoThumbnail_src videoTitle videoDuration videoUploader
       videoViews videoDescription].
  split.
  { intros Hx. unfold or_else in C1. rewrite Hx in C1.
    now injection C1 as <-. }
  split.
  { intros Hx. unfold formatDuration in C3. rewrite Hx in C3.
    now injection C3 as <-. }
  split.
  { intros Hx. unfold formatNumber in C5. rewrite Hx in C5.
    now injection C5 as <-. }
  split.
  { intros Hx. unfold or_else in C6. rewrite Hx in C6.
    now injection C6 as <-. }
  split.
  { intros [ Hx | Hx ]; rewrite Hx in C2; now injection C2 as <-. }
  split.
  { intros [ Hx | Hx ]; rewrite Hx in C4; now injection C4 as <-. }
  intros text Hx. rewrite Hx in C2. now injection C2 as <-.
Qed.

(** ** Events of the status channel *)

Lemma finished_dispatch (fields : list (string * value)) (s : State) :
  lookup "status" fields = VStr "finished" ->
  handleWebSocketMessage (VObj fields) s
  = match to_textContent
            (or_else (lookup "message" fields) (VStr "ファイルを処理中..."))
    with
    | Normal text =>
        mkResult
          (with_progress (fun x =>
             mkProgress (progressBar_width x) (progressPercent x)
                        (progressSpeed x) (progressEta x) text) s)
          [] [] (Normal tt)
    | Throw e => mkResult s [] [] (Throw e)
    end.
Proof.
  intros Hstatus.
  unfold handleWebSocketMessage, bindM, liftP, liftC, bindP, modify.
  cbn [Get outcome final console spawned]. rewrite Hstatus.
  cbn [strict_eq_string String.eqb Ascii.eqb Bool.eqb].
  now destruct (to_textContent _).
Qed.

Lemma error_dispatch (fields : list (string * value)) (s : State) :
  lookup "status" fields = VStr "error" ->
  handleWebSocketMessage (VObj fields) s
  = match to_textContent (lookup "error" fields) with
    | Normal text =>
        mkResult
          (with_errorMessage text
             (with_sections show_errorSection (hideAllSections s)))
          [] [] (Normal tt)
    | Throw e =>
        mkResult (with_sections show_errorSection (hideAllSections s))
                 [] [] (Throw e)
    end.
Proof.
  intros Hstatus.
  unfold handleWebSocketMessage, bindM, liftP, liftC.
  cbn [Get outcome final console spawned]. rewrite Hstatus.
  cbn [strict_eq_string String.eqb Ascii.eqb Bool.eqb outcome final
       console spawned].
  unfold showError, bindP, liftC, modify.
  now destruct (to_textContent _).
Qed.

(** X9: a [finished] event changes the progress message and nothing
    else.  When [data.message] can be converted, the message becomes
    its text (a text as it is), or [ファイルを処理中...] when it is falsy
    (absent, [null], empty); the bar, the percent, the speed and the
    remaining time keep their values, no section is shown or hidden
    (the message is written even while the progress section is hidden),
    nothing is logged and no request is made.  When it cannot be
    converted, the handler throws a TypeError and the page is as it
    was. *)
Theorem finished_event_message (fields : list (string * value))
  (s : State) :
  lookup "status" fields = VStr "finished" ->
  (forall text,
     to_textContent
       (or_else (lookup "message" fields) (VStr "ファイルを処理中..."))
     = Normal text ->
     handleWebSocketMessage (VObj fields) s
     = mkResult
         (with_progress (fun x =>
            mkProgress (progressBar_width x) (progressPercent x)
                       (progressSpeed x) (progressEta x) text) s)
         [] [] (Normal tt)) /\
  (printable (lookup "message" fields) = true ->
   exists text,
     to_textContent
       (or_else (lookup "message" fields) (VStr "ファイルを処理中..."))
     = Normal text) /\
  (ToBoolean (lookup "message" fields) = false ->
   outcome (handleWebSocketMessage (VObj fields) s) = Normal tt /\
   progressMessage (progress (final (handleWebSocketMessage (VObj fields) s)))
   = "ファイルを処理中...") /\
  (forall text,
     lookup "message" fields = VStr text -> text <> "" ->
     outcome (handleWebSocketMessage (VObj fields) s) = Normal tt /\
     progressMessage
       (progress (final (handleWebSocketMessage (VObj fields) s)))
     = text) /\
  (printable (lookup "message" fields) = false ->
   handleWebSocketMessage (VObj fields) s
   = mkResult s [] [] (Throw (TypeError cannot_convert_message))) /\
  sections (final (handleWebSocketMessage (VObj fields) s)) = sections s.
Proof.
  intros Hstatus. rewrite (finished_dispatch _ _ Hstatus).
  pose proof (to_textContent_returns
                (or_else (lookup "message" fields)
                         (VStr "ファイルを処理中..."))) as Hc.
  rewrite or_else_printable in Hc by reflexivity.
  split; [ now intros text -> | ].
  split; [ intros Hp; now rewrite Hp in Hc | ].
  split.
  { intros Hb. unfold or_else. rewrite Hb. now split. }
  split.
  { intros text Hm Hne. unfold or_else. rewrite Hm. cbn [ToBoolean].
    rewrite (is_empty_false _ Hne). now split. }
  split.
  { intros Hp. rewrite Hp in Hc. now rewrite Hc. }
  now destruct (to_textContent _).
Qed.

(** X10: an [error] event switches to the error section.  The error
    section alone shows; the progress display, the form with its two
    buttons, the three globals and the history stay as they were, and
    no request is made.  When [data.error] can be converted, its text
    becomes the error message (a text as it is, nothing when the member
    is absent or [null]); when it cannot, the handler throws a TypeError
    after the sections are switched, and the error section shows the
    message it had. *)
Theorem error_event_shown (fields : list (string * value)) (s : State) :
  lookup "status" fields = VStr "error" ->
  sections (final (handleWebSocketMessage (VObj fields) s)) = error_only /\
  progress (final (handleWebSocketMessage (VObj fields) s)) = progress s /\
  form (final (handleWebSocketMessage (VObj fields) s)) = form s /\
  globals (final (handleWebSocketMessage (VObj fields) s)) = globals s /\
  historyList (final (handleWebSocketMessage (VObj fields) s))
  = historyList s /\
  spawned (handleWebSocketMessage (VObj fields) s) = [] /\
  (printable (lookup "error" fields) = true ->
   outcome (handleWebSocketMessage (VObj fields) s) = Normal tt /\
   to_textContent (lookup "error" fields)
   = Normal (errorMessage (final (handleWebSocketMessage (VObj fields) s))))
  /\
  (forall text,
     lookup "error" fields = VStr text ->
     outcome (handleWebSocketMessage (VObj fields) s) = Normal tt /\
     errorMessage (final (handleWebSocketMessage (VObj fields) s)) = text)
  /\
  (has_field "error" fields = false ->
   outcome (handleWebSocketMessage (VObj fields) s) = Normal tt /\
   errorMessage (final (handleWebSocketMessage (VObj fields) s)) = "") /\
  (printable (lookup "error" fields) = false ->
   outcome (handleWebSocketMessage (VObj fields) s)
   = Throw (TypeError cannot_convert_message) /\
   errorMessage (final (handleWebSocketMessage (VObj fields) s))
   = errorMessage s).
Proof.
  intros Hstatus. rewrite (error_dispatch _ _ Hstatus).
  pose proof (to_textContent_returns (lookup "error" fields)) as Hc.
  split; [ now destruct (to_textContent _) | ].
  split; [ now destruct (to_textContent _) | ].
  split; [ now destruct (to_textContent _) | ].
  split; [ now destruct (to_textContent _) | ].
  split; [ now destruct (to_textContent _) | ].
  split; [ now destruct (to_textContent _) | ].
  split.
  { intros Hp. rewrite Hp in Hc. destruct Hc as [ text -> ]. now split. }
  split.
  { intros text ->. now split. }
  split.
  { intros Habs. rewrite (lookup_absent _ _ Habs). now split. }
  intros Hp. rewrite Hp in Hc. rewrite Hc. now split.
Qed.

(** How [handleDownloadComplete] ends. *)
Lemma handleDownloadComplete_outcome (result : value) (s : State) :
  (result = VNull \/ result = VUndefined ->
   handleDownloadComplete result s
   = mkResult (with_sections show_completeSection (hideAllSections s))
              [] []
              (Throw (TypeError (cannot_read_message result "filename")))) /\
  (result <> VNull -> result <> VUndefined ->
   if printable (member result "filename")
      && printable (member result "id")
   then outcome (handleDownloadComplete result s) = Normal tt
   else outcome (handleDownloadComplete result s)
        = Throw (TypeError cannot_convert_message)).
Proof.
  split.
  - intros [ -> | -> ]; reflexivity.
  - intros H1 H2.
    unfold handleDownloadComplete, bindM, liftP, bindP, liftC, modify.
    rewrite !(Get_member result _ H1 H2).
    pose proof (to_textContent_returns (member result "filename")) as C1.
    pose proof (ToString_returns (member result "id")) as C2.
    pose proof (ToString_returns (member result "filename")) as C3.
    destruct (printable (member result "filename")).
    + destruct C1 as [ t1 -> ]. destruct C3 as [ t3 C3 ].
      destruct (printable (member result "id")).
      * destruct C2 as [ t2 -> ]. rewrite C3. reflexivity.
      * rewrite C2. reflexivity.
    + rewrite C1. reflexivity.
Qed.

Lemma member_object (fields : list (string * value)) (key : string) :
  member (VObj fields) key = lookup key fields.
Proof. reflexivity. Qed.

Lemma throws_unless (c : completion unit) (b : bool) :
  (if b then c = Normal tt else exists e, c = Throw e) ->
  (exists e, c = Throw e) <-> negb b = true.
Proof.
  destruct b; cbn.
  - intros ->. split; [ intros [ e H ]; discriminate H | discriminate ].
  - intros H. now split.
Qed.

(** X11: the events on which the dispatch throws.  For any payload
    [handleWebSocketMessage] ends with an exception exactly when the
    payload is [null] or [undefined]; or its status is [downloading]
    and its progress, speed or time cannot be converted; or its status
    is [finished] and its message cannot be converted; or its status is
    [completed] and its result is [null], [undefined] or missing, or
    holds a file name or an id that cannot be converted; or its status
    is [error] and its error cannot be converted.  Every other payload
    is handled without an exception. *)
Theorem dispatch_throws_iff (data : value) (s : State) :
  (exists e, outcome (handleWebSocketMessage data s) = Throw e) <->
  dispatch_throws data = true.
Proof.
  destruct data as [ | | b | n | str | l | fields ];
    try (split; [ intros _; reflexivity | intros _; eexists; reflexivity ]);
    try (split; [ intros [ e H ]; discriminate H | discriminate ]).
  unfold dispatch_throws. cbv beta iota zeta. rewrite !member_object.
  destruct (lookup "status" fields) as [ | | b | n | st | l | fs ] eqn:Hst;
    try (unfold handleWebSocketMessage, bindM, liftP, liftC;
         cbn [Get outcome final console spawned]; rewrite Hst;
         split; [ intros [ e H ]; discriminate H | discriminate ]).
  cbn [strict_eq_string].
  destruct (String.eqb_spec st "downloading") as [ -> | H1 ].
  { apply throws_unless.
    pose proof (updateProgress_returns fields s) as Hu.
    unfold handleWebSocketMessage, bindM, liftP, liftC.
    cbn [Get outcome final console spawned]. rewrite Hst.
    cbn [strict_eq_string String.eqb Ascii.eqb Bool.eqb].
    destruct (updateProgress (VObj fields) s) as [ s' [ [] | e ] ];
      cbn [snd outcome] in *.
    - now rewrite (proj1 Hu eq_refl).
    - destruct (_ && _); [ | eexists; reflexivity ].
      now destruct (proj2 Hu eq_refl). }
  destruct (String.eqb_spec st "finished") as [ -> | H2 ].
  { apply throws_unless. rewrite (finished_dispatch _ _ Hst).
    pose proof (to_textContent_returns
                  (or_else (lookup "message" fields)
                           (VStr "ファイルを処理中..."))) as Hc.
    rewrite or_else_printable in Hc by reflexivity.
    destruct (printable (lookup "message" fields)).
    - now destruct Hc as [ t -> ].
    - rewrite Hc. eexists; reflexivity. }
  destruct (String.eqb_spec st "completed") as [ -> | H3 ].
  { unfold handleWebSocketMessage, bindM, liftP, liftC.
    cbn [Get outcome final console spawned]. rewrite Hst.
    cbn [strict_eq_string String.eqb Ascii.eqb Bool.eqb outcome final
         console spawned].
    destruct (lookup "result" fields) as [ | | b | n | str | l | rf ];
      try (rewrite (proj1 (handleDownloadComplete_outcome _ s))
             by (auto);
           cbn [outcome];
           split; [ reflexivity | intros _; eexists; reflexivity ]);
      apply throws_unless;
      match goal with
      | |- context [ handleDownloadComplete ?v s ] =>
          pose proof (proj2 (handleDownloadComplete_outcome v s)
                            ltac:(discriminate) ltac:(discriminate)) as Ho
      end;
      (destruct (_ && _); [ exact Ho | eexists; exact Ho ]). }
  destruct (String.eqb_spec st "error") as [ -> | H4 ].
  { apply throws_unless. rewrite (error_dispatch _ _ Hst).
    pose proof (to_textContent_returns (lookup "error" fields)) as Hc.
    destruct (printable (lookup "error" fields)).
    - now destruct Hc as [ t -> ].
    - rewrite Hc. eexists; reflexivity. }
  unfold handleWebSocketMessage, bindM, liftP, liftC.
  cbn [Get outcome final console spawned]. rewrite Hst.
  cbn [strict_eq_string].
  destruct (String.eqb_spec st "downloading"); [ now elim H1 | ].
  destruct (String.eqb_spec st "finished"); [ now elim H2 | ].
  destruct (String.eqb_spec st "completed"); [ now elim H3 | ].
  destruct (String.eqb_spec st "error"); [ now elim H4 | ].
  split; [ intros [ e H ]; discriminate H | discriminate ].
Qed.

(** X12: a [completed] event without result.  When the status is
    [completed] and [result] is missing or [null], the handler has
    already switched to the complete section when it throws: the
    complete section alone shows, with the file name and the link of
    the previous download (or none); [currentDownloadId] keeps its
    value and the history is not reloaded. *)
Theorem completed_without_result (fields : list (string * value))
  (s : State) :
  lookup "status" fields = VStr "completed" ->
  lookup "result" fields = VNull \/ lookup "result" fields = VUndefined ->
  outcome (handleWebSocketMessage (VObj fields) s)
  = Throw (TypeError
             (cannot_read_message (lookup "result" fields) "filename")) /\
  sections (final (handleWebSocketMessage (VObj fields) s))
  = complete_only /\
  complete (final (handleWebSocketMessage (VObj fields) s)) = complete s /\
  globals (final (handleWebSocketMessage (VObj fields) s)) = globals s /\
  historyList (final (handleWebSocketMessage (VObj fields) s))
  = historyList s /\
  spawned (handleWebSocketMessage (VObj fields) s) = [].
Proof.
  intros Hstatus Hresult.
  unfold handleWebSocketMessage, bindM, liftP, liftC.
  cbn [Get outcome final console spawned]. rewrite Hstatus.
  cbn [strict_eq_string String.eqb Ascii.eqb Bool.eqb outcome final
       console spawned].
  rewrite (proj1 (handleDownloadComplete_outcome _ s) Hresult).
  repeat split.
Qed.

(** ** History that cannot be rendered *)

Lemma append_items_nullish (items : list value) :
  Exists nullish items ->
  forall s, exists e, snd (append_items items s) = Throw e.
Proof.
  intros Hex. apply append_items_unrenderable.
  apply Exists_exists in Hex. destruct Hex as (x & Hin & Hx).
  apply Exists_exists. exists x.
  split; [ exact Hin | now apply nullish_not_rendered ].
Qed.

(** X13: a history that cannot be rendered gives the placeholder.  When
    the body of [/api/history] is an object whose [data] is an array
    holding a [null] (or [undefined]) anywhere, or whose [data] is not
    an array at all (missing, [null], a number, a string, an object),
    the list shows the placeholder alone: the entries rendered before
    the failure are discarded, nothing of the earlier list remains. *)
Theorem history_bad_data (s : State) :
  (forall ok fields items,
     lookup "data" fields = VArr items ->
     Exists nullish items ->
     historyList (loadHistory_settled
                    (Fulfilled (mkResponse ok (Normal (VObj fields)))) s)
     = [HistoryEmpty]) /\
  (forall ok fields,
     (forall items, lookup "data" fields <> VArr items) ->
     historyList (loadHistory_settled
                    (Fulfilled (mkResponse ok (Normal (VObj fields)))) s)
     = [HistoryEmpty]).
Proof.
  split.
  - intros ok fields items Hd Hex.
    unfold loadHistory_settled, loadHistory, loadHistory_response,
      loadHistory_json, loadHistory_render, bindP, liftC, modify.
    cbn [state_of fst snd json Get]. rewrite Hd.
    destruct (ToBoolean (lookup "success" fields)); [ | reflexivity ].
    cbn [Get String.eqb Ascii.eqb Bool.eqb ToNumber].
    destruct (Num.ltb Num.zero _); [ | reflexivity ].
    unfold displayHistory, bindP, modify.
    destruct (append_items_nullish items Hex
                (with_historyList (fun _ => []) s)) as [ e He ].
    destruct (append_items items _) as [ s' c' ].
    cbn [snd] in He. subst c'. reflexivity.
  - intros ok fields Hd.
    unfold loadHistory_settled, loadHistory, loadHistory_response,
      loadHistory_json, loadHistory_render, bindP, liftC, modify.
    cbn [state_of fst snd json Get].
    destruct (ToBoolean (lookup "success" fields)); [ | reflexivity ].
    destruct (lookup "data" fields) as [ | | b | n | str | l | fs ] eqn:Hl;
      try (exfalso; exact (Hd _ eq_refl));
      cbn [Get]; try reflexivity;
      try (destruct (ToNumber _); [ | reflexivity ]);
      destruct (Num.ltb Num.zero _); reflexivity.
Qed.

(** ** Events along a run *)

Lemma run_reachable (w w' : World) (evs : list event) :
  reachable w -> run w evs = Some w' -> reachable w'.
Proof.
  revert w. induction evs as [ | ev rest IH ]; intros w Hr Hrun.
  - injection Hrun as <-. exact Hr.
  - cbn [run] in Hrun. destruct (step w ev) as [ w1 | ] eqn:Hstep;
      [ | discriminate ].
    exact (IH w1 (reach_step _ _ _ Hr Hstep) Hrun).
Qed.

Lemma run_keeps {A} (skip : event -> bool) (f : State -> A) :
  (forall ev s s', kept ev s s' -> skip ev = false -> f s' = f s) ->
  forall (evs : list event) (w w' : World),
    reachable w ->
    forallb (fun ev => negb (skip ev)) evs = true ->
    run w evs = Some w' ->
    f (page w') = f (page w).
Proof.
  intros Hkeep.
  induction evs as [ | ev rest IH ]; intros w w' Hr Hall Hrun.
  - now injection Hrun as <-.
  - cbn [run] in Hrun. destruct (step w ev) as [ w1 | ] eqn:Hstep;
      [ | discriminate ].
    cbn [forallb] in Hall. apply andb_prop in Hall.
    destruct Hall as [ Hev Hall ].
    rewrite (IH w1 w' (reach_step _ _ _ Hr Hstep) Hall Hrun).
    apply (Hkeep ev).
    + exact (proj2 (step_orderly _ _ _ (reachable_calm _ Hr) Hstep)).
    + now destruct (skip ev).
Qed.

(** X14: the user's inputs belong to the user.  Along any sequence of
    events none of which comes from the user (messages of the status
    channel, responses and bodies arriving, sockets opening and
    closing, timers), the text of the URL field, the format radios, the
    two quality choices and the visibility of the two quality selectors
    stay as they were: no handler and no awaiting function rewrites
    them. *)
Theorem inputs_belong_to_user (w w' : World) (evs : list event) :
  reachable w ->
  forallb (fun ev => negb (from_user ev)) evs = true ->
  run w evs = Some w' ->
  form_inputs (form (page w')) = form_inputs (form (page w)).
Proof.
  apply (run_keeps from_user (fun s => form_inputs (form s))).
  intros ev s s' (_ & H & _) Hev. exact (H Hev).
Qed.

(** X15: only a message changes the progress message.  Along any
    sequence of events that holds no message of the status channel, the
    text of the progress message stays as it was; in particular a click
    on the download button with a URL that is not blank resets the bar,
    the percent, the speed and the remaining time to their zero values
    and keeps the message of the previous download. *)
Theorem progress_message_persists (w w' : World) (evs : list event) :
  reachable w ->
  forallb (fun ev => negb (is_message ev)) evs = true ->
  run w evs = Some w' ->
  progressMessage (progress (page w'))
  = progressMessage (progress (page w)) /\
  (forall w0 w1,
     step w0 ClickDownload = Some w1 ->
     Str.is_empty (Str.trim (videoUrl_value (form (page w0)))) = false ->
     progress (page w1)
     = mkProgress "0%" "0%" "0 MB/s" "-- 残り"
                  (progressMessage (progress (page w0)))).
Proof.
  intros Hr Hall Hrun. split.
  - revert w w' Hr Hall Hrun.
    apply (run_keeps is_message (fun s => progressMessage (progress s))).
    intros ev s s' (_ & _ & H & _) Hev. exact (H Hev).
  - intros w0 w1 Hstep Hurl. cbn [step] in Hstep.
    destruct (_ && _); [ | discriminate ].
    injection Hstep as <-.
    unfold run_handler, call_async, handleDownload. cbn [page].
    rewrite Hurl, updateProgress_reset. reflexivity.
Qed.

Lemma transport_step (w w' : World) (ev : event) :
  is_transport ev = true ->
  step w ev = Some w' ->
  display (page w') = display (page w) /\ pending w' = pending w.
Proof.
  intros Hev Hstep.
  destruct ev; try discriminate Hev; cbn [step] in Hstep.
  - destruct (readyState_of ws (page w)) as [ [ | | ] | ];
      try discriminate Hstep.
    injection Hstep as <-. split; [ reflexivity | apply app_nil_r ].
  - destruct (readyState_of ws (page w)) as [ [ | | ] | ];
      try discriminate Hstep;
      (injection Hstep as <-; split; [ reflexivity | apply app_nil_r ]).
  - destruct (readyState_of ws (page w)) as [ [ | | ] | ];
      try discriminate Hstep;
      (injection Hstep as <-; split; [ reflexivity | apply app_nil_r ]).
  - destruct (nth_error (timers (env (page w))) i) as [ t | ];
      [ | discriminate ].
    destruct (timer_due t <=? clock (env (page w)))%Z; [ | discriminate ].
    injection Hstep as <-. destruct (timer_callback t).
    split; reflexivity.
  - destruct (0 <=? ms)%Z; [ | discriminate ].
    injection Hstep as <-. split; reflexivity.
Qed.

(** X16: the connection is never shown.  Along any sequence of sockets
    opening, failing and closing, timers firing and time passing, the
    four sections, the preview, the progress display, the completed
    file, the error text, the history and the form (its two buttons
    included) stay as they were, and no request is started: losing the
    connection and reconnecting are only logged to the console. *)
Theorem connection_never_shown (w w' : World) (evs : list event) :
  forallb is_transport evs = true ->
  run w evs = Some w' ->
  display (page w') = display (page w) /\ pending w' = pending w.
Proof.
  revert w. induction evs as [ | ev rest IH ]; intros w Hall Hrun.
  - injection Hrun as <-. split; reflexivity.
  - cbn [run] in Hrun. destruct (step w ev) as [ w1 | ] eqn:Hstep;
      [ | discriminate ].
    cbn [forallb] in Hall. apply andb_prop in Hall.
    destruct Hall as [ Hev Hall ].
    destruct (transport_step _ _ _ Hev Hstep) as [ H1 H2 ].
    destruct (IH w1 Hall Hrun) as [ H3 H4 ].
    split; congruence.
Qed.

(** X17: the Enter key is not guarded by the button.  Once the
    listeners are bound, pressing Enter in the URL field with a URL
    that is not blank calls [handleFetchInfo] and leaves one more
    fetch of [/api/video-info] waiting, also while the button is
    disabled because an earlier fetch has not settled (a click on the
    disabled button does nothing).  Any other key changes nothing. *)
Theorem enter_key_unguarded (w : World) :
  listeners_bound (form (page w)) = true ->
  Str.is_empty (Str.trim (videoUrl_value (form (page w)))) = false ->
  step w (KeyPress "Enter")
  = Some (mkWorld
            (state_of (handleFetchInfo (page w)))
            (pending w
             ++ [AwaitFetch
                   (video_info_request
                      (Str.trim (videoUrl_value (form (page w)))))
                   handleFetchInfo_response])
            (console_output w)) /\
  (disabled (fetchInfoBtn (form (page w))) = true ->
   step w ClickFetchInfo = None) /\
  (forall key, key <> "Enter" -> step w (KeyPress key) = Some w).
Proof.
  intros Hl Hurl. cbn [step]. rewrite Hl.
  split; [ | split ].
  - cbn [String.eqb Ascii.eqb Bool.eqb].
    unfold run_handler, call_async, handleFetchInfo. rewrite Hurl.
    cbn. now rewrite app_nil_r.
  - intros ->. reflexivity.
  - intros key Hkey.
    destruct (String.eqb_spec key "Enter") as [ -> | _ ];
      [ now elim Hkey | reflexivity ].
Qed.

(** ** The formats on ranges of whole numbers *)

Lemma all_from_spec (f : Z -> bool) (count : nat) (a z : Z) :
  all_from count a f = true ->
  (a <= z < a + Z.of_nat count)%Z -> f z = true.
Proof.
  revert a. induction count as [ | count IH ]; intros a H Hz.
  - cbn in Hz. lia.
  - cbn [all_from] in H. apply andb_prop in H. destruct H as [Ha H].
    destruct (Z.eq_dec z a) as [ -> | Hne ]; [ exact Ha | ].
    apply (IH (a + 1)%Z H). lia.
Qed.

Lemma returns_spec (c : completion string) (expected : string) :
  returns c expected = true -> c = Normal expected.
Proof.
  destruct c as [ text | e ]; cbn; [ | discriminate ].
  intros H. apply String.eqb_eq in H. now subst.
Qed.

(** X18: the remaining time for whole seconds.  For every whole number
    of seconds from 1 to 3999, [formatEta] gives the seconds alone
    below one minute, and from one minute on the whole minutes and the
    seconds left over; minutes are never folded into hours (zero
    seconds is the one value below that reads [-- 残り]). *)
Theorem formatEta_whole_seconds (n : Z) :
  (1 <= n < 4000)%Z ->
  formatEta (VNum (Num.of_Z n)) = Normal (eta_text n).
Proof.
  intros Hn. apply returns_spec.
  apply (all_from_spec eta_agrees (Z.to_nat 3999) 1 n); [ | lia ].
  vm_compute. reflexivity.
Qed.

(** X19: the duration for whole seconds.  For every whole number of
    seconds from 1 to 6599, [formatDuration] gives the whole minutes
    and the seconds left over, each written with at least two digits;
    from 100 minutes on the minutes take three digits, and there is no
    hours part. *)
Theorem formatDuration_whole_seconds (n : Z) :
  (1 <= n < 6600)%Z ->
  formatDuration (VNum (Num.of_Z n)) = Normal (duration_text n).
Proof.
  intros Hn. apply returns_spec.
  apply (all_from_spec duration_agrees (Z.to_nat 6599) 1 n); [ | lia ].
  vm_compute. reflexivity.
Qed.

(** X20: the speed for whole KiB per second.  For every speed of [k]
    KiB/s with [k] from 1 to 4096 (up to 4 MiB/s), [formatSpeed] gives
    the speed in units of 1048576 bytes, rounded to the nearest
    hundredth, a tie going up, with two decimals. *)
Theorem formatSpeed_whole_kib (k : Z) :
  (1 <= k <= 4096)%Z ->
  formatSpeed (VNum (Num.of_Z (1024 * k)))
  = Normal (speed_text (1024 * k)).
Proof.
  intros Hk. apply returns_spec.
  apply (all_from_spec (fun k => speed_agrees (1024 * k))
                       (Z.to_nat 4096) 1 k); [ | lia ].
  vm_compute. reflexivity.
Qed.

(** X21: the percent for whole and half values.  For a progress of [h]
    halves, [h] from -200 to 400 (progress -100 to 200), the percent
    shown is the progress rounded to the nearest whole number, a half
    going up; it is not clamped to the range 0 to 100.  The bar takes
    that width, except for a negative one, which the style rejects:
    the bar then keeps its width while the text shows the negative
    percent. *)
Theorem percent_rounding (h : Z) (s : State) :
  (-200 <= h <= 400)%Z ->
  let data :=
    VObj [("progress", VNum (Num.div (Num.of_Z h) (Num.of_Z 2)))] in
  snd (updateProgress data s) = Normal tt /\
  progressPercent (progress (fst (updateProgress data s)))
  = Str.of_Z ((h + 1) / 2) ++ "%" /\
  progressBar_width (progress (fst (updateProgress data s)))
  = if (-1 <=? h)%Z then Str.of_Z ((h + 1) / 2) ++ "%"
    else progressBar_width (progress s).
Proof.
  intros Hh data. subst data.
  assert (Hc : percent_agrees h = true).
  { apply (all_from_spec percent_agrees (Z.to_nat 601) (-200) h); [ | lia ].
    vm_compute. reflexivity. }
  unfold percent_agrees in Hc. apply andb_prop in Hc.
  destruct Hc as [ Ht Hw ].
  apply String.eqb_eq in Ht. apply Bool.eqb_prop in Hw.
  rewrite updateProgress_object.
  cbn [lookup String.eqb Ascii.eqb Bool.eqb].
  assert (Hn : ToNumber
                 (or_else (VNum (Num.div (Num.of_Z h) (Num.of_Z 2)))
                          (VNum Num.zero))
               = Normal
                   (if Num.truthy (Num.div (Num.of_Z h) (Num.of_Z 2))
                    then Num.div (Num.of_Z h) (Num.of_Z 2)
                    else Num.zero)).
  { unfold or_else. cbn [ToBoolean].
    now destruct (Num.truthy _). }
  rewrite Hn.
  change (formatSpeed (or_else VUndefined (VNum Num.zero)))
    with (@Normal string "0 MB/s").
  change (formatEta (or_else VUndefined (VNum Num.zero)))
    with (@Normal string "-- 残り").
  cbn [fst snd progress with_progress progressPercent progressBar_width].
  fold (percent_text h). rewrite Ht.
  split; [ reflexivity | ].
  split; [ reflexivity | ].
  unfold Css.set_width. rewrite <- Ht, Hw.
  now destruct (-1 <=? h)%Z.
Qed.

(** ** Loading the page, and the responses *)

(** X22: what loading the page does.  On a page as the document
    delivers it, the listener of [DOMContentLoaded] binds the
    listeners, opens one socket, which becomes the current one, at
    [wss://<host>/ws] when the page was served over https and at
    [ws://<host>/ws] otherwise, and leaves one [fetch] of
    [/api/history] waiting; no timer is set, nothing is logged, and the
    sections and the history list are untouched until that fetch
    settles. *)
Theorem page_load (s : State) :
  fresh s ->
  pending (loaded s) = [AwaitFetch history_request loadHistory_response] /\
  console_output (loaded s) = [] /\
  sockets (env (page (loaded s)))
  = [mkSocket (socket_address (env s)) CONNECTING] /\
  websocket (globals (page (loaded s))) = Some 0%nat /\
  timers (env (page (loaded s))) = [] /\
  listeners_bound (form (page (loaded s))) = true /\
  sections (page (loaded s)) = sections s /\
  historyList (page (loaded s)) = historyList s /\
  (location_protocol (env s) = "https:" ->
   socket_address (env s) = "wss://" ++ location_host (env s) ++ "/ws") /\
  (location_protocol (env s) <> "https:" ->
   socket_address (env s) = "ws://" ++ location_host (env s) ++ "/ws").
Proof.
  intros (_ & _ & _ & _ & Hs & Ht).
  unfold loaded, run_handler. cbn. rewrite Hs, Ht. cbn.
  repeat split.
  - intros H. unfold socket_address. now rewrite H.
  - intros H. unfold socket_address.
    destruct (String.eqb_spec (location_protocol (env s)) "https:");
      [ now elim H | reflexivity ].
Qed.

(** X23: responses never move the progress.  In every world the loaded
    page can reach, a [fetch] settling or a body arriving, for
    whichever of the waiting functions, leaves the progress display
    (bar, percent, speed, remaining time, message), the completed-file
    display and [currentDownloadId] as they were: only messages of the
    status channel and the user's clicks change them. *)
Theorem responses_leave_progress (w w' : World) (ev : event) :
  reachable w ->
  is_response ev = true ->
  step w ev = Some w' ->
  progress (page w') = progress (page w) /\
  complete (page w') = complete (page w) /\
  currentDownloadId (globals (page w'))
  = currentDownloadId (globals (page w)).
Proof.
  intros Hr Hev Hstep.
  pose proof (reachable_calm _ Hr) as Hc. unfold calm in Hc.
  rewrite Forall_forall in Hc.
  destruct ev; try discriminate Hev; cbn [step] in Hstep.
  - destruct (nth_error (pending w) i) as [ [ | rq k | r k ] | ] eqn:Hi;
      try discriminate Hstep.
    pose proof (Hc _ (nth_error_In _ _ Hi)) as Hk.
    inversion Hk as [ | rq0 k0 Hs _ | ]; subst.
    destruct (Hs fr (page w)) as (_ & H1 & H2 & H3).
    injection Hstep as <-. unfold resume.
    destruct (k fr (page w)) as [ [ s1 out ] t ].
    cbn [state_of fst] in H1, H2, H3. now repeat split.
  - destruct (nth_error (pending w) i) as [ [ | rq k | r k ] | ] eqn:Hi;
      try discriminate Hstep.
    pose proof (Hc _ (nth_error_In _ _ Hi)) as Hk.
    inversion Hk as [ | | r0 k0 Hs _ ]; subst.
    destruct (Hs (json r) (page w)) as (_ & H1 & H2 & H3).
    injection Hstep as <-. unfold resume.
    destruct (k (json r) (page w)) as [ [ s1 out ] t ].
    cbn [state_of fst] in H1, H2, H3. now repeat split.
Qed.

End Further.

(* ================================================================== *)
(** * The statements at concrete inputs *)

#[local] Existing Instance sample_engine.

(** The first socket of the sample page closes at time 0. *)
Lemma reconnection_policy_witness :
  reachable (loaded sample_page) /\
  exists w' : World,
    step (loaded sample_page) (SocketCloses 0) = Some w' /\
    timers (env (page w')) = [mkTimer 3000 cb_initWebSocket].
Proof.
  assert (H : reachable (loaded sample_page)).
  { apply reach_loaded. repeat split. }
  split; [ exact H | ].
  eexists. split; [ reflexivity | ].
  exact (proj1 (proj2 (proj1 (proj2 (proj2 (reconnection_policy _ H)))
                         0%nat _ eq_refl))).
Defined.

(** On a page in the middle of a download, an event without fields
    puts the percent back to zero; the event of the scenario shows its
    own progress. *)
Lemma downloading_event_defaults_witness :
  progressPercent (progress busy_page) = "43%" /\
  progressPercent
    (progress
       (final (handleWebSocketMessage
                 (VObj [("status", VStr "downloading")]) busy_page)))
  = "0%" /\
  progressPercent
    (progress (final (handleWebSocketMessage downloading_event sample_page)))
  = "43%".
Proof.
  split; [ reflexivity | ].
  pose proof (downloading_event_defaults
                [("status", VStr "downloading")] busy_page eq_refl) as H.
  cbv zeta in H.
  destruct H as (_ & _ & H3 & _ & H5).
  split;
    [ exact (proj1 (proj1 (H5 (H3 eq_refl eq_refl eq_refl)) eq_refl)) | ].
  pose proof (downloading_event_defaults
                [("status", VStr "downloading"); ("progress", VNum n42_7);
                 ("speed", VNum (Num.of_Z 2097152));
                 ("eta", VNum (Num.of_Z 75))]
                sample_page eq_refl) as G.
  cbv zeta in G.
  destruct G as (G1 & _ & _ & _ & G5).
  exact (proj1 (proj2 (G5 (proj2 G1 eq_refl))) n42_7 eq_refl eq_refl).
Defined.

Lemma unknown_status_ignored_witness :
  handleWebSocketMessage
    (VObj [("status", VStr "queued")]) sample_page
  = mkResult sample_page [] [] (Normal tt).
Proof.
  refine (proj1 (unknown_status_ignored
                   (VObj [("status", VStr "queued")]) (VStr "queued")
                   sample_page eq_refl _ _ _ _)); discriminate.
Defined.

Lemma malformed_payload_raises_witness :
  ws_onmessage "{oops" sample_page
  = mkResult sample_page [] []
      (Throw (mkExn "SyntaxError" "Unexpected token")).
Proof.
  exact (proj1 (malformed_payload_raises "{oops"
                  (mkExn "SyntaxError" "Unexpected token") sample_page
                  eq_refl)).
Defined.

(** The sample page with three spaces typed in the URL field. *)
Lemma empty_url_rejected_witness :
  Str.trim "   " = "" /\
  handleDownload
    (with_form (set_videoUrl "   " false) sample_page)
  = (fst (showError (VStr "URLを入力してください")
            (with_form (set_videoUrl "   " false) sample_page)),
     [], Done).
Proof.
  split; [ reflexivity | ].
  exact (proj1 (proj2 (empty_url_rejected
                         (with_form (set_videoUrl "   " false) sample_page)
                         eq_refl))).
Defined.

Lemma handleDownload_resets_progress_witness :
  exists (s' : State) (rq : request),
    handleDownload
      (with_form (set_videoUrl " https://youtu.be/x " false) sample_page)
    = (s', [], AwaitFetch rq handleDownload_response) /\
    req_url rq = "/api/download" /\
    req_method rq = "POST" /\
    progressSection_hidden (sections s') = false /\
    progressBar_width (progress s') = "0%" /\
    progressPercent (progress s') = "0%" /\
    progressSpeed (progress s') = "0 MB/s" /\
    progressEta (progress s') = "-- 残り".
Proof.
  apply (handleDownload_resets_progress
           (with_form (set_videoUrl " https://youtu.be/x " false)
                      sample_page)).
  vm_compute. discriminate.
Defined.


(** C4, as first stated, asks that nothing but the error message
    changes.  On a page that shows a preview, an empty URL makes both
    operations hide the preview section: the sections other than the error
    section do not stay as they were. *)
Lemma empty_url_hides_preview :
  Str.trim (videoUrl_value (form preview_page)) = "" /\
  previewSection_hidden (sections preview_page) = false /\
  previewSection_hidden (sections (state_of (handleFetchInfo preview_page)))
    = true /\
  previewSection_hidden (sections (state_of (handleDownload preview_page)))
    = true /\
  sections (state_of (handleFetchInfo preview_page))
    <> mkSections false true true false.
Proof. repeat split. discriminate. Qed.

(** Two reloads in a row, the second returning two entries: the history
    shows these two entries and nothing else. *)
Lemma history_rendering_witness :
  historyList
    (reload [Fulfilled (mkResponse true (Normal history_body));
             Fulfilled (mkResponse true (Normal history_body))]
            sample_page)
  = [HistoryItem
       (history_item_markup "https://i.example/a1.jpg" "First" "First"
                            "Invalid Date")
       (VObj [("id", VStr "a1"); ("title", VStr "First");
              ("thumbnail", VStr "https://i.example/a1.jpg");
              ("completed_at", VStr "2024-05-01T10:00:00")]);
     HistoryItem
       (history_item_markup no_thumbnail "Second" "Second" "Invalid Date")
       (VObj [("id", VStr "b2"); ("title", VStr "Second");
              ("completed_at", VStr "2024-05-02T11:30:00")])].
Proof.
  destruct (history_rendering sample_page)
    as (_ & _ & _ & _ & _ & _ & _ & _ & _ & H).
  exact (H [Fulfilled (mkResponse true (Normal history_body))]
           (Fulfilled (mkResponse true (Normal history_body)))).
Defined.

(** C9, as first stated, asks for one entry for each item of a list
    that is not empty.  A list of two items whose second is [null]
    renders no entry at all: the history shows the placeholder. *)
Lemma history_null_item_placeholder :
  lookup "data" [("success", VBool true);
                 ("data",
                  VArr [VObj [("id", VStr "a1"); ("title", VStr "First");
                              ("completed_at",
                               VStr "2024-05-01T10:00:00")];
                        VNull])]
  = VArr [VObj [("id", VStr "a1"); ("title", VStr "First");
                ("completed_at", VStr "2024-05-01T10:00:00")];
          VNull] /\
  historyList
    (loadHistory_settled
       (Fulfilled (mkResponse true (Normal history_with_null))) sample_page)
  = [HistoryEmpty].
Proof. split; reflexivity. Qed.

(* ================================================================== *)
(** * Runs of the model *)

(** 42.7 is 0x1.559999999999ap+5. *)
Example n42_7_bits : n42_7 = S754_finite false 6009490752772506 (-47).
Proof. reflexivity. Qed.

(** [trim] removes an ideographic space, a space, a tab and a no-break
    space around [hi]. *)
Example trim_unicode :
  Str.trim (Str.utf8 [227; 128; 128; 32; 104; 105; 9; 194; 160]) = "hi".
Proof. reflexivity. Qed.

Example Math_round_ties :
  map (fun q => Number_toString
                  (Num.Math_round (Num.div (Num.of_Z q) (Num.of_Z 2))))
      [1; 3; 5; -1; -3; -5]%Z
  = ["1"; "2"; "3"; "0"; "-1"; "-2"].
Proof. vm_compute. reflexivity. Qed.

Example toFixed_rounding :
  map (fun q => Num.toFixed number_general
                  (Num.div (Num.of_Z q) (Num.of_Z 1000)) 2)
      [5; 1005; 123456; -1; 2000]%Z
  = ["0.01"; "1.00"; "123.46"; "-0.00"; "2.00"].
Proof. vm_compute. reflexivity. Qed.

Example formatEta_examples :
  map (fun n => formatEta (VNum (Num.of_Z n))) [0; 45; 75; 3600]%Z
  = [Normal "-- 残り"; Normal "45秒 残り"; Normal "1分15秒 残り";
     Normal "60分0秒 残り"].
Proof. vm_compute. reflexivity. Qed.

Example formatDuration_125 :
  formatDuration (VNum (Num.of_Z 125)) = Normal "02:05".
Proof. vm_compute. reflexivity. Qed.

(** A width that is not valid CSS leaves the bar as it was, while the
    text shows it. *)
Example negative_progress :
  progress (fst (updateProgress
                   (VObj [("progress", VNum (Num.of_Z (-5)))]) sample_page))
  = mkProgress "0%" "-5%" "0 MB/s" "-- 残り" "".
Proof. vm_compute. reflexivity. Qed.

(** The socket opens, closes, and is replaced three seconds later. *)
Example reconnect_run :
  option_map
    (fun w => (sockets (env (page w)), timers (env (page w)),
               websocket (globals (page w))))
    (run (loaded sample_page)
         [SocketOpens 0; SocketCloses 0; TimePasses 3000; TimerFires 0;
          SocketOpens 1])
  = Some ([mkSocket "ws://localhost:8000/ws" CLOSED;
           mkSocket "ws://localhost:8000/ws" OPEN], [], Some 1%nat).
Proof. vm_compute. reflexivity. Qed.

(** A download from start to end: the URL is typed, the button clicked,
    the server acknowledges, progress and completion arrive on the
    socket, and the history is reloaded. *)
Example download_run :
  option_map
    (fun w => (sections (page w), progress (page w), complete (page w),
               downloadBtn (form (page w)), historyList (page w),
               List.length (pending w)))
    (run (loaded sample_page)
         [SocketOpens 0;
          FetchSettles 0
            (Fulfilled (mkResponse true
                          (Normal (VObj [("success", VBool true);
                                         ("data", VArr [])]))));
          BodyRead 0;
          UserTypesUrl "https://youtu.be/x";
          ClickDownload;
          FetchSettles 0
            (Fulfilled (mkResponse true (Normal (VObj []))));
          BodyRead 0;
          SocketMessage 0 "null"])
  = Some (mkSections true false true true,
          mkProgress "0%" "0%" "0 MB/s" "-- 残り" "",
          mkComplete "" "" "",
          mkButton false "1" "pointer",
          [HistoryEmpty], 0%nat).
Proof. vm_compute. reflexivity. Qed.

(* ================================================================== *)
(** * The further statements at concrete inputs *)

Lemma loaded_sample_reachable : reachable (loaded sample_page).
Proof. apply reach_loaded. repeat split. Defined.

(** A download is started and the socket closes. *)
Lemma sections_stay_exclusive_witness :
  exists w,
    run (loaded sample_page)
        [UserTypesUrl "https://youtu.be/x"; ClickDownload; SocketCloses 0]
    = Some w /\
    exclusive (sections (page w)) = true.
Proof.
  assert (Hs : option_map (fun _ => tt)
                 (run (loaded sample_page)
                      [UserTypesUrl "https://youtu.be/x"; ClickDownload;
                       SocketCloses 0])
               = Some tt) by (vm_compute; reflexivity).
  destruct (run (loaded sample_page)
                [UserTypesUrl "https://youtu.be/x"; ClickDownload;
                 SocketCloses 0])
    as [ w | ] eqn:Hr; [ | discriminate Hs ].
  exists w. split; [ reflexivity | ].
  exact (sections_stay_exclusive sample_page _ w eq_refl Hr).
Defined.

(** After the first socket has closed and the timer has fired, the
    global names the second socket. *)
Lemma current_socket_witness :
  exists w,
    run (loaded sample_page)
        [SocketCloses 0; TimePasses 3000; TimerFires 0]
    = Some w /\
    List.length (sockets (env (page w))) = 2%nat /\
    websocket (globals (page w))
    = Some (Nat.pred (List.length (sockets (env (page w))))).
Proof.
  assert (Hs : option_map
                 (fun w => List.length (sockets (env (page w))))
                 (run (loaded sample_page)
                      [SocketCloses 0; TimePasses 3000; TimerFires 0])
               = Some 2%nat) by (vm_compute; reflexivity).
  destruct (run (loaded sample_page)
                [SocketCloses 0; TimePasses 3000; TimerFires 0])
    as [ w | ] eqn:Hr; [ | discriminate Hs ].
  exists w. split; [ reflexivity | ].
  split; [ now injection Hs | ].
  exact (proj1 (current_socket
                  w (run_reachable _ _ _ loaded_sample_reachable Hr))).
Defined.

Lemma download_acknowledged_witness :
  after_fetch handleDownload_response
              (Fulfilled (mkResponse true (Normal VNull)))
              sample_page (fun s => s)
  = (handleDownload_finally sample_page,
     [console_log [CText "ダウンロード開始:"; CValue VNull]], Done).
Proof.
  exact (proj1 (download_acknowledged
                  (mkResponse true (Normal VNull)) VNull sample_page
                  (fun s => s) eq_refl eq_refl)).
Defined.

(** The sample page has [video] checked and the quality [best]. *)
Lemma download_request_fields_witness :
  exists quality audioOnly audioQuality,
    rest_of (handleDownload typed_page)
    = AwaitFetch
        (download_request "https://youtu.be/x" quality audioOnly audioQuality)
        handleDownload_response /\
    quality = "best" /\ audioOnly = false /\ audioQuality = "192".
Proof.
  destruct (download_request_fields typed_page eq_refl)
    as (quality & audioOnly & audioQuality & H & Hv & _).
  exists quality, audioOnly, audioQuality.
  split; [ exact H | exact (Hv eq_refl) ].
Defined.

Lemma finished_event_message_witness :
  progressMessage
    (progress
       (final (handleWebSocketMessage
                 (VObj [("status", VStr "finished")]) busy_page)))
  = "ファイルを処理中..." /\
  progressMessage
    (progress
       (final (handleWebSocketMessage
                 (VObj [("status", VStr "finished");
                        ("message", VStr "Merging formats")]) busy_page)))
  = "Merging formats".
Proof.
  split.
  - exact (proj2 (proj1 (proj2 (proj2 (finished_event_message
                                         [("status", VStr "finished")]
                                         busy_page eq_refl)))
                        eq_refl)).
  - refine (proj2 (proj1 (proj2 (proj2 (proj2
              (finished_event_message
                 [("status", VStr "finished");
                  ("message", VStr "Merging formats")]
                 busy_page eq_refl))))
              "Merging formats" eq_refl _)).
    discriminate.
Defined.

Lemma error_event_shown_witness :
  errorMessage
    (final (handleWebSocketMessage
              (VObj [("status", VStr "error"); ("error", VStr "HTTP 403")])
              sample_page))
  = "HTTP 403".
Proof.
  destruct (error_event_shown
              [("status", VStr "error"); ("error", VStr "HTTP 403")]
              sample_page eq_refl)
    as (_ & _ & _ & _ & _ & _ & _ & H & _).
  exact (proj2 (H "HTTP 403" eq_refl)).
Defined.

Lemma completed_without_result_witness :
  sections
    (final (handleWebSocketMessage
              (VObj [("status", VStr "completed")]) sample_page))
  = complete_only.
Proof.
  exact (proj1 (proj2 (completed_without_result
                         [("status", VStr "completed")] sample_page
                         eq_refl (or_intror eq_refl)))).
Defined.

(** The socket opens and the fetch of the history is rejected. *)
Lemma inputs_belong_to_user_witness :
  exists w,
    run (loaded sample_page)
        [SocketOpens 0;
         FetchSettles 0 (Rejected (mkExn "TypeError" "Failed to fetch"))]
    = Some w /\
    form_inputs (form (page w))
    = form_inputs (form (page (loaded sample_page))).
Proof.
  assert (Hs : option_map (fun _ => tt)
                 (run (loaded sample_page)
                      [SocketOpens 0;
         FetchSettles 0 (Rejected (mkExn "TypeError" "Failed to fetch"))])
               = Some tt) by (vm_compute; reflexivity).
  destruct (run (loaded sample_page)
                [SocketOpens 0;
         FetchSettles 0 (Rejected (mkExn "TypeError" "Failed to fetch"))])
    as [ w | ] eqn:Hr; [ | discriminate Hs ].
  exists w. split; [ reflexivity | ].
  apply (inputs_belong_to_user
           (loaded sample_page) w
           [SocketOpens 0;
            FetchSettles 0 (Rejected (mkExn "TypeError" "Failed to fetch"))]);
    [ exact loaded_sample_reachable | reflexivity | exact Hr ].
Defined.

(** A URL is typed and a download started. *)
Lemma progress_message_persists_witness :
  exists w1 w2,
    run (loaded sample_page) [SocketOpens 0; SocketMessage 0 finished_text]
    = Some w1 /\
    run w1 [UserTypesUrl "https://youtu.be/x"; ClickDownload] = Some w2 /\
    progressMessage (progress (page w1)) = "ファイルを処理中..." /\
    progressMessage (progress (page w2))
    = progressMessage (progress (page w1)) /\
    progressPercent (progress (page w2)) = "0%".
Proof.
  assert (H1 : option_map
                 (fun w => progressMessage (progress (page w)))
                 (run (loaded sample_page)
                      [SocketOpens 0; SocketMessage 0 finished_text])
               = Some "ファイルを処理中...")
    by (vm_compute; reflexivity).
  assert (H2 : option_map
                 (fun w => progressPercent (progress (page w)))
                 match run (loaded sample_page)
                           [SocketOpens 0; SocketMessage 0 finished_text]
                 with
                 | Some w1 =>
                     run w1 [UserTypesUrl "https://youtu.be/x";
                             ClickDownload]
                 | None => None
                 end
               = Some "0%")
    by (vm_compute; reflexivity).
  destruct (run (loaded sample_page)
                [SocketOpens 0; SocketMessage 0 finished_text])
    as [ w1 | ] eqn:Hr1; [ | discriminate H1 ].
  destruct (run w1 [UserTypesUrl "https://youtu.be/x"; ClickDownload])
    as [ w2 | ] eqn:Hr2; [ | discriminate H2 ].
  exists w1, w2.
  split; [ reflexivity | ]. split; [ exact Hr2 | ].
  split; [ now injection H1 | ].
  split; [ | now injection H2 ].
  exact (proj1 (progress_message_persists
                  w1 w2 [UserTypesUrl "https://youtu.be/x"; ClickDownload]
                  (run_reachable _ _ _ loaded_sample_reachable Hr1)
                  eq_refl Hr2)).
Defined.

(** The socket closes and, 3000 ms later, a new one is created. *)
Lemma connection_never_shown_witness :
  exists w,
    run (loaded sample_page)
        [SocketCloses 0; TimePasses 3000; TimerFires 0]
    = Some w /\
    display (page w) = display (page (loaded sample_page)).
Proof.
  assert (Hs : option_map (fun _ => tt)
                 (run (loaded sample_page)
                      [SocketCloses 0; TimePasses 3000; TimerFires 0])
               = Some tt) by (vm_compute; reflexivity).
  destruct (run (loaded sample_page)
                [SocketCloses 0; TimePasses 3000; TimerFires 0])
    as [ w | ] eqn:Hr; [ | discriminate Hs ].
  exists w. split; [ reflexivity | ].
  exact (proj1 (connection_never_shown
                  (loaded sample_page) w
                  [SocketCloses 0; TimePasses 3000; TimerFires 0]
                  eq_refl Hr)).
Defined.

(** A fetch is waiting and the button is disabled: a click does
    nothing, Enter starts a second fetch. *)
Lemma enter_key_unguarded_witness :
  disabled (fetchInfoBtn (form (page waiting_world))) = true /\
  List.length (pending waiting_world) = 1%nat /\
  step waiting_world ClickFetchInfo = None /\
  exists w,
    step waiting_world (KeyPress "Enter") = Some w /\
    List.length (pending w) = 2%nat.
Proof.
  split; [ reflexivity | ]. split; [ reflexivity | ].
  destruct (enter_key_unguarded waiting_world eq_refl eq_refl)
    as (H1 & H2 & _).
  split; [ exact (H2 eq_refl) | ].
  eexists. split; [ exact H1 | reflexivity ].
Defined.

Lemma formatEta_whole_seconds_witness :
  formatEta (VNum (Num.of_Z 75)) = Normal "1分15秒 残り".
Proof.
  apply (formatEta_whole_seconds 75). lia.
Defined.

Lemma formatDuration_whole_seconds_witness :
  formatDuration (VNum (Num.of_Z 6005)) = Normal "100:05".
Proof.
  apply (formatDuration_whole_seconds 6005). lia.
Defined.

Lemma formatSpeed_whole_kib_witness :
  formatSpeed (VNum (Num.of_Z (1024 * 1500))) = Normal "1.46 MB/s".
Proof.
  apply (formatSpeed_whole_kib 1500). lia.
Defined.

Lemma percent_rounding_witness :
  progressPercent
    (progress
       (fst (updateProgress
               (VObj [("progress",
                       VNum (Num.div (Num.of_Z 85) (Num.of_Z 2)))])
               sample_page)))
  = "43%".
Proof.
  refine (proj1 (proj2 (percent_rounding 85 sample_page _))). lia.
Defined.

Lemma page_load_witness :
  sockets (env (page (loaded sample_page)))
  = [mkSocket "ws://localhost:8000/ws" CONNECTING].
Proof.
  refine (proj1 (proj2 (proj2 (page_load sample_page _)))).
  repeat split.
Defined.

Lemma responses_leave_progress_witness :
  exists w,
    step (loaded sample_page)
         (FetchSettles 0 (Rejected (mkExn "TypeError" "Failed to fetch")))
    = Some w /\
    progress (page w) = progress (page (loaded sample_page)).
Proof.
  eexists. split; [ reflexivity | ].
  apply (responses_leave_progress
           (loaded sample_page) _
           (FetchSettles 0 (Rejected (mkExn "TypeError" "Failed to fetch"))));
    [ exact loaded_sample_reachable | reflexivity | reflexivity ].
Defined.
